(** * Long-term memory subsystem of the character chatbot

    A shallow embedding of [ChatbotMemoryManager]
    (src/character_chatbot_memory.py): the user-profile operations, the
    conversation save pipeline, the memory ranker, the context assembler and
    the onboarding state machine, over an explicit model of the three
    DynamoDB tables, the S3 bucket, the Bedrock model call, the clock and
    the uuid source; and of the two places that drive it, the block of the
    chat page that runs after each reply (src/character_chatbot.py) and
    the saving at logout (src/character_chatbot_auth.py). *)

From Stdlib Require Import String Ascii.
From Stdlib Require Import List ZArith NArith QArith Bool Lia.
From Stdlib Require Import Sorting.Sorted Sorting.Permutation.
Import ListNotations.
Close Scope Q_scope.
Local Open Scope Z_scope.

Local Set Warnings "-register-all".

(** * Python text

    A Python [str] is a sequence of code points; [len] counts code points,
    so text is a [list N] and not a byte string. *)

Definition pystr := list N.

(** An ASCII literal as Python text. *)
Definition py (s : String.string) : pystr :=
  map Ascii.N_of_ascii (String.list_ascii_of_string s).
Arguments py s%_string.

Fixpoint str_eqb (a b : pystr) : bool :=
  match a, b with
  | [], [] => true
  | x :: a', y :: b' => N.eqb x y && str_eqb a' b'
  | _, _ => false
  end.

(** [str.isspace] on one code point (the whitespace table of CPython). *)
Definition isspace (c : N) : bool :=
  ((9 <=? c) && (c <=? 13) || (28 <=? c) && (c <=? 32) || (c =? 133)
   || (c =? 160) || (c =? 5760) || (8192 <=? c) && (c <=? 8202)
   || (c =? 8232) || (c =? 8233) || (c =? 8239) || (c =? 8287)
   || (c =? 12288))%N.

Fixpoint lstrip (s : pystr) : pystr :=
  match s with
  | c :: r => if isspace c then lstrip r else s
  | [] => []
  end.

Definition rstrip (s : pystr) : pystr := rev (lstrip (rev s)).

(** [s.strip()] *)
Definition strip (s : pystr) : pystr := rstrip (lstrip s).

(** [s.startswith(p)] *)
Fixpoint startswith (p s : pystr) : bool :=
  match p, s with
  | [], _ => true
  | x :: p', y :: s' => N.eqb x y && startswith p' s'
  | _ :: _, [] => false
  end.

(** [s.endswith(p)] *)
Definition endswith (p s : pystr) : bool := startswith (rev p) (rev s).

(** [sep.join(parts)] *)
Fixpoint join (sep : pystr) (parts : list pystr) : pystr :=
  match parts with
  | [] => []
  | [p] => p
  | p :: rest => p ++ sep ++ join sep rest
  end.

(** [l[:n]] for an [int] n: a negative bound counts from the end. *)
Definition slice_to {A} (n : Z) (l : list A) : list A :=
  if 0 <=? n then firstn (Z.to_nat n) l
  else firstn (length l - Z.to_nat (- n)) l.

(** [l[-n:] if len(l) >= n else l], as the code writes it for the last
    four turns. *)
Definition last_n {A} (n : nat) (l : list A) : list A :=
  if (n <=? length l)%nat then skipn (length l - n) l else l.

(** * Exceptions and results *)

Inductive exn : Type :=
| KeyError | IndexError | TypeError | ValueError | AttributeError
| JSONDecodeError
| InvalidOperation (* decimal.InvalidOperation *)
| AdapterError. (* any error raised by boto3: DynamoDB, S3, Bedrock *)

Inductive result (A : Type) : Type :=
| Ok (a : A)
| Raise (e : exn).
Arguments Ok {A} a.
Arguments Raise {A} e.

Definition rbind {A B} (r : result A) (k : A -> result B) : result B :=
  match r with
  | Ok a => k a
  | Raise e => Raise e
  end.

Declare Scope result_scope.
Delimit Scope result_scope with res.
Notation "x <- m ;; k" := (rbind m (fun x => k))
  (at level 61, m at next level, right associativity) : result_scope.

(** [[f(x) for x in l]], stopping at the first exception. *)
Fixpoint map_r {A B} (f : A -> result B) (l : list A) : result (list B) :=
  match l with
  | [] => Ok []
  | x :: r =>
      (y <- f x ;; ys <- map_r f r ;; Ok (y :: ys))%res
  end.

(** [[x for x in l if p(x)]], stopping at the first exception. *)
Fixpoint filter_r {A} (p : A -> result bool) (l : list A) : result (list A) :=
  match l with
  | [] => Ok []
  | x :: r =>
      (b <- p x ;; ys <- filter_r p r ;; Ok (if b then x :: ys else ys))%res
  end.

(** The entries that are there. *)
Fixpoint cat_some {A} (l : list (option A)) : list A :=
  match l with
  | [] => []
  | Some x :: r => x :: cat_some r
  | None :: r => cat_some r
  end.

(** [text.split("\n", 1)[1]]: what follows the first newline;
    [IndexError] when there is none. *)
Fixpoint after_first_newline (s : pystr) : result pystr :=
  match s with
  | [] => Raise IndexError
  | c :: r => if (c =? 10)%N then Ok r else after_first_newline r
  end.

(** * Python values

    What [json.loads] produces and what the tables hold: [None], booleans,
    integers, floats, [Decimal]s (the number type boto3 hands back),
    strings, lists and dicts.  A dict is an association list in insertion
    order.  A finite float is kept by the decimal its [str] prints, the
    shortest one that reads back as that float, which is what
    [Decimal(str(obj))] holds; a [Decimal] by the rational it denotes;
    [float] of a [Decimal] is left to the runtime ([float_of_decimal]). *)

Inductive value : Type :=
| VNone
| VBool (b : bool)
| VInt (z : Z)
| VFloat (q : Q)
| VDecimal (q : Q)
| VStr (s : pystr)
| VList (l : list value)
| VDict (d : list (pystr * value)).

Definition item := list (pystr * value).

(** [k in d] and [d[k]] / [d.get(k)] on the association list. *)
Fixpoint dict_get (k : pystr) (d : item) : option value :=
  match d with
  | [] => None
  | (k', v) :: r => if str_eqb k k' then Some v else dict_get k r
  end.

Definition dict_mem (k : pystr) (d : item) : bool :=
  match dict_get k d with Some _ => true | None => false end.

(** [d[k] = v]: an existing key keeps its place, a new key goes last. *)
Fixpoint dict_set (k : pystr) (v : value) (d : item) : item :=
  match d with
  | [] => [(k, v)]
  | (k', v') :: r =>
      if str_eqb k k' then (k', v) :: r else (k', v') :: dict_set k v r
  end.

(** [d.get(k, default)] *)
Definition get_default (k : pystr) (default : value) (d : item) : value :=
  match dict_get k d with Some v => v | None => default end.

(** [d[k]], raising [KeyError]. *)
Definition subscript (k : pystr) (d : item) : result value :=
  match dict_get k d with Some v => Ok v | None => Raise KeyError end.

(** [v.get(k, default)] on an arbitrary value: only a dict has [get]. *)
Definition py_get (k : pystr) (default : value) (v : value) : result value :=
  match v with
  | VDict d => Ok (get_default k default d)
  | _ => Raise AttributeError
  end.

(** [v[k]] for a string key on an arbitrary value. *)
Definition py_subscript (k : pystr) (v : value) : result value :=
  match v with
  | VDict d => subscript k d
  | _ => Raise TypeError
  end.

(** Truth value of a Python object ([bool(v)]). *)
Definition truthy (v : value) : bool :=
  match v with
  | VNone => false
  | VBool b => b
  | VInt z => negb (z =? 0)
  | VFloat q | VDecimal q => negb (Qnum q =? 0)
  | VStr s => match s with [] => false | _ => true end
  | VList l => match l with [] => false | _ => true end
  | VDict d => match d with [] => false | _ => true end
  end.

(** [d.get(k)] used as a condition: a missing key gives [None]. *)
Definition get_truthy (k : pystr) (d : item) : bool :=
  truthy (get_default k VNone d).

(** [v == "literal"] *)
Definition is_str (s : pystr) (v : value) : bool :=
  match v with VStr t => str_eqb t s | _ => false end.

(** [for x in v]: the elements a [for] loop sees. *)
Definition py_iter (v : value) : result (list value) :=
  match v with
  | VList l => Ok l
  | VStr s => Ok (map (fun c => VStr [c]) s)
  | VDict d => Ok (map (fun kv => VStr (fst kv)) d)
  | _ => Raise TypeError
  end.

(** Truncation toward zero, as [int] does on a float or a [Decimal]. *)
Definition Qtrunc (q : Q) : Z := Z.quot (Qnum q) (Zpos (Qden q)).

(** The rational is a whole number. *)
Definition Qintegral (q : Q) : bool := Z.rem (Qnum q) (Zpos (Qden q)) =? 0.

(** The rational of an integer. *)
Definition Qint (z : Z) : Q := Qmake z 1.

(** ** Decimal arithmetic

    The manager leaves the decimal context at its default, of precision
    28. *)

Definition DECIMAL_PREC : Z := 28.

(** [obj % 1 == 0] on a [Decimal]: the remainder is taken from the integer
    quotient [obj // 1], which must fit the precision of the context; with
    a quotient of more digits the operation raises
    [decimal.InvalidOperation] (the signal [DivisionImpossible]). *)
Definition decimal_is_whole (q : Q) : result bool :=
  if 10 ^ DECIMAL_PREC <=? Z.abs (Qtrunc q) then Raise InvalidOperation
  else Ok (Qintegral q).

(** ** The write conversion of the manager *)

(** [_sanitize_for_ddb]: [float] to [Decimal] before a write. *)
Fixpoint _sanitize_for_ddb (obj : value) : value :=
  match obj with
  | VDict d =>
      VDict (map (fun kv => match kv with
                            | (k, v) => (k, _sanitize_for_ddb v)
                            end) d)
  | VList l => VList (map _sanitize_for_ddb l)
  | VFloat q => VDecimal q
  | _ => obj
  end.

(** [_sanitize_for_ddb] at a dict. *)
Definition sanitize_item (it : item) : item :=
  map (fun kv => match kv with (k, v) => (k, _sanitize_for_ddb v) end) it.

(** * The persistence adapter (boto3 over DynamoDB and S3)

    boto3 refuses a Python [float] in an item ([TypeError], before any
    request is sent) and stores every number as a DynamoDB number, which it
    reads back as a [Decimal]. *)

(** A [float] somewhere in the value: what boto3's serializer refuses. *)
Fixpoint has_float (v : value) : bool :=
  match v with
  | VFloat _ => true
  | VList l => existsb has_float l
  | VDict d => existsb (fun kv => match kv with (_, x) => has_float x end) d
  | _ => false
  end.

(** A value as the table holds it and hands it back: numbers are
    [Decimal]s.  (The case of a float is never reached: a write that
    holds one has raised before.) *)
Fixpoint to_ddb (v : value) : value :=
  match v with
  | VInt z => VDecimal (Qint z)
  | VFloat q => VDecimal q
  | VList l => VList (map to_ddb l)
  | VDict d =>
      VDict (map (fun kv => match kv with (k, x) => (k, to_ddb x) end) d)
  | _ => v
  end.

Definition to_ddb_item (it : item) : item :=
  map (fun kv => match kv with (k, x) => (k, to_ddb x) end) it.

Definition item_has_float (it : item) : bool :=
  existsb (fun kv => match kv with (_, x) => has_float x end) it.

Inductive table_name : Type := Users | Conversations | Memories.

(** The primary key of each table, as the [Key=] arguments and the composite
    ids of the manager give it. *)
Definition key_schema (t : table_name) : list pystr :=
  match t with
  | Users => [py "user_id"]
  | Conversations => [py "user_id"; py "conversation_id"]
  | Memories => [py "user_id"; py "memory_id"]
  end.

(** The key of an item: every key attribute present and a string. *)
Fixpoint key_of (ks : list pystr) (it : item) : option (list pystr) :=
  match ks with
  | [] => Some []
  | k :: ks' =>
      match dict_get k it, key_of ks' it with
      | Some (VStr s), Some r => Some (s :: r)
      | _, _ => None
      end
  end.

Fixpoint key_eqb (a b : list pystr) : bool :=
  match a, b with
  | [], [] => true
  | x :: a', y :: b' => str_eqb x y && key_eqb a' b'
  | _, _ => false
  end.

Definition has_key (ks : list pystr) (k : list pystr) (it : item) : bool :=
  match key_of ks it with
  | Some k' => key_eqb k k'
  | None => false
  end.

Definition table_find (ks : list pystr) (k : list pystr) (t : list item)
  : option item :=
  find (has_key ks k) t.

(** Writing the item of key [k]: it replaces the item of that key, or is
    added. *)
Fixpoint table_put (ks : list pystr) (k : list pystr) (it : item)
    (t : list item) : list item :=
  match t with
  | [] => [it]
  | x :: r => if has_key ks k x then it :: r else x :: table_put ks k it r
  end.

(** The two forms of [SET] clause the manager sends to [update_item]. *)
Inductive action : Type :=
| SetTo (attr : pystr) (v : value)
    (* SET attr = :v *)
| SetIncr (attr : pystr).
    (* SET attr = if_not_exists(attr, :zero) + :one *)

Definition apply_action (a : action) (it : item) : result item :=
  match a with
  | SetTo attr v => Ok (dict_set attr (to_ddb v) it)
  | SetIncr attr =>
      match dict_get attr it with
      | None => Ok (dict_set attr (VDecimal (Qint 1)) it)
      | Some (VDecimal q) => Ok (dict_set attr (VDecimal (Qplus q (Qint 1))) it)
      | Some _ => Raise AdapterError (* operand of + is not a number *)
      end
  end.

Fixpoint apply_actions (acts : list action) (it : item) : result item :=
  match acts with
  | [] => Ok it
  | a :: r => rbind (apply_action a it) (apply_actions r)
  end.

Definition action_has_float (a : action) : bool :=
  match a with
  | SetTo _ v => has_float v
  | SetIncr _ => false
  end.

(** The item holding just a key, which [update_item] starts from when the
    key is new. *)
Definition key_item (ks : list pystr) (k : list pystr) : item :=
  combine ks (map VStr k).

(** [update_item]: the clauses applied to the item of key [k], which is
    created when it is not there. *)
Definition table_update (ks : list pystr) (k : list pystr)
    (acts : list action) (t : list item) : result (list item) :=
  let old := match table_find ks k t with
             | Some it => it
             | None => key_item ks k
             end in
  rbind (apply_actions acts old) (fun it => Ok (table_put ks k it t)).

(** * The world the manager runs in *)

(** What is sent to the model: the template and what is put into it. *)
Inductive prompt : Type :=
| EXTRACTION_PROMPT (character conversation : pystr)
| ONBOARDING_EXTRACTION_PROMPT (field conversation : pystr)
| PROFILE_COMPLETION_EXTRACTION_PROMPT (conversation : pystr).

(** The runtime and the outside world.  The library functions are left
    open; the outside world is an oracle read at the number of the
    interaction: whether the adapter call raises, what text the model
    answers (or that the call or its envelope fails), the clock, the uuid
    source. *)
Record env : Type := mkEnv {
  json_loads : pystr -> option value;   (* json.loads; None: JSONDecodeError *)
  int_of_str : pystr -> option Z;       (* int(s) on a str; None: ValueError *)
  repr : value -> pystr;                (* str(v) of a value that is no str *)
  float_of_decimal : Q -> Q;            (* float(d) on a Decimal: the double
                                           nearest to d *)
  fault : nat -> bool;                  (* the adapter call fails, for any
                                           reason of the service *)
  llm_reply : nat -> prompt -> option pystr;
  now : nat -> pystr;                   (* datetime.now(utc).isoformat() *)
  uuid_hex12 : nat -> pystr;            (* uuid.uuid4().hex[:12] *)
}.

Record state : Type := mkState {
  table_users : list item;
  table_conversations : list item;
  table_memories : list item;
  s3 : list (pystr * value);    (* object key, and the JSON it holds *)
  tick : nat;                   (* interactions with the outside so far *)
}.

Definition get_table (t : table_name) (st : state) : list item :=
  match t with
  | Users => table_users st
  | Conversations => table_conversations st
  | Memories => table_memories st
  end.

Definition set_table (t : table_name) (tb : list item) (st : state) : state :=
  match t with
  | Users =>
      mkState tb (table_conversations st) (table_memories st) (s3 st) (tick st)
  | Conversations =>
      mkState (table_users st) tb (table_memories st) (s3 st) (tick st)
  | Memories =>
      mkState (table_users st) (table_conversations st) tb (s3 st) (tick st)
  end.

Definition set_s3 (b : list (pystr * value)) (st : state) : state :=
  mkState (table_users st) (table_conversations st) (table_memories st) b
          (tick st).

Definition bump (st : state) : state :=
  mkState (table_users st) (table_conversations st) (table_memories st)
          (s3 st) (S (tick st)).

(** ** State and exceptions *)

(** A computation returns or raises, and leaves a store either way: what
    was written before an exception stays written. *)
Definition M (A : Type) : Type := state -> result A * state.

Definition ret {A} (a : A) : M A := fun st => (Ok a, st).

Definition raise {A} (e : exn) : M A := fun st => (Raise e, st).

Definition bind {A B} (m : M A) (k : A -> M B) : M B :=
  fun st =>
    match m st with
    | (Ok a, st') => k a st'
    | (Raise e, st') => (Raise e, st')
    end.

Definition lift {A} (r : result A) : M A := fun st => (r, st).

(** [try: m  except Exception: h] *)
Definition try_except {A} (m : M A) (h : M A) : M A :=
  fun st =>
    match m st with
    | (Ok a, st') => (Ok a, st')
    | (Raise _, st') => h st'
    end.

Declare Scope monad_scope.
Delimit Scope monad_scope with monad.
Notation "x <- m ;; k" := (bind m (fun x => k))
  (at level 61, m at next level, right associativity) : monad_scope.
Notation "m ;;; k" := (bind m (fun _ => k))
  (at level 61, right associativity) : monad_scope.
Local Open Scope monad_scope.

(** [for x in l: body x] *)
Fixpoint for_each {A} (l : list A) (body : A -> M unit) : M unit :=
  match l with
  | [] => ret tt
  | x :: r => body x ;;; for_each r body
  end.

Definition get_state : M state := fun st => (Ok st, st).

Definition modify (f : state -> state) : M unit := fun st => (Ok tt, f st).

(** * Fixed texts of the manager

    The Korean literals of the source, by code point. *)

(** the label of a user turn (3 code points) *)
Definition ROLE_USER : pystr :=
  [49324; 50857; 51088]%N.

(** the label of a character turn (3 code points) *)
Definition ROLE_CHARACTER : pystr :=
  [52880; 47533; 53552]%N.

(** name/nickname (8 code points) *)
Definition LBL_NICKNAME : pystr :=
  [51060; 47492; 47; 45769; 45348; 51076; 58; 32]%N.

(** male (2 code points) *)
Definition LBL_MALE : pystr :=
  [45224; 49457]%N.

(** female (2 code points) *)
Definition LBL_FEMALE : pystr :=
  [50668; 49457]%N.

(** gender (4 code points) *)
Definition LBL_GENDER : pystr :=
  [49457; 48324; 58; 32]%N.

(** date of birth (6 code points) *)
Definition LBL_BIRTHDAY : pystr :=
  [49373; 45380; 50900; 51068; 58; 32]%N.

(** interests (5 code points) *)
Definition LBL_INTERESTS : pystr :=
  [44288; 49900; 49324; 58; 32]%N.

(** k-pop (4 code points) *)
Definition LBL_KPOP : pystr :=
  [52992; 51060; 54045; 32]%N.

(** preferred topics (7 code points) *)
Definition LBL_TOPICS : pystr :=
  [49440; 54840; 32; 51452; 51228; 58; 32]%N.

(** [user profile] (10 code points) *)
Definition HDR_PROFILE : pystr :=
  [91; 49324; 50857; 51088; 32; 54532; 47196; 54596; 93; 10]%N.

(** the must-follow heading (28 code points) *)
Definition HDR_CRITICAL : pystr :=
  [9733; 9733; 9733; 32; 52572; 50864; 49440; 32; 54665; 46041; 32; 51648;
   49884; 32; 40; 48152; 46300; 49884; 32; 46384; 47484; 32; 44163; 41;
   32; 9733; 9733; 9733]%N.

(** the arrow before a directive (4 code points) *)
Definition PFX_CRITICAL : pystr :=
  [32; 32; 8594; 32]%N.

(** [background memories] (7 code points) *)
Definition HDR_NORMAL : pystr :=
  [91; 52280; 44256; 32; 44592; 50613; 93]%N.

(** [what is remembered] (13 code points) *)
Definition HDR_MEMORIES : pystr :=
  [91; 44592; 50613; 54616; 44256; 32; 51080; 45716; 32; 51221; 48372; 93;
   10]%N.

(** [earlier conversations] (11 code points) *)
Definition HDR_SUMMARIES : pystr :=
  [91; 51060; 51204; 32; 45824; 54868; 32; 50836; 50557; 93; 10]%N.

(** newline, dots, (partly omitted) (12 code points) *)
Definition TRUNCATION_MARKER : pystr :=
  [10; 46; 46; 46; 32; 40; 51068; 48512; 32; 49373; 47029; 41]%N.

(** ONBOARDING_STEPS[0]['instruction'] (43 code points) *)
Definition INSTR_NICKNAME : pystr :=
  [49324; 50857; 51088; 50640; 44172; 32; 51088; 44592; 49548; 44060;
   47484; 32; 54616; 47732; 49436; 32; 49324; 50857; 51088; 51032; 32;
   51060; 47492; 51060; 45208; 32; 45769; 45348; 51076; 51012; 32; 51088;
   50672; 49828; 47101; 44172; 32; 47932; 50612; 48372; 49464; 50836;
   46]%N.

(** ONBOARDING_STEPS[1]['instruction'] (33 code points) *)
Definition INSTR_BIRTHDAY : pystr :=
  [45824; 54868; 32; 55120; 47492; 50640; 32; 47582; 52656; 32; 49324;
   50857; 51088; 51032; 32; 49373; 45380; 50900; 51068; 51012; 32; 51088;
   50672; 49828; 47101; 44172; 32; 47932; 50612; 48372; 49464; 50836;
   46]%N.

(** ONBOARDING_STEPS[2]['instruction'] (30 code points) *)
Definition INSTR_INTERESTS : pystr :=
  [49324; 50857; 51088; 44032; 32; 51339; 50500; 54616; 45716; 32; 44163;
   51060; 45208; 32; 52712; 48120; 47484; 32; 51088; 50672; 49828; 47101;
   44172; 32; 47932; 50612; 48372; 49464; 50836; 46]%N.

(** ONBOARDING_STEPS[3]['instruction'] (36 code points) *)
Definition INSTR_KPOP : pystr :=
  [51339; 50500; 54616; 45716; 32; 52992; 51060; 54045; 32; 44536; 47353;
   44; 32; 47716; 48260; 44; 32; 51109; 47476; 32; 46321; 32; 52992;
   51060; 54045; 32; 52712; 54693; 51012; 32; 47932; 50612; 48372; 49464;
   50836; 46]%N.

(** ONBOARDING_STEPS[4]['instruction'] (46 code points) *)
Definition INSTR_TOPICS : pystr :=
  [50526; 51004; 47196; 32; 50612; 46500; 32; 51060; 50556; 44592; 47484;
   32; 54616; 44256; 32; 49910; 51008; 51648; 32; 51088; 50672; 49828;
   47101; 44172; 32; 47932; 50612; 48372; 49464; 50836; 46; 32; 51060;
   44163; 51060; 32; 47560; 51648; 47561; 32; 51656; 47928; 51077; 45768;
   45796; 46]%N.

(** PROFILE_COMPLETION_FIELDS['gender']['instruction'] (77 code points) *)
Definition INSTR_GENDER : pystr :=
  [45824; 54868; 32; 55120; 47492; 50640; 32; 47582; 52656; 32; 49324;
   50857; 51088; 51032; 32; 49457; 48324; 51012; 32; 51088; 50672; 49828;
   47101; 44172; 32; 54028; 50501; 54616; 49464; 50836; 46; 32; 51649;
   51217; 32; 47931; 44592; 48372; 45796; 45716; 32; 39; 50724; 48736;
   46972; 44256; 32; 48520; 47084; 46020; 32; 46112; 44620; 50836; 63; 39;
   32; 44057; 51008; 32; 51088; 50672; 49828; 47084; 50868; 32; 48169;
   49885; 51004; 47196; 32; 54869; 51064; 54616; 49464; 50836; 46]%N.

(** the onboarding text up to the step number (49 code points) *)
Definition ONBOARDING_HEAD : pystr :=
  [10; 10; 91; 50728; 48372; 46377; 32; 51648; 49884; 93; 10; 51060; 32;
   49324; 50857; 51088; 45716; 32; 50500; 51649; 32; 54532; 47196; 54596;
   32; 49688; 51665; 51060; 32; 50756; 47308; 46104; 51648; 32; 50506;
   50520; 49845; 45768; 45796; 46; 32; 40; 54788; 51116; 32; 45800; 44228;
   58; 32]%N.

(** between the step number and the instruction (30 code points) *)
Definition ONBOARDING_MID : pystr :=
  [47; 52; 41; 10; 45824; 54868; 32; 51473; 32; 51088; 50672; 49828;
   47101; 44172; 32; 45796; 51020; 32; 51221; 48372; 47484; 32; 49688;
   51665; 54644; 51452; 49464; 50836; 58; 32]%N.

(** after the instruction (34 code points) *)
Definition ONBOARDING_TAIL : pystr :=
  [10; 45320; 47924; 32; 51649; 51217; 51201; 51004; 47196; 32; 47931;
   51648; 32; 47568; 44256; 44; 32; 45824; 54868; 32; 55120; 47492; 50640;
   32; 45433; 50668; 49436; 32; 47932; 50612; 48372; 49464; 50836; 46]%N.

(** the profile-completion text before the bullet list (58 code points) *)
Definition COMPLETION_HEAD : pystr :=
  [10; 10; 91; 54532; 47196; 54596; 32; 48372; 50756; 32; 51648; 49884;
   93; 10; 50500; 51649; 32; 54028; 50501; 54616; 51648; 32; 47803; 54620;
   32; 49324; 50857; 51088; 32; 51221; 48372; 44032; 32; 51080; 49845;
   45768; 45796; 46; 32; 45824; 54868; 32; 51473; 32; 51088; 50672; 49828;
   47101; 44172; 32; 54869; 51064; 54644; 51452; 49464; 50836; 58; 10]%N.

(** [ONBOARDING_STEPS]: the field and the instruction of each step. *)
Definition ONBOARDING_STEPS (step : Z) : option (pystr * pystr) :=
  match step with
  | 0 => Some (py "nickname", INSTR_NICKNAME)
  | 1 => Some (py "birthday", INSTR_BIRTHDAY)
  | 2 => Some (py "interests", INSTR_INTERESTS)
  | 3 => Some (py "kpop_preferences", INSTR_KPOP)
  | 4 => Some (py "preferred_topics", INSTR_TOPICS)
  | _ => None
  end.

(** [PROFILE_COMPLETION_FIELDS]: the field and its instruction. *)
Definition PROFILE_COMPLETION_FIELDS : list (pystr * pystr) :=
  [(py "gender", INSTR_GENDER)].

(** [str(step)] for a step of [ONBOARDING_STEPS], one digit. *)
Definition digit (step : Z) : pystr := [Z.to_N (48 + step)].

(** The key condition and the filter of the memory query:
    [user_id = :uid AND #char = :char], [active = :active] with [True]. *)
Definition fact_matches (user_id scope : pystr) (it : item) : bool :=
  is_str user_id (get_default (py "user_id") VNone it)
  && is_str scope (get_default (py "character") VNone it)
  && match dict_get (py "active") it with
     | Some (VBool true) => true
     | _ => false
     end.

(** * The manager *)

Section Manager.

Variable E : env.

(** ** Interactions with the outside *)

Definition interact : M nat := fun st => (Ok (tick st), bump st).

(** An adapter call reaches the service or raises. *)
Definition adapter_call : M unit :=
  n <- interact ;;
  if fault E n then raise AdapterError else ret tt.

Definition utc_now : M pystr := n <- interact ;; ret (now E n).

Definition uuid4_hex12 : M pystr := n <- interact ;; ret (uuid_hex12 E n).

(** [bedrock.invoke_model] and the reading of its envelope
    ([result["content"][0]["text"]]). *)
Definition invoke_model (p : prompt) : M pystr :=
  n <- interact ;;
  match llm_reply E n p with
  | Some text => ret text
  | None => raise AdapterError
  end.

Definition get_item (t : table_name) (k : list pystr) : M (option item) :=
  adapter_call ;;;
  st <- get_state ;;
  ret (table_find (key_schema t) k (get_table t st)).

Definition put_item (t : table_name) (it : item) : M unit :=
  if item_has_float it then raise TypeError
  else
    adapter_call ;;;
    match key_of (key_schema t) it with
    | None => raise AdapterError
    | Some k =>
        modify (fun st =>
          set_table t
            (table_put (key_schema t) k (to_ddb_item it) (get_table t st)) st)
    end.

Definition update_item (t : table_name) (k : list pystr)
    (acts : list action) : M unit :=
  if existsb action_has_float acts then raise TypeError
  else
    adapter_call ;;;
    st <- get_state ;;
    match table_update (key_schema t) k acts (get_table t st) with
    | Ok tb => modify (set_table t tb)
    | Raise e => raise e
    end.

(** [query] on [CharacterMemoryIndex]: the active facts of one user under
    one scope, in the order the table holds them. *)
Definition query_memories (user_id scope : pystr) : M (list item) :=
  adapter_call ;;;
  st <- get_state ;;
  ret (filter (fact_matches user_id scope) (table_memories st)).

Fixpoint str_ltb (a b : pystr) : bool :=
  match a, b with
  | _, [] => false
  | [], _ :: _ => true
  | x :: a', y :: b' => (x <? y)%N || (x =? y)%N && str_ltb a' b'
  end.

(** Stable insertion in a list sorted from large to small. *)
Fixpoint insert_desc {A} (gt : A -> A -> bool) (x : A) (l : list A)
  : list A :=
  match l with
  | [] => [x]
  | y :: r => if gt y x then y :: insert_desc gt x r else x :: y :: r
  end.

(** [l.sort(key=..., reverse=True)]: from large to small, equal keys in
    their first order. *)
Definition sort_desc {A} (gt : A -> A -> bool) (l : list A) : list A :=
  fold_right (insert_desc gt) [] l.

Definition session_start_of (it : item) : pystr :=
  match dict_get (py "session_start") it with
  | Some (VStr s) => s
  | _ => []
  end.

(** Modelled from the spec: the key schema of [CharacterTimeIndex] is not
    declared under src/; the spec has the records of one user by session
    start, descending.  [Limit] bounds the items read before the filter on
    the character is applied, and DynamoDB refuses a limit below one. *)
Definition query_conversations (user_id character : pystr) (limit : Z)
  : M (list item) :=
  adapter_call ;;;
  if limit <? 1 then raise AdapterError
  else
    st <- get_state ;;
    let mine :=
      filter (fun it =>
                is_str user_id (get_default (py "user_id") VNone it)
                && match dict_get (py "session_start") it with
                   | Some (VStr _) => true
                   | _ => false
                   end)
             (table_conversations st) in
    let newest_first :=
      sort_desc (fun a b => str_ltb (session_start_of b) (session_start_of a))
                mine in
    ret (filter (fun it =>
                   is_str character (get_default (py "character") VNone it))
                (firstn (Z.to_nat limit) newest_first)).

(** [s3.put_object]; the body is kept as the value [json.dumps] is given. *)
Definition put_object (key : pystr) (body : value) : M unit :=
  adapter_call ;;;
  modify (fun st =>
    set_s3 ((key, body)
            :: filter (fun kb => negb (str_eqb key (fst kb))) (s3 st)) st).

(** ** Python conversions that need the runtime *)

(** [str(v)], what an f-string puts in for [v]. *)
Definition py_str (v : value) : pystr :=
  match v with
  | VStr s => s
  | _ => repr E v
  end.

(** [int(v)] *)
Definition py_int (v : value) : result Z :=
  match v with
  | VInt z => Ok z
  | VBool b => Ok (if b then 1 else 0)
  | VFloat q | VDecimal q => Ok (Qtrunc q)
  | VStr s =>
      match int_of_str E s with
      | Some z => Ok z
      | None => Raise ValueError
      end
  | _ => Raise TypeError
  end.

(** [_convert_decimals]: DynamoDB [Decimal] to [int] or [float].  The test
    [obj % 1 == 0] raises on a number whose whole part has more than 28
    digits, and the exception leaves the comprehension that is being
    built. *)
Fixpoint _convert_decimals (obj : value) : result value :=
  match obj with
  | VDict d =>
      (d' <- map_r (fun kv => match kv with
                              | (k, v) => v' <- _convert_decimals v ;;
                                          Ok (k, v')
                              end) d ;;
       Ok (VDict d'))%res
  | VList l => (l' <- map_r _convert_decimals l ;; Ok (VList l'))%res
  | VDecimal q =>
      (whole <- decimal_is_whole q ;;
       Ok (if whole then VInt (Qtrunc q)
           else VFloat (float_of_decimal E q)))%res
  | _ => Ok obj
  end.

(** [_convert_decimals] at a dict, which is what the callers pass. *)
Definition convert_item (it : item) : result item :=
  map_r (fun kv => match kv with
                   | (k, v) => (v' <- _convert_decimals v ;; Ok (k, v'))%res
                   end) it.

(** [sep.join(v)]: the elements must be strings. *)
Definition py_join (sep : pystr) (v : value) : result pystr :=
  rbind (py_iter v) (fun xs =>
    rbind
      (fold_right (fun x acc =>
                     rbind acc (fun ss =>
                       match x with
                       | VStr s => Ok (s :: ss)
                       | _ => Raise TypeError
                       end))
                  (Ok []) xs)
      (fun ss => Ok (join sep ss))).

(** [v[:10]] *)
Definition py_slice10 (v : value) : result value :=
  match v with
  | VStr s => Ok (VStr (firstn 10 s))
  | VList l => Ok (VList (firstn 10 l))
  | _ => Raise TypeError
  end.

(** ** User profile *)

Definition new_user (user_id email display_name now_ : pystr) : item :=
  [ (py "user_id", VStr user_id);
    (py "email", VStr email);
    (py "display_name", VStr display_name);
    (py "nickname", VStr []);
    (py "birthday", VStr []);
    (py "interests", VList []);
    (py "kpop_preferences", VDict []);
    (py "preferred_topics", VList []);
    (py "onboarding_complete", VBool false);
    (py "onboarding_step", VInt 0);
    (py "created_at", VStr now_);
    (py "updated_at", VStr now_);
    (py "last_login_at", VStr now_);
    (py "total_sessions", VInt 1) ].

Definition get_or_create_user (user_id email display_name : pystr)
  : M item :=
  now_ <- utc_now ;;
  resp <- get_item Users [user_id] ;;
  match resp with
  | Some it =>
      update_item Users [user_id]
        [ SetTo (py "last_login_at") (VStr now_);
          SetIncr (py "total_sessions") ] ;;;
      lift (convert_item it)
  | None =>
      let user := new_user user_id email display_name now_ in
      put_item Users user ;;;
      ret user
  end.

Definition get_user_profile (user_id : pystr) : M (option item) :=
  resp <- get_item Users [user_id] ;;
  match resp with
  | Some it => p <- lift (convert_item it) ;; ret (Some p)
  | None => ret None
  end.

Definition update_user_profile (user_id : pystr) (updates : item) : M unit :=
  match updates with
  | [] => ret tt
  | _ =>
      now_ <- utc_now ;;
      let updates := dict_set (py "updated_at") (VStr now_) updates in
      update_item Users [user_id]
        (map (fun kv => SetTo (fst kv) (snd kv)) updates)
  end.

(** ** The model call shared by the three extractions *)

Definition NL : pystr := [10%N].

Definition FENCE : pystr := py "```".

(** The turns as [<label>: <content>] lines. *)
Definition conversation_text (other : pystr) (messages : list item) : pystr :=
  join NL
    (map (fun m =>
            (if is_str (py "user") (get_default (py "role") VNone m)
             then ROLE_USER else other)
            ++ py ": " ++ py_str (get_default (py "content") (VStr []) m))
         messages).

(** Dropping a surrounding code fence. *)
Definition strip_code_fence (text : pystr) : result pystr :=
  if startswith FENCE text then
    (t <- after_first_newline text ;;
     let t := if endswith FENCE t then slice_to (-3) t else t in
     Ok (strip t))%res
  else Ok text.

(** From the text of the reply to the parsed JSON. *)
Definition parse_reply (raw : pystr) : result value :=
  (text <- strip_code_fence (strip raw) ;;
   match json_loads E text with
   | Some v => Ok v
   | None => Raise JSONDecodeError
   end)%res.

(** The body of each [try]: call the model, read and parse the reply. *)
Definition ask_json (p : prompt) : M value :=
  raw <- invoke_model p ;;
  lift (parse_reply raw).

(** ** Conversation save pipeline *)

Definition zeroed_extraction : value :=
  VDict [ (py "summary", VStr []);
          (py "keywords", VList []);
          (py "user_sentiment", VStr (py "neutral"));
          (py "new_user_info", VDict []);
          (py "memories", VList []) ].

Definition _extract_all_from_conversation (character : pystr)
    (messages : list item) : M value :=
  let prompt :=
    EXTRACTION_PROMPT character (conversation_text character messages) in
  try_except (ask_json prompt) (ret zeroed_extraction).

(** One turn as the transcript keeps it. *)
Definition log_message (m : item) : value :=
  VDict ([ (py "role", get_default (py "role") (VStr (py "user")) m);
           (py "content", get_default (py "content") (VStr []) m);
           (py "timestamp", get_default (py "timestamp") (VStr []) m) ]
         ++ match dict_get (py "selected_emotion") m with
            | Some e => [(py "selected_emotion", e)]
            | None => []
            end).

Definition conversation_id_of (character session_start : pystr) : pystr :=
  character ++ py "#" ++ session_start.

Definition s3_log_path_of (user_id conversation_id : pystr) : pystr :=
  py "chat-logs/" ++ user_id ++ py "/" ++ conversation_id ++ py ".json".

Definition len_of {A} (l : list A) : value := VInt (Z.of_nat (length l)).

(** Step 4 of the pipeline, for one extracted memory. *)
Definition save_memory (user_id conversation_id now_ : pystr) (mem : value)
  : M unit :=
  memory_char <- lift (py_get (py "character") (VStr (py "global")) mem) ;;
  suffix <- uuid4_hex12 ;;
  let memory_id := py_str memory_char ++ py "#" ++ suffix in
  category <- lift (py_get (py "category") (VStr (py "fact")) mem) ;;
  content <- lift (py_get (py "content") (VStr []) mem) ;;
  importance <- lift (py_get (py "importance") (VInt 3) mem) ;;
  let mem_item :=
    [ (py "user_id", VStr user_id);
      (py "memory_id", VStr memory_id);
      (py "character", memory_char);
      (py "category", category);
      (py "content", content);
      (py "importance", importance);
      (py "source_conversation", VStr conversation_id);
      (py "created_at", VStr now_);
      (py "last_referenced", VStr now_);
      (py "reference_count", VInt 0);
      (py "active", VBool true) ] in
  try_except (put_item Memories (sanitize_item mem_item)) (ret tt).

(** Step 5 of the pipeline: what of [new_user_info] goes to the profile. *)
Definition profile_updates_of (new_info : value) : result item :=
  (fg <- py_get (py "favorite_group") VNone new_info ;;
   let u := if truthy fg
            then dict_set (py "kpop_preferences") new_info [] else [] in
   b <- py_get (py "birthday") VNone new_info ;;
   u <- (if truthy b
         then v <- py_subscript (py "birthday") new_info ;;
              Ok (dict_set (py "birthday") v u)
         else Ok u) ;;
   n <- py_get (py "nickname") VNone new_info ;;
   if truthy n
   then v <- py_subscript (py "nickname") new_info ;;
        Ok (dict_set (py "nickname") v u)
   else Ok u)%res.

(** Steps 2 to 5 of the pipeline, once the time is read and the
    extraction is made. *)
Definition save_extraction (user_id character : pystr)
    (messages : list item) (session_start now_ : pystr) (extraction : value)
  : M unit :=
  let conversation_id := conversation_id_of character session_start in
  (* 2) the transcript *)
  let s3_log_path := s3_log_path_of user_id conversation_id in
  let log_data :=
    VDict [ (py "user_id", VStr user_id);
            (py "character", VStr character);
            (py "session_start", VStr session_start);
            (py "session_end", VStr now_);
            (py "message_count", len_of messages);
            (py "messages", VList (map log_message messages)) ] in
  try_except (put_object s3_log_path log_data) (ret tt) ;;;
  (* 3) the conversation record *)
  summary <- lift (py_get (py "summary") (VStr []) extraction) ;;
  keywords <- lift (py_get (py "keywords") (VList []) extraction) ;;
  user_sentiment <-
    lift (py_get (py "user_sentiment") (VStr (py "neutral")) extraction) ;;
  topics <- lift (py_get (py "keywords") (VList []) extraction) ;;
  new_user_info <-
    lift (py_get (py "new_user_info") (VDict []) extraction) ;;
  let conv_item :=
    [ (py "user_id", VStr user_id);
      (py "conversation_id", VStr conversation_id);
      (py "character", VStr character);
      (py "session_start", VStr session_start);
      (py "session_end", VStr now_);
      (py "message_count", len_of messages);
      (py "summary", summary);
      (py "keywords", keywords);
      (py "user_sentiment", user_sentiment);
      (py "topics_discussed", topics);
      (py "s3_log_path", VStr s3_log_path);
      (py "new_user_info", new_user_info) ] in
  try_except (put_item Conversations (sanitize_item conv_item)) (ret tt) ;;;
  (* 4) the memories *)
  mems <- lift (py_get (py "memories") (VList []) extraction) ;;
  mem_list <- lift (py_iter mems) ;;
  for_each mem_list (save_memory user_id conversation_id now_) ;;;
  (* 5) the profile *)
  new_info <- lift (py_get (py "new_user_info") (VDict []) extraction) ;;
  if truthy new_info then
    profile_updates <- lift (profile_updates_of new_info) ;;
    match profile_updates with
    | [] => ret tt
    | _ => update_user_profile user_id profile_updates
    end
  else ret tt.

Definition save_conversation (user_id character : pystr)
    (messages : list item) (session_start : pystr) : M unit :=
  if (length messages <? 2)%nat then ret tt
  else
    now_ <- utc_now ;;
    (* 1) one model call *)
    extraction <- _extract_all_from_conversation character messages ;;
    save_extraction user_id character messages session_start now_ extraction.

Definition save_messages_incremental (user_id character : pystr)
    (messages : list item) (session_start : pystr) : M unit :=
  match messages with
  | [] => ret tt
  | _ =>
      let conversation_id := conversation_id_of character session_start in
      let s3_log_path := s3_log_path_of user_id conversation_id in
      let log_data :=
        VDict [ (py "user_id", VStr user_id);
                (py "character", VStr character);
                (py "session_start", VStr session_start);
                (py "message_count", len_of messages);
                (py "messages", VList (map log_message messages)) ] in
      try_except (put_object s3_log_path log_data) (ret tt)
  end.

(** ** Memory ranker *)

(** The sort key [int(x.get("importance", 0))]. *)
Definition importance_key (x : item) : result Z :=
  py_int (get_default (py "importance") (VInt 0) x).

Definition with_key (x : item) : result (Z * item) :=
  (k <- importance_key x ;; Ok (k, x))%res.

(** [all_mems.sort(key=..., reverse=True)]: every key is computed, then the
    list is put in order. *)
Definition sort_by_importance (all_mems : list item) : result (list item) :=
  (keyed <- map_r with_key all_mems ;;
   Ok (map snd (sort_desc (fun a b => fst b <? fst a) keyed)))%res.

(** The reference update of one returned fact; its failure is swallowed. *)
Definition touch_memory (user_id : pystr) (m : item) : M unit :=
  try_except
    (memory_id <- lift (subscript (py "memory_id") m) ;;
     now_ <- utc_now ;;
     match memory_id with
     | VStr mid =>
         update_item Memories [user_id; mid]
           [ SetIncr (py "reference_count");
             SetTo (py "last_referenced") (VStr now_) ]
     | _ => raise AdapterError
     end)
    (ret tt).

Definition _get_top_memories (user_id character : pystr) (limit : Z)
  : M (list item) :=
  try_except
    (global_mems <- query_memories user_id (py "global") ;;
     char_mems <- query_memories user_id character ;;
     all_mems <- lift (sort_by_importance (global_mems ++ char_mems)) ;;
     for_each (slice_to limit all_mems) (touch_memory user_id) ;;;
     lift (map_r convert_item (slice_to limit all_mems)))
    (ret []).

Definition _get_recent_summaries (user_id character : pystr) (limit : Z)
  : M (list item) :=
  try_except
    (items <- query_conversations user_id character limit ;;
     lift (map_r convert_item items))
    (ret []).

(** ** Context assembler *)

(** One entry of the k-pop preference map. *)
Definition kpop_line (kv : pystr * value) : result (option pystr) :=
  match kv with
  | (k, v) =>
      if truthy v then
        (txt <- match v with
                | VStr s => Ok s
                | _ => py_join (py ", ") v
                end ;;
         Ok (Some (LBL_KPOP ++ k ++ py ": " ++ txt)))%res
      else Ok None
  end.

Definition profile_lines (profile : item) : result (list pystr) :=
  (let l := [] in
   let l := if get_truthy (py "nickname") profile
            then l ++ [LBL_NICKNAME
                       ++ py_str (get_default (py "nickname") VNone profile)]
            else l in
   let l := if get_truthy (py "gender") profile
            then l ++ [LBL_GENDER
                       ++ (if is_str (py "male")
                                (get_default (py "gender") VNone profile)
                           then LBL_MALE else LBL_FEMALE)]
            else l in
   let l := if get_truthy (py "birthday") profile
            then l ++ [LBL_BIRTHDAY
                       ++ py_str (get_default (py "birthday") VNone profile)]
            else l in
   l <- (if get_truthy (py "interests") profile
         then txt <- py_join (py ", ")
                       (get_default (py "interests") VNone profile) ;;
              Ok (l ++ [LBL_INTERESTS ++ txt])
         else Ok l) ;;
   let kpop := get_default (py "kpop_preferences") (VDict []) profile in
   l <- (if truthy kpop
         then match kpop with
              | VDict d => ls <- map_r kpop_line d ;; Ok (l ++ cat_some ls)
              | _ => Ok l
              end
         else Ok l) ;;
   if get_truthy (py "preferred_topics") profile
   then txt <- py_join (py ", ")
                 (get_default (py "preferred_topics") VNone profile) ;;
        Ok (l ++ [LBL_TOPICS ++ txt])
   else Ok l)%res.

(** 1) the profile block *)
Definition profile_section (profile : option item) : result (option pystr) :=
  match profile with
  | None | Some [] => Ok None
  | Some p =>
      (lines <- profile_lines p ;;
       match lines with
       | [] => Ok None
       | _ => Ok (Some (HDR_PROFILE ++ join NL lines))
       end)%res
  end.

(** 2) the memory block, directives first *)
Definition memory_section (memories : list item) : result (option pystr) :=
  match memories with
  | [] => Ok None
  | _ =>
      (critical <- filter_r (fun m => i <- importance_key m ;; Ok (5 <=? i))
                            memories ;;
       normal <- filter_r (fun m => i <- importance_key m ;; Ok (i <? 5))
                          memories ;;
       critical_lines <-
         map_r (fun m => c <- subscript (py "content") m ;;
                         Ok (PFX_CRITICAL ++ py_str c)) critical ;;
       let mem_lines :=
         match critical with
         | [] => []
         | _ => [HDR_CRITICAL] ++ critical_lines ++ [[]]
         end in
       normal_lines <-
         map_r (fun m => cat <- subscript (py "category") m ;;
                         c <- subscript (py "content") m ;;
                         Ok (py "- [" ++ py_str cat ++ py "] " ++ py_str c))
               normal ;;
       let mem_lines :=
         match normal with
         | [] => mem_lines
         | _ => mem_lines ++ [HDR_NORMAL] ++ normal_lines
         end in
       Ok (Some (HDR_MEMORIES ++ join NL mem_lines)))%res
  end.

(** 3) the block of earlier conversations *)
Definition summary_section (summaries : list item) : result (option pystr) :=
  match summaries with
  | [] => Ok None
  | _ =>
      (lines <-
         map_r (fun s =>
                  if get_truthy (py "summary") s then
                    start <- subscript (py "session_start") s ;;
                    day <- py_slice10 start ;;
                    Ok (Some (py "- (" ++ py_str day ++ py ") "
                              ++ py_str (get_default (py "summary") VNone s)))
                  else Ok None)
               summaries ;;
       match cat_some lines with
       | [] => Ok None
       | sum_lines => Ok (Some (HDR_SUMMARIES ++ join NL sum_lines))
       end)%res
  end.

(** Joining the blocks and cutting at the budget. *)
Definition finish_context (parts : list pystr) : pystr :=
  match parts with
  | [] => []
  | _ =>
      let context := join (NL ++ NL) parts in
      if (4000 <? length context)%nat
      then firstn 4000 context ++ TRUNCATION_MARKER
      else context
  end.

Definition build_memory_context (user_id character : pystr) : M pystr :=
  profile <- get_user_profile user_id ;;
  p1 <- lift (profile_section profile) ;;
  memories <- _get_top_memories user_id character 15 ;;
  p2 <- lift (memory_section memories) ;;
  summaries <- _get_recent_summaries user_id character 5 ;;
  p3 <- lift (summary_section summaries) ;;
  ret (finish_context (cat_some [p1; p2; p3])).

(** ** Onboarding *)

Definition get_onboarding_prompt_addition (user_id character : pystr)
  : M pystr :=
  profile <- get_user_profile user_id ;;
  match profile with
  | None | Some [] => ret []
  | Some p =>
      if get_truthy (py "onboarding_complete") p then ret []
      else
        step <- lift (py_int (get_default (py "onboarding_step") (VInt 0) p)) ;;
        match ONBOARDING_STEPS step with
        | None => ret []
        | Some (_, instruction) =>
            ret (ONBOARDING_HEAD ++ digit step ++ ONBOARDING_MID
                 ++ instruction ++ ONBOARDING_TAIL)
        end
  end.

(** The [if]/[elif] chain that picks the value of the step's field. *)
Definition onboarding_updates (field : pystr) (extracted : item) : item :=
  let pick k := [(k, get_default k VNone extracted)] in
  if str_eqb field (py "nickname") && get_truthy (py "nickname") extracted
  then pick (py "nickname")
  else if str_eqb field (py "birthday")
          && get_truthy (py "birthday") extracted
  then pick (py "birthday")
  else if str_eqb field (py "interests")
          && get_truthy (py "interests") extracted
  then pick (py "interests")
  else if str_eqb field (py "kpop_preferences")
          && get_truthy (py "kpop_preferences") extracted
  then pick (py "kpop_preferences")
  else if str_eqb field (py "preferred_topics")
          && get_truthy (py "preferred_topics") extracted
  then pick (py "preferred_topics")
  else [].

Definition process_onboarding_response (user_id : pystr)
    (messages : list item) (current_step : Z) : M Z :=
  match ONBOARDING_STEPS current_step with
  | None => ret current_step
  | Some (field, _) =>
      let recent := last_n 4 messages in
      let prompt :=
        ONBOARDING_EXTRACTION_PROMPT field
          (conversation_text ROLE_CHARACTER recent) in
      parsed <- try_except (x <- ask_json prompt ;; ret (Some x)) (ret None) ;;
      match parsed with
      | None => ret current_step
      | Some extracted =>
          step_complete <-
            lift (py_get (py "step_complete") (VBool false) extracted) ;;
          if negb (truthy step_complete) then ret current_step
          else
            match extracted with
            | VDict d =>
                let updates := onboarding_updates field d in
                let new_step := current_step + 1 in
                let updates :=
                  dict_set (py "onboarding_step") (VInt new_step) updates in
                let updates :=
                  if 4 <? new_step
                  then dict_set (py "onboarding_complete") (VBool true)
                                updates
                  else updates in
                update_user_profile user_id updates ;;;
                ret new_step
            | _ => raise AttributeError
            end
      end
  end.

(** ** Profile completion *)

Definition missing_fields (profile : item) : list (pystr * pystr) :=
  filter (fun fc => negb (get_truthy (fst fc) profile))
         PROFILE_COMPLETION_FIELDS.

Definition get_profile_completion_prompt (user_id : pystr) : M pystr :=
  profile <- get_user_profile user_id ;;
  match profile with
  | None | Some [] => ret []
  | Some p =>
      match map snd (missing_fields p) with
      | [] => ret []
      | missing =>
          ret (COMPLETION_HEAD
               ++ join NL (map (fun m => py "- " ++ m) missing))
      end
  end.

Definition process_profile_completion (user_id : pystr)
    (messages : list item) : M unit :=
  profile <- get_user_profile user_id ;;
  match profile with
  | None | Some [] => ret tt
  | Some p =>
      match map fst (missing_fields p) with
      | [] => ret tt
      | missing =>
          let recent := last_n 4 messages in
          let prompt :=
            PROFILE_COMPLETION_EXTRACTION_PROMPT
              (conversation_text ROLE_CHARACTER recent) in
          parsed <-
            try_except (x <- ask_json prompt ;; ret (Some x)) (ret None) ;;
          match parsed with
          | None => ret tt
          | Some extracted =>
              confidence <- lift (py_get (py "confidence") VNone extracted) ;;
              if negb (is_str (py "high") confidence) then ret tt
              else
                gender <- lift (py_get (py "gender") VNone extracted) ;;
                let updates :=
                  if (is_str (py "male") gender
                      || is_str (py "female") gender)
                     && existsb (str_eqb (py "gender")) missing
                  then [(py "gender", gender)] else [] in
                match updates with
                | [] => ret tt
                | _ => update_user_profile user_id updates
                end
          end
      end
  end.

End Manager.

(** * The callers of the manager

    The two places of the application that drive the manager: the block of
    [main] that runs after each reply (src/character_chatbot.py) and the
    logout button of [render_user_profile_sidebar]
    (src/character_chatbot_auth.py).  What they use of [st.session_state]
    is a record; a change made to it before an exception stays made. *)

Record chat : Type := mkChat {
  chat_messages : list item;          (* messages[selected_character] *)
  chat_session_start : option pystr;  (* session_start_<character> *)
  chat_last_full_save : option Z;     (* last_full_save_<character> *)
  chat_user_profile : option item;    (* user_profile *)
}.

Definition set_last_full_save (n : Z) (c : chat) : chat :=
  mkChat (chat_messages c) (chat_session_start c) (Some n)
         (chat_user_profile c).

Definition set_user_profile (p : item) (c : chat) : chat :=
  mkChat (chat_messages c) (chat_session_start c) (chat_last_full_save c)
         (Some p).

(** A computation of the page: it returns or raises, and leaves the
    session state and the store either way. *)
Definition UI (A : Type) : Type := chat -> state -> result A * chat * state.

Definition ui_ret {A} (a : A) : UI A := fun c st => (Ok a, c, st).

Definition ui_bind {A B} (m : UI A) (k : A -> UI B) : UI B :=
  fun c st =>
    match m c st with
    | (Ok a, c', st') => k a c' st'
    | (Raise e, c', st') => (Raise e, c', st')
    end.

(** A call of the manager, or of the runtime. *)
Definition call {A} (m : M A) : UI A :=
  fun c st => match m st with (r, st') => (r, c, st') end.

Definition session_state : UI chat := fun c st => (Ok c, c, st).

Definition set_session_state (f : chat -> chat) : UI unit :=
  fun c st => (Ok tt, f c, st).

Declare Scope ui_scope.
Delimit Scope ui_scope with ui.
Notation "x <- m ;; k" := (ui_bind m (fun x => k))
  (at level 61, m at next level, right associativity) : ui_scope.
Notation "m ;;; k" := (ui_bind m (fun _ => k))
  (at level 61, right associativity) : ui_scope.

Section Callers.

Variable E : env.

(** [main], from the incremental save to the profile completion: what
    the page does with the manager once the reply is added to the
    messages.  The default of [session_state.get] is evaluated before the
    lookup, so the clock is read in any case. *)
Definition after_reply (user_id character : pystr) : UI unit :=
  (now_ <- call (utc_now E) ;;
   c <- session_state ;;
   let session_start :=
     match chat_session_start c with Some s => s | None => now_ end in
   call (save_messages_incremental E user_id character (chat_messages c)
           session_start) ;;;
   (* the full pipeline, once six messages have come *)
   let msgs := chat_messages c in
   let last_full_save :=
     match chat_last_full_save c with Some n => n | None => 0 end in
   (if 6 <=? Z.of_nat (length msgs) - last_full_save then
      call (save_conversation E user_id character msgs session_start) ;;;
      set_session_state (set_last_full_save (Z.of_nat (length msgs)))
    else ui_ret tt) ;;;
   (* onboarding, while it is not complete *)
   c <- session_state ;;
   let profile :=
     match chat_user_profile c with Some p => p | None => [] end in
   (if negb (get_truthy (py "onboarding_complete") profile) then
      current_step <-
        call (lift (py_int E (get_default (py "onboarding_step") (VInt 0)
                                profile))) ;;
      new_step <-
        call (process_onboarding_response E user_id (chat_messages c)
                current_step) ;;
      if negb (new_step =? current_step) then
        let p := dict_set (py "onboarding_step") (VInt new_step) profile in
        let p := if 4 <? new_step
                 then dict_set (py "onboarding_complete") (VBool true) p
                 else p in
        set_session_state (set_user_profile p)
      else ui_ret tt
    else ui_ret tt) ;;;
   (* profile completion *)
   call (process_profile_completion E user_id (chat_messages c)))%ui.


End Callers.

(** * The vocabulary of the statements *)

(** ** What is stored *)

(** The profile stored for a user. *)
Definition stored_user (user_id : pystr) (st : state) : option item :=
  table_find (key_schema Users) [user_id] (table_users st).

(** The profile [update_item] starts from: the stored one, or the bare key. *)
Definition profile_before (user_id : pystr) (st : state) : item :=
  match stored_user user_id st with
  | Some it => it
  | None => key_item (key_schema Users) [user_id]
  end.

(** The profile has [onboarding_complete] true. *)
Definition flag_set (it : item) : Prop :=
  dict_get (py "onboarding_complete") it = Some (VBool true).

(** The user's stored profile has [onboarding_complete] true. *)
Definition onboarding_complete_stored (user_id : pystr) (users : list item)
  : Prop :=
  exists it, table_find (key_schema Users) [user_id] users = Some it
             /\ flag_set it.

(** The fields the profile block shows are all empty. *)
Definition blank_profile (p : item) : Prop :=
  get_truthy (py "nickname") p = false
  /\ get_truthy (py "gender") p = false
  /\ get_truthy (py "birthday") p = false
  /\ get_truthy (py "interests") p = false
  /\ truthy (get_default (py "kpop_preferences") (VDict []) p) = false
  /\ get_truthy (py "preferred_topics") p = false.

(** What a list of [SET attr = :v] clauses makes of an item. *)
Definition write_all (updates : item) (it : item) : item :=
  fold_left (fun acc kv => dict_set (fst kv) (to_ddb (snd kv)) acc) updates it.

(** The pairs the last lines of [process_onboarding_response] write. *)
Definition step_updates (step : Z) (field : pystr) (d : item) : item :=
  let updates :=
    dict_set (py "onboarding_step") (VInt (step + 1))
      (onboarding_updates field d) in
  if 4 <? step + 1
  then dict_set (py "onboarding_complete") (VBool true) updates
  else updates.

(** The stored profile of the user has the onboarding step [z]. *)
Definition step_stored (user_id : pystr) (z : Z) (st : state) : Prop :=
  exists it,
    stored_user user_id st = Some it
    /\ dict_get (py "onboarding_step") it = Some (VDecimal (Qint z)).

(** The record stored for a session of a user with a character. *)
Definition stored_conversation (user_id character session_start : pystr)
    (st : state) : option item :=
  table_find (key_schema Conversations)
    [user_id; conversation_id_of character session_start]
    (table_conversations st).

(** The transcript [save_conversation] writes. *)
Definition transcript (user_id character session_start session_end : pystr)
    (messages : list item) : value :=
  VDict [ (py "user_id", VStr user_id);
          (py "character", VStr character);
          (py "session_start", VStr session_start);
          (py "session_end", VStr session_end);
          (py "message_count", len_of messages);
          (py "messages", VList (map log_message messages)) ].

(** The tables and the bucket are as they were. *)
Definition same_store (st st' : state) : Prop :=
  table_users st' = table_users st
  /\ table_conversations st' = table_conversations st
  /\ table_memories st' = table_memories st
  /\ s3 st' = s3 st.

(** The facts the two queries read, in the order they are concatenated. *)
Definition visible_facts (user_id character : pystr) (tb : list item)
  : list item :=
  filter (fact_matches user_id (py "global")) tb
  ++ filter (fact_matches user_id character) tb.

(** The stored importance is a whole number from 1 to 5. *)
Definition importance_in_range (it : item) : bool :=
  match dict_get (py "importance") it with
  | Some (VDecimal q) => Qintegral q && (1 <=? Qtrunc q) && (Qtrunc q <=? 5)
  | _ => false
  end.

Definition fact_before (user_id mid : pystr) (tb : list item) : item :=
  match table_find (key_schema Memories) [user_id; mid] tb with
  | Some it => it
  | None => key_item (key_schema Memories) [user_id; mid]
  end.


(** The count [if_not_exists(reference_count, :zero) + :one] gives. *)
Definition bumped_count (it : item) : option Q :=
  match dict_get (py "reference_count") it with
  | None => Some (Qint 1)
  | Some (VDecimal q) => Some (Qplus q (Qint 1))
  | Some _ => None
  end.

(** A fact after one reference update at time [t]. *)
Definition touched (t : pystr) (count : Q) (it : item) : item :=
  dict_set (py "last_referenced") (VStr t)
    (dict_set (py "reference_count") (VDecimal count) it).

Definition touch_clauses (t : pystr) : list action :=
  [ SetIncr (py "reference_count"); SetTo (py "last_referenced") (VStr t) ].




(** The transcript [save_messages_incremental] writes: no end of session. *)
Definition running_transcript (user_id character session_start : pystr)
    (messages : list item) : value :=
  VDict [ (py "user_id", VStr user_id);
          (py "character", VStr character);
          (py "session_start", VStr session_start);
          (py "message_count", len_of messages);
          (py "messages", VList (map log_message messages)) ].

(** A [Decimal] somewhere in the value. *)
Fixpoint has_decimal (v : value) : bool :=
  match v with
  | VDecimal _ => true
  | VList l => existsb has_decimal l
  | VDict d => existsb (fun kv => match kv with (_, x) => has_decimal x end) d
  | _ => false
  end.

(** Every [Decimal] of the value has a whole part of 28 digits at most:
    the values [_convert_decimals] gets through. *)
Fixpoint convertible (v : value) : bool :=
  match v with
  | VDecimal q => Z.abs (Qtrunc q) <? 10 ^ DECIMAL_PREC
  | VList l => forallb convertible l
  | VDict d => forallb (fun kv => match kv with (_, x) => convertible x end) d
  | _ => true
  end.

(** The same fraction. *)
Definition Qsame (a b : Q) : bool :=
  (Qnum a =? Qnum b) && (Qden a =? Qden b)%positive.

(** The least size of a number DynamoDB takes, 1E-130. *)
Definition DDB_LEAST : Q := Qmake 1 (10 ^ 130).

(** The values that a write and a read give back as they are: no
    [Decimal]; every integer of 28 digits at most (within the 38 digits
    DynamoDB takes, and within what [obj % 1] computes); every float no
    whole number, of a size from 1E-130 to 28 digits before the point, and
    one that [float] gives back from its own decimal form. *)
Fixpoint kept_by_the_table (E : env) (v : value) : bool :=
  match v with
  | VDecimal _ => false
  | VInt z => Z.abs z <? 10 ^ DECIMAL_PREC
  | VFloat q =>
      negb (Qintegral q)
      && (Z.abs (Qtrunc q) <? 10 ^ DECIMAL_PREC)
      && Qle_bool DDB_LEAST (Qmake (Z.abs (Qnum q)) (Qden q))
      && Qsame (float_of_decimal E q) q
  | VList l => forallb (kept_by_the_table E) l
  | VDict d =>
      forallb (fun kv => match kv with (_, x) => kept_by_the_table E x end) d
  | _ => true
  end.

(** [it'] is [it] but for the attributes of [w]. *)
Definition same_outside (w : list pystr) (it it' : item) : Prop :=
  forall k, existsb (str_eqb k) w = false -> dict_get k it' = dict_get k it.

(** The profile [it] of the user is still stored, changed at most in the
    attributes of [w]. *)
Definition profile_kept (user_id : pystr) (w : list pystr) (it : item)
    (tb : list item) : Prop :=
  exists it', table_find (key_schema Users) [user_id] tb = Some it'
              /\ same_outside w it it'.

(** The two facts agree on everything but the reference data. *)
Definition same_but_reference_data (it it' : item) : Prop :=
  forall k, k <> py "reference_count" -> k <> py "last_referenced" ->
            dict_get k it' = dict_get k it.

(** Every fact of [before] is still stored under its key, with the same
    content. *)
Definition facts_kept (before tb : list item) : Prop :=
  forall k it,
    table_find (key_schema Memories) k before = Some it ->
    exists it', table_find (key_schema Memories) k tb = Some it'
                /\ same_but_reference_data it it'.

(** A fact as [save_conversation] writes it for a user and a session: all
    its attributes, no reference yet, active. *)
Definition new_fact (user_id conversation_id : pystr) (it : item) : Prop :=
  dict_get (py "user_id") it = Some (VStr user_id)
  /\ (exists mid, dict_get (py "memory_id") it = Some (VStr mid))
  /\ dict_get (py "character") it <> None
  /\ dict_get (py "category") it <> None
  /\ dict_get (py "content") it <> None
  /\ dict_get (py "importance") it <> None
  /\ dict_get (py "source_conversation") it = Some (VStr conversation_id)
  /\ (exists t, dict_get (py "created_at") it = Some (VStr t)
                /\ dict_get (py "last_referenced") it = Some (VStr t))
  /\ dict_get (py "reference_count") it = Some (VDecimal (Qint 0))
  /\ dict_get (py "active") it = Some (VBool true).

(** The fact [save_conversation] writes for an extracted memory, with the
    uuid read at interaction [n], as the table holds it. *)
Definition fact_of (E : env) (user_id conversation_id now_ : pystr) (n : nat)
    (mem : item) : item :=
  let memory_char := get_default (py "character") (VStr (py "global")) mem in
  to_ddb_item
    (sanitize_item
       [ (py "user_id", VStr user_id);
         (py "memory_id",
          VStr (py_str E memory_char ++ py "#" ++ uuid_hex12 E n));
         (py "character", memory_char);
         (py "category", get_default (py "category") (VStr (py "fact")) mem);
         (py "content", get_default (py "content") (VStr []) mem);
         (py "importance", get_default (py "importance") (VInt 3) mem);
         (py "source_conversation", VStr conversation_id);
         (py "created_at", VStr now_);
         (py "last_referenced", VStr now_);
         (py "reference_count", VInt 0);
         (py "active", VBool true) ]).

(** The fact has importance [z], as the ranker reads it. *)
Definition ranked (E : env) (z : Z) (m : item) : bool :=
  match importance_key E m with
  | Ok z' => z' =? z
  | Raise _ => false
  end.

(** The text [get_onboarding_prompt_addition] gives at a step. *)
Definition onboarding_text (step : Z) (instruction : pystr) : pystr :=
  ONBOARDING_HEAD ++ digit step ++ ONBOARDING_MID ++ instruction
  ++ ONBOARDING_TAIL.

(** The step and the flag the page holds are the ones the stored profile
    gives: the stored step and the stored flag get through
    [_convert_decimals] and then read as the step and the flag of the
    page's profile. *)
Definition in_line (E : env) (user_id : pystr) (c : chat) (st : state)
  : Prop :=
  exists p it step flag,
    chat_user_profile c = Some p
    /\ stored_user user_id st = Some it
    /\ _convert_decimals E (get_default (py "onboarding_step") (VInt 0) it)
       = Ok step
    /\ py_int E (get_default (py "onboarding_step") (VInt 0) p)
       = py_int E step
    /\ _convert_decimals E (get_default (py "onboarding_complete") VNone it)
       = Ok flag
    /\ get_truthy (py "onboarding_complete") p = truthy flag.

(** The page right after the login: no message yet, the profile the login
    returned. *)
Definition fresh_chat (p : item) : chat := mkChat [] None None (Some p).

(** ** What the model answers *)

(** The extraction call made at interaction [n] fails: the model call
    raises, or its text does not parse (a text that is no JSON, or a fence
    with no line after it). *)
Definition extraction_fails (E : env) (character : pystr)
    (messages : list item) (n : nat) : Prop :=
  match llm_reply E n
          (EXTRACTION_PROMPT character (conversation_text E character messages))
  with
  | None => True
  | Some raw => exists e, parse_reply E raw = Raise e
  end.

(** What the extraction call made at interaction [n] gives: the parsed
    reply, or the zeroed structure. *)
Definition extracted (E : env) (character : pystr) (messages : list item)
    (n : nat) : value :=
  match llm_reply E n
          (EXTRACTION_PROMPT character (conversation_text E character messages))
  with
  | Some raw =>
      match parse_reply E raw with
      | Ok v => v
      | Raise _ => zeroed_extraction
      end
  | None => zeroed_extraction
  end.

(** The memories the loop of step 4 goes through. *)
Definition memories_of (extraction : value) : list value :=
  match py_get (py "memories") (VList []) extraction with
  | Ok mems => match py_iter mems with Ok l => l | Raise _ => [] end
  | Raise _ => []
  end.

(** The extraction gave the memory no importance, or an integer from 1
    to 5. *)
Definition importance_as_asked (mem : item) : Prop :=
  match dict_get (py "importance") mem with
  | None => True
  | Some (VInt z) => 1 <= z <= 5
  | Some _ => False
  end.

(** The fact is the one written for a memory of the extraction, by a save
    made for the conversation at the time [now_]. *)
Definition written_for (E : env) (user_id conversation_id now_ : pystr)
    (extraction : value) (it : item) : Prop :=
  exists mem n,
    In (VDict mem) (memories_of extraction)
    /\ it = fact_of E user_id conversation_id now_ n mem.

(** The judgment the model gives at interaction [n] on the last four
    turns, for the field being collected. *)
Definition judgment (E : env) (field : pystr) (messages : list item)
    (n : nat) : result value :=
  match llm_reply E n
          (ONBOARDING_EXTRACTION_PROMPT field
             (conversation_text E ROLE_CHARACTER (last_n 4 messages)))
  with
  | Some raw => parse_reply E raw
  | None => Raise AdapterError
  end.

(** An extraction the pipeline stores without reading what is not there:
    an object whose [memories] are objects, with nothing under
    [new_user_info]. *)
Definition storable (extraction : value) : Prop :=
  exists d ms,
    extraction = VDict d
    /\ py_iter (get_default (py "memories") (VList []) d) = Ok ms
    /\ (forall m, In m ms -> exists md, m = VDict md)
    /\ truthy (get_default (py "new_user_info") (VDict []) d) = false.

(** From interaction [lo] up to [hi], every adapter call goes through and
    the uuid source gives twelve characters, never the same twice. *)
Definition dependable (E : env) (lo hi : nat) : Prop :=
  (forall n, (lo <= n < hi)%nat -> fault E n = false)
  /\ (forall n, (lo <= n < hi)%nat -> length (uuid_hex12 E n) = 12%nat)
  /\ (forall n m, (lo <= n < hi)%nat -> (lo <= m < hi)%nat ->
        uuid_hex12 E n = uuid_hex12 E m -> n = m).

(** ** Sequences of operations *)

(** The functions the manager exposes to the chat loop. *)
Inductive op : Type :=
| Login (user_id email display_name : pystr)
| SaveConversation (user_id character : pystr) (messages : list item)
    (session_start : pystr)
| SaveIncremental (user_id character : pystr) (messages : list item)
    (session_start : pystr)
| BuildContext (user_id character : pystr)
| OnboardingPrompt (user_id character : pystr)
| OnboardingResponse (user_id : pystr) (messages : list item)
    (current_step : Z)
| CompletionPrompt (user_id : pystr)
| ProfileCompletion (user_id : pystr) (messages : list item).

(** The store after one operation, whether it returned or raised. *)
Definition run_op (E : env) (o : op) (st : state) : state :=
  match o with
  | Login u e d => snd (get_or_create_user E u e d st)
  | SaveConversation u c m s => snd (save_conversation E u c m s st)
  | SaveIncremental u c m s => snd (save_messages_incremental E u c m s st)
  | BuildContext u c => snd (build_memory_context E u c st)
  | OnboardingPrompt u c => snd (get_onboarding_prompt_addition E u c st)
  | OnboardingResponse u m step =>
      snd (process_onboarding_response E u m step st)
  | CompletionPrompt u => snd (get_profile_completion_prompt E u st)
  | ProfileCompletion u m => snd (process_profile_completion E u m st)
  end.

(** The chat loop's use of the step (src/character_chatbot.py, the
    onboarding block after each reply): the step it holds is passed in and
    replaced by the step returned; an exception leaves it as it was. *)
Definition onboarding_turn (E : env) (user_id : pystr) (messages : list item)
    (step : Z) (st : state) : Z * state :=
  match process_onboarding_response E user_id messages step st with
  | (Ok new_step, st') => (new_step, st')
  | (Raise _, st') => (step, st')
  end.

(** What happens in a session: a turn of the onboarding dialogue, or any
    other operation of the manager, for any user. *)
Inductive event : Type :=
| Turn (messages : list item)
| Other (o : op).

(** The step held and the store, after each event of a session. *)
Fixpoint session (E : env) (user_id : pystr) (events : list event)
    (step : Z) (st : state) : list (Z * state) :=
  match events with
  | [] => []
  | Turn messages :: rest =>
      let r := onboarding_turn E user_id messages step st in
      r :: session E user_id rest (fst r) (snd r)
  | Other o :: rest =>
      let st' := run_op E o st in
      (step, st') :: session E user_id rest step st'
  end.

(** The only calls of [process_onboarding_response] for the user are the
    turns of the session: no other event is one. *)
Definition only_turns_judge (user_id : pystr) (events : list event) : bool :=
  forallb (fun ev => match ev with
                     | Other (OnboardingResponse u _ _) =>
                         negb (str_eqb u user_id)
                     | _ => true
                     end) events.

(** The user an operation is made for. *)
Definition op_user (o : op) : pystr :=
  match o with
  | Login u _ _ => u
  | SaveConversation u _ _ _ => u
  | SaveIncremental u _ _ _ => u
  | BuildContext u _ => u
  | OnboardingPrompt u _ => u
  | OnboardingResponse u _ _ => u
  | CompletionPrompt u => u
  | ProfileCompletion u _ => u
  end.

(** The profile attributes an operation may write. *)
Definition written_attributes (o : op) : list pystr :=
  match o with
  | Login _ _ _ => [py "last_login_at"; py "total_sessions"]
  | SaveConversation _ _ _ _ =>
      [py "kpop_preferences"; py "birthday"; py "nickname"; py "updated_at"]
  | OnboardingResponse _ _ _ =>
      [py "nickname"; py "birthday"; py "interests"; py "kpop_preferences";
       py "preferred_topics"; py "onboarding_step"; py "onboarding_complete";
       py "updated_at"]
  | ProfileCompletion _ _ => [py "gender"; py "updated_at"]
  | _ => []
  end.

(** The store after a sequence of operations. *)
Definition run_ops (E : env) (ops : list op) (st : state) : state :=
  fold_left (fun s o => run_op E o s) ops st.

(** ** Invariants of the effects *)

(** [preserves I m]: whatever [m] does, returning or raising, it keeps
    [I]. *)
Definition preserves {A} (I : state -> Prop) (m : M A) : Prop :=
  forall st, I st -> I (snd (m st)).

(** An invariant of one table. *)
Definition on_table (t : table_name) (J : list item -> Prop) : state -> Prop :=
  fun st => J (get_table t st).

(** The attribute a clause sets. *)
Definition action_attr (a : action) : pystr :=
  match a with
  | SetTo attr _ => attr
  | SetIncr attr => attr
  end.

(** A clause that leaves the key alone and can only raise the flag. *)
Definition flag_safe (a : action) : Prop :=
  action_attr a <> py "user_id"
  /\ (action_attr a = py "onboarding_complete" ->
      a = SetTo (py "onboarding_complete") (VBool true)).

(** What [update_user_profile] may be given without lowering the flag. *)
Definition flag_safe_updates (updates : item) : Prop :=
  forall k v, In (k, v) updates ->
    k <> py "user_id" /\ (k = py "onboarding_complete" -> v = VBool true).

(** From large key to small. *)
Definition by_key_desc (a b : Z * item) : Prop := fst b <= fst a.

(** [returns m]: in every store, [m] returns and does not raise. *)
Definition returns {A} (m : M A) : Prop :=
  forall st, exists a, fst (m st) = Ok a.

(** A clause that sets an attribute of [w], and not the key. *)
Definition writes_within (w : list pystr) (a : action) : Prop :=
  existsb (str_eqb (action_attr a)) w = true
  /\ action_attr a <> py "user_id".

(** What [update_user_profile] may be given to stay within [w]. *)
Definition updates_within (w : list pystr) (updates : item) : Prop :=
  forall k v, In (k, v) updates ->
    existsb (str_eqb k) w = true /\ k <> py "user_id".

(** [ui_preserves I m]: whatever [m] does, returning or raising, it keeps
    the relation [I] between the session state and the store. *)
Definition ui_preserves {A} (I : chat -> state -> Prop) (m : UI A) : Prop :=
  forall c st, I c st -> I (snd (fst (m c st))) (snd (m c st)).

(** ** Concrete worlds

    A small decoder that knows the texts listed in a table, a clock that
    shows the number of the interaction, and stores of one user. *)

Module Fixtures.

Definition clock (n : nat) : pystr :=
  py "2026-01-01T00:00:0" ++ digit (Z.of_nat n mod 10).

Definition suffix (n : nat) : pystr :=
  py "00000000000" ++ digit (Z.of_nat n mod 10).

(** [int] on a string of decimal digits. *)
Fixpoint digits_value (acc : Z) (s : pystr) : option Z :=
  match s with
  | [] => Some acc
  | c :: r =>
      if ((48 <=? c) && (c <=? 57))%N
      then digits_value (10 * acc + (Z.of_N c - 48)) r
      else None
  end.

Definition read_int (s : pystr) : option Z :=
  match s with
  | [] => None
  | _ => digits_value 0 s
  end.

(** No adapter call fails; the model answers [reply]; [json.loads] knows the
    texts of [known]; [int] reads plain digits; [str] of a value that is
    no string is a placeholder; [float] gives a short decimal back as it
    is (the stores below hold no long one). *)
Definition world (known : list (pystr * value)) (reply : option pystr) : env :=
  mkEnv (fun text => dict_get text known)
        read_int
        (fun _ => py "<object>")
        (fun q => q)
        (fun _ => false)
        (fun _ _ => reply)
        clock
        suffix.

(** The same world with the adapter call number [n] failing. *)
Definition failing_at (n : nat) (E : env) : env :=
  mkEnv (json_loads E) (int_of_str E) (repr E) (float_of_decimal E)
        (fun m => Nat.eqb m n || fault E m)
        (llm_reply E) (now E) (uuid_hex12 E).

Definition empty : state := mkState [] [] [] [] 0.

Definition mina : pystr := py "user-mina".

(** The profile of a user who has logged in once, as the table holds it. *)
Definition mina_item : item :=
  to_ddb_item (new_user mina (py "mina@example.org") (py "Mina") (clock 0)).

Definition one_user : state := mkState [mina_item] [] [] [] 3.

Definition turn (role content : pystr) : item :=
  [ (py "role", VStr role); (py "content", VStr content);
    (py "timestamp", VStr (clock 0)) ].

Definition two_turns : list item :=
  [ turn (py "user") (py "hello"); turn (py "assistant") (py "hi there") ].

Definition three_turns : list item :=
  two_turns ++ [ turn (py "user") (py "tell me more") ].

(** JSON texts, with their quotes, and what [json.loads] makes of them. *)
Definition jstr (s : pystr) : pystr := [34%N] ++ s ++ [34%N].

Definition judgment_without_name : pystr :=
  py "{" ++ jstr (py "step_complete") ++ py ": true, "
  ++ jstr (py "nickname") ++ py ": null}".

Definition judgment_with_name : pystr :=
  py "{" ++ jstr (py "step_complete") ++ py ": true, "
  ++ jstr (py "nickname") ++ py ": " ++ jstr (py "Mina") ++ py "}".

Definition known_judgments : list (pystr * value) :=
  [ (judgment_without_name,
     VDict [ (py "step_complete", VBool true); (py "nickname", VNone) ]);
    (judgment_with_name,
     VDict [ (py "step_complete", VBool true);
             (py "nickname", VStr (py "Mina")) ]) ].

(** An extraction with one memory rated 9. *)
Definition extraction_rated_nine : pystr :=
  py "{" ++ jstr (py "memories") ++ py ": [{" ++ jstr (py "content")
  ++ py ": " ++ jstr (py "the user leads a dance crew") ++ py ", "
  ++ jstr (py "importance") ++ py ": 9}]}".

(** An extraction with one memory rated 4 and one with no rating. *)
Definition extraction_rated_four : pystr :=
  py "{" ++ jstr (py "memories") ++ py ": [{" ++ jstr (py "content")
  ++ py ": " ++ jstr (py "the user leads a dance crew") ++ py ", "
  ++ jstr (py "importance") ++ py ": 4}, {" ++ jstr (py "content")
  ++ py ": " ++ jstr (py "the user is from Busan") ++ py "}]}".

Definition known_extractions : list (pystr * value) :=
  [ (extraction_rated_nine,
     VDict [ (py "memories",
              VList [ VDict [ (py "content",
                               VStr (py "the user leads a dance crew"));
                              (py "importance", VInt 9) ] ]) ]);
    (extraction_rated_four,
     VDict [ (py "memories",
              VList [ VDict [ (py "content",
                               VStr (py "the user leads a dance crew"));
                              (py "importance", VInt 4) ];
                      VDict [ (py "content",
                               VStr (py "the user is from Busan")) ] ]) ]) ].

(** A stored fact of [mina]. *)
Definition fact (scope suffix_ content : pystr) (importance count : Z)
  : item :=
  to_ddb_item
    [ (py "user_id", VStr mina);
      (py "memory_id", VStr (scope ++ py "#" ++ suffix_));
      (py "character", VStr scope);
      (py "category", VStr (py "fact"));
      (py "content", VStr content);
      (py "importance", VInt importance);
      (py "source_conversation", VStr (py "Rumi#" ++ clock 0));
      (py "created_at", VStr (clock 0));
      (py "last_referenced", VStr (clock 0));
      (py "reference_count", VInt count);
      (py "active", VBool true) ].

Definition likes_tea : item :=
  fact (py "Rumi") (suffix 1) (py "the user likes green tea") 2 0.

Definition call_me_oppa : item :=
  fact (py "global") (suffix 2) (py "the user asked to be called oppa") 5 0.

Definition has_a_cat : item :=
  fact (py "global") (suffix 3) (py "the user has a cat") 3 7.

(** [mina] with three facts, the least important stored first. *)
Definition with_facts : state :=
  mkState [mina_item] [] [likes_tea; has_a_cat; call_me_oppa] [] 3.

(** A world in which nothing outside works: every adapter call fails and
    the model does not answer. *)
Definition nothing_works : env :=
  mkEnv (fun _ => None) read_int (fun _ => py "<object>") (fun q => q)
        (fun _ => true) (fun _ _ => None) clock suffix.

Definition jin : pystr := py "user-jin".

(** A reply that is JSON and no object. *)
Definition known_lists : list (pystr * value) := [ (py "[]", VList []) ].

Definition four_turns : list item :=
  three_turns ++ [ turn (py "assistant") (py "gladly") ].

(** [mina] after the last onboarding step. *)
Definition mina_done : item :=
  dict_set (py "onboarding_complete") (VBool true) mina_item.

Definition done_user : state := mkState [mina_done] [] [] [] 3.

(** [mina] with a known gender. *)
Definition mina_male : item :=
  dict_set (py "gender") (VStr (py "male")) mina_item.

Definition known_gender : state := mkState [mina_male] [] [] [] 3.

(** A fact stored with a null importance. *)
Definition unrated : item := dict_set (py "importance") VNone likes_tea.

Definition with_an_unrated_fact : state :=
  mkState [mina_item] [] [unrated; call_me_oppa] [] 3.

(** A value with an integer, a float that is no whole number, and a list. *)
Definition nested : value :=
  VDict [ (py "count", VInt 3);
          (py "ratio", VFloat (Qmake 1 2));
          (py "tags", VList [ VStr (py "a"); VNone; VBool true ]) ].

(** Two facts rated 4.2 and 4.9, the lower one stored first. *)
Definition rated_4_2 : item :=
  dict_set (py "importance") (VDecimal (Qmake 21 5)) likes_tea.

Definition rated_4_9 : item :=
  dict_set (py "importance") (VDecimal (Qmake 49 10))
    (fact (py "Rumi") (suffix 4) (py "the user plays the guitar") 4 0).

Definition with_fractions : state :=
  mkState [mina_item] [] [rated_4_2; rated_4_9] [] 3.



(** Three facts rated 3, one of them of the character, among others. *)
Definition plays_guitar : item :=
  fact (py "Rumi") (suffix 4) (py "the user plays the guitar") 3 0.

Definition is_from_busan : item :=
  fact (py "global") (suffix 5) (py "the user is from Busan") 3 0.

Definition with_ties : state :=
  mkState [mina_item] []
    [plays_guitar; likes_tea; has_a_cat; call_me_oppa; is_from_busan] [] 3.

(** [jin], with a conversation and a fact, beside [mina] and her facts. *)
Definition jin_item : item :=
  to_ddb_item (new_user jin (py "jin@example.org") (py "Jin") (clock 1)).

Definition jin_conversation : item :=
  [ (py "user_id", VStr jin);
    (py "conversation_id", VStr (py "Mira#" ++ clock 1));
    (py "character", VStr (py "Mira"));
    (py "session_start", VStr (clock 1));
    (py "summary", VStr (py "a talk about the tour")) ].

Definition jin_fact : item :=
  dict_set (py "user_id") (VStr jin)
    (fact (py "Mira") (suffix 6) (py "the user collects vinyl") 4 2).

Definition two_users : state :=
  mkState [mina_item; jin_item] [jin_conversation]
    [likes_tea; jin_fact; call_me_oppa] [] 3.

End Fixtures.

(** * Facts about text, dicts and tables *)

Lemma str_eqb_eq (a b : pystr) : str_eqb a b = true <-> a = b.
Proof.
  revert b; induction a as [|x a IH]; intros [|y b]; simpl;
    try (split; [discriminate | discriminate]); try tauto.
  rewrite andb_true_iff, N.eqb_eq, IH.
  split; [intros [-> ->]; reflexivity | intros H; inversion H; auto].
Qed.

Lemma str_eqb_refl (a : pystr) : str_eqb a a = true.
Proof. apply str_eqb_eq; reflexivity. Qed.

Lemma str_eqb_sym (a b : pystr) : str_eqb a b = str_eqb b a.
Proof.
  destruct (str_eqb a b) eqn:H1, (str_eqb b a) eqn:H2; auto.
  - apply str_eqb_eq in H1; subst. now rewrite str_eqb_refl in H2.
  - apply str_eqb_eq in H2; subst. now rewrite str_eqb_refl in H1.
Qed.

Lemma str_eqb_neq (a b : pystr) : str_eqb a b = false <-> a <> b.
Proof.
  split.
  - intros H ->. now rewrite str_eqb_refl in H.
  - intros H. destruct (str_eqb a b) eqn:Hab; auto.
    apply str_eqb_eq in Hab. contradiction.
Qed.

Lemma key_eqb_eq (a b : list pystr) : key_eqb a b = true <-> a = b.
Proof.
  revert b; induction a as [|x a IH]; intros [|y b]; simpl;
    try (split; [discriminate | discriminate]); try tauto.
  rewrite andb_true_iff, str_eqb_eq, IH.
  split; [intros [-> ->]; reflexivity | intros H; inversion H; auto].
Qed.

Lemma key_eqb_refl (a : list pystr) : key_eqb a a = true.
Proof. apply key_eqb_eq; reflexivity. Qed.

Lemma key_eqb_neq (a b : list pystr) : key_eqb a b = false <-> a <> b.
Proof.
  split.
  - intros H ->. now rewrite key_eqb_refl in H.
  - intros H. destruct (key_eqb a b) eqn:Hab; auto.
    apply key_eqb_eq in Hab. contradiction.
Qed.

Lemma dict_get_set_same (k : pystr) (v : value) (d : item) :
  dict_get k (dict_set k v d) = Some v.
Proof.
  induction d as [|[k' v'] d IH]; simpl.
  - now rewrite str_eqb_refl.
  - destruct (str_eqb k k') eqn:Hk; simpl; rewrite Hk; auto.
Qed.

Lemma dict_get_set_other (k k' : pystr) (v : value) (d : item) :
  str_eqb k k' = false ->
  dict_get k (dict_set k' v d) = dict_get k d.
Proof.
  intros Hk. induction d as [|[k2 v2] d IH]; simpl.
  - now rewrite Hk.
  - destruct (str_eqb k' k2) eqn:H2; simpl.
    + apply str_eqb_eq in H2; subst k2. now rewrite Hk.
    + destruct (str_eqb k k2); auto.
Qed.

Lemma key_of_dict_set (ks : list pystr) (a : pystr) (v : value) (d : item) :
  existsb (str_eqb a) ks = false ->
  key_of ks (dict_set a v d) = key_of ks d.
Proof.
  induction ks as [|k ks IH]; simpl; auto.
  intros H. apply orb_false_iff in H as [Hk Hks].
  rewrite dict_get_set_other by (rewrite str_eqb_sym; exact Hk).
  now rewrite IH.
Qed.

Lemma table_find_some (ks : list pystr) (k : list pystr) (t : list item)
    (it : item) :
  table_find ks k t = Some it -> In it t /\ key_of ks it = Some k.
Proof.
  unfold table_find. intros H. apply find_some in H as [Hin Hk].
  split; auto. unfold has_key in Hk.
  destruct (key_of ks it) as [k'|]; try discriminate.
  apply key_eqb_eq in Hk. now subst.
Qed.

Lemma table_find_put_same (ks : list pystr) (k : list pystr) (it : item)
    (t : list item) :
  key_of ks it = Some k ->
  table_find ks k (table_put ks k it t) = Some it.
Proof.
  intros Hk. unfold table_find.
  assert (Hit : has_key ks k it = true)
    by (unfold has_key; rewrite Hk; apply key_eqb_refl).
  induction t as [|x t IH]; simpl.
  - now rewrite Hit.
  - destruct (has_key ks k x) eqn:Hx; simpl.
    + now rewrite Hit.
    + now rewrite Hx.
Qed.

Lemma table_find_put_other (ks : list pystr) (k k' : list pystr) (it : item)
    (t : list item) :
  key_of ks it = Some k ->
  k' <> k ->
  table_find ks k' (table_put ks k it t) = table_find ks k' t.
Proof.
  intros Hk Hne. unfold table_find.
  assert (Hit : has_key ks k' it = false).
  { unfold has_key. rewrite Hk. now apply key_eqb_neq. }
  induction t as [|x t IH]; simpl.
  - now rewrite Hit.
  - destruct (has_key ks k x) eqn:Hx; simpl.
    + rewrite Hit.
      assert (Hx' : has_key ks k' x = false).
      { unfold has_key in *. destruct (key_of ks x) as [kx|]; auto.
        apply key_eqb_eq in Hx. subst kx. now apply key_eqb_neq. }
      now rewrite Hx'.
    + destruct (has_key ks k' x); auto.
Qed.

Lemma in_table_put (ks : list pystr) (k : list pystr) (it x : item)
    (t : list item) :
  In x (table_put ks k it t) -> x = it \/ In x t.
Proof.
  induction t as [|y t IH]; simpl.
  - intros [<- | []]. now left.
  - destruct (has_key ks k y); simpl.
    + intros [<- | H]; auto.
    + intros [<- | H]; auto. destruct (IH H); auto.
Qed.

Lemma dict_get_map_values (f : value -> value) (k : pystr) (d : item) :
  dict_get k (map (fun kv => match kv with (k', v) => (k', f v) end) d)
  = option_map f (dict_get k d).
Proof.
  induction d as [|[k' v] d IH]; simpl; auto.
  destruct (str_eqb k k'); auto.
Qed.

Lemma dict_get_sanitize_item (k : pystr) (d : item) :
  dict_get k (sanitize_item d) = option_map _sanitize_for_ddb (dict_get k d).
Proof. apply dict_get_map_values. Qed.

Lemma dict_get_to_ddb_item (k : pystr) (d : item) :
  dict_get k (to_ddb_item d) = option_map to_ddb (dict_get k d).
Proof. apply dict_get_map_values. Qed.

Lemma key_of_map_values (f : value -> value) (ks : list pystr) (d : item) :
  (forall s, f (VStr s) = VStr s) ->
  (forall v s, f v = VStr s -> v = VStr s) ->
  key_of ks (map (fun kv => match kv with (k', v) => (k', f v) end) d)
  = key_of ks d.
Proof.
  intros Hs Hinv. induction ks as [|k ks IH]; simpl; auto.
  rewrite dict_get_map_values, IH.
  destruct (dict_get k d) as [v|]; simpl; auto.
  destruct (f v) as [| | | | |s| |] eqn:Hf;
    try (destruct v; try reflexivity; rewrite Hs in Hf; discriminate).
  apply Hinv in Hf. subst v. reflexivity.
Qed.

Lemma key_of_to_ddb_item (ks : list pystr) (d : item) :
  key_of ks (to_ddb_item d) = key_of ks d.
Proof.
  apply key_of_map_values; [reflexivity|].
  intros v s H; destruct v; simpl in H; try discriminate; auto.
Qed.

Lemma key_of_sanitize_item (ks : list pystr) (d : item) :
  key_of ks (sanitize_item d) = key_of ks d.
Proof.
  apply key_of_map_values; [reflexivity|].
  intros v s H; destruct v; simpl in H; try discriminate; auto.
Qed.

(** ** The conversion of what is read *)

Lemma map_r_cons {A B} (f : A -> result B) (x : A) (l : list A)
    (ys : list B) :
  map_r f (x :: l) = Ok ys ->
  exists y rest, f x = Ok y /\ map_r f l = Ok rest /\ ys = y :: rest.
Proof.
  cbn [map_r]. destruct (f x) as [y|e]; [|discriminate]. cbn [rbind].
  destruct (map_r f l) as [rest|e]; [|discriminate]. cbn [rbind].
  intros H. injection H as <-. eauto.
Qed.

Lemma convert_item_cons (E : env) (k : pystr) (v : value) (d p : item) :
  convert_item E ((k, v) :: d) = Ok p ->
  exists v' p',
    _convert_decimals E v = Ok v'
    /\ convert_item E d = Ok p'
    /\ p = (k, v') :: p'.
Proof.
  unfold convert_item. intros H.
  apply map_r_cons in H as (y & rest & Hy & Hrest & ->).
  destruct (_convert_decimals E v) as [v'|e]; [|discriminate Hy].
  cbn [rbind] in Hy. injection Hy as <-. eauto.
Qed.

(** A dict is converted attribute by attribute. *)
Lemma dict_get_convert_item (E : env) (k : pystr) (d p : item) :
  convert_item E d = Ok p ->
  match dict_get k d with
  | Some v => exists v', _convert_decimals E v = Ok v'
                         /\ dict_get k p = Some v'
  | None => dict_get k p = None
  end.
Proof.
  revert p. induction d as [|[k' v] d IH]; intros p H.
  - injection H as <-. reflexivity.
  - apply convert_item_cons in H as (v' & p' & Hv & Hp & ->).
    cbn [dict_get]. destruct (str_eqb k k'); [eauto | now apply IH].
Qed.

Lemma convert_get_default (E : env) (k : pystr) (default : value)
    (d p : item) :
  convert_item E d = Ok p ->
  _convert_decimals E default = Ok default ->
  _convert_decimals E (get_default k default d) = Ok (get_default k default p).
Proof.
  intros Hc Hd. unfold get_default.
  pose proof (dict_get_convert_item E k d p Hc) as H.
  destruct (dict_get k d) as [v|].
  - destruct H as (v' & Hv & ->). exact Hv.
  - now rewrite H.
Qed.

Lemma convert_item_nil (E : env) (d : item) :
  convert_item E d = Ok [] -> d = [].
Proof.
  destruct d as [|[k v] d]; [reflexivity|]. intros H.
  apply convert_item_cons in H as (v' & p' & _ & _ & H). discriminate H.
Qed.



(** A whole number of 28 digits at most is read as the integer it is. *)
Lemma convert_whole (E : env) (z : Z) :
  Z.abs z < 10 ^ DECIMAL_PREC ->
  _convert_decimals E (VDecimal (Qint z)) = Ok (VInt z).
Proof.
  intros H. cbn [_convert_decimals]. unfold decimal_is_whole.
  unfold Qintegral, Qtrunc, Qint. cbn [Qnum Qden].
  rewrite Z.rem_1_r, Z.quot_1_r.
  destruct (10 ^ DECIMAL_PREC <=? Z.abs z) eqn:Hz;
    [apply Z.leb_le in Hz; lia | reflexivity].
Qed.

(** * Reasoning about the effects of the manager

    Rules for [preserves], one per construct of the monad and per call of
    the adapter. *)

Lemma preserves_ret {A} (I : state -> Prop) (a : A) : preserves I (ret a).
Proof. intros st H; exact H. Qed.

Lemma preserves_raise {A} (I : state -> Prop) (e : exn) :
  preserves I (@raise A e).
Proof. intros st H; exact H. Qed.

Lemma preserves_lift {A} (I : state -> Prop) (r : result A) :
  preserves I (lift r).
Proof. intros st H; exact H. Qed.

Lemma preserves_get_state (I : state -> Prop) : preserves I get_state.
Proof. intros st H; exact H. Qed.

Lemma preserves_bind {A B} (I : state -> Prop) (m : M A) (k : A -> M B) :
  preserves I m -> (forall a, preserves I (k a)) -> preserves I (bind m k).
Proof.
  intros Hm Hk st H. unfold bind. specialize (Hm st H).
  destruct (m st) as [[a|e] st']; simpl in *; auto. now apply Hk.
Qed.

Lemma preserves_bind_lift {A B} (I : state -> Prop) (r : result A)
    (k : A -> M B) :
  (forall a, r = Ok a -> preserves I (k a)) -> preserves I (bind (lift r) k).
Proof.
  intros Hk st H. unfold bind, lift. destruct r as [a|e]; simpl; auto.
  now apply Hk.
Qed.

Lemma preserves_try_except {A} (I : state -> Prop) (m h : M A) :
  preserves I m -> preserves I h -> preserves I (try_except m h).
Proof.
  intros Hm Hh st H. unfold try_except. specialize (Hm st H).
  destruct (m st) as [[a|e] st']; simpl in *; auto.
Qed.

Lemma preserves_for_each {A} (I : state -> Prop) (l : list A)
    (body : A -> M unit) :
  (forall x, In x l -> preserves I (body x)) -> preserves I (for_each l body).
Proof.
  induction l as [|x l IH]; intros Hb; simpl.
  - apply preserves_ret.
  - apply preserves_bind.
    + apply Hb. now left.
    + intros _. apply IH. intros y Hy. apply Hb. now right.
Qed.


Lemma get_table_set_other (t t' : table_name) (tb : list item) (st : state) :
  t <> t' -> get_table t (set_table t' tb st) = get_table t st.
Proof. destruct t, t'; intros H; try reflexivity; contradiction. Qed.

Section Effects.

Variable E : env.
Variable t : table_name.
Variable J : list item -> Prop.

Lemma preserves_interact : preserves (on_table t J) interact.
Proof. intros st H. destruct t; exact H. Qed.

Lemma preserves_adapter_call : preserves (on_table t J) (adapter_call E).
Proof.
  unfold adapter_call. apply preserves_bind; [apply preserves_interact|].
  intros n. destruct (fault E n); [apply preserves_raise | apply preserves_ret].
Qed.

Lemma preserves_utc_now : preserves (on_table t J) (utc_now E).
Proof.
  unfold utc_now. apply preserves_bind; [apply preserves_interact|].
  intros n. apply preserves_ret.
Qed.

Lemma preserves_uuid4_hex12 : preserves (on_table t J) (uuid4_hex12 E).
Proof.
  unfold uuid4_hex12. apply preserves_bind; [apply preserves_interact|].
  intros n. apply preserves_ret.
Qed.

Lemma preserves_invoke_model (p : prompt) :
  preserves (on_table t J) (invoke_model E p).
Proof.
  unfold invoke_model. apply preserves_bind; [apply preserves_interact|].
  intros n. destruct (llm_reply E n p);
    [apply preserves_ret | apply preserves_raise].
Qed.

Lemma preserves_ask_json (p : prompt) :
  preserves (on_table t J) (ask_json E p).
Proof.
  unfold ask_json. apply preserves_bind; [apply preserves_invoke_model|].
  intros raw. apply preserves_lift.
Qed.

Lemma preserves_get_item (t' : table_name) (k : list pystr) :
  preserves (on_table t J) (get_item E t' k).
Proof.
  unfold get_item. apply preserves_bind; [apply preserves_adapter_call|].
  intros _. apply preserves_bind; [apply preserves_get_state|].
  intros st. apply preserves_ret.
Qed.

Lemma preserves_query_memories (u s : pystr) :
  preserves (on_table t J) (query_memories E u s).
Proof.
  unfold query_memories. apply preserves_bind; [apply preserves_adapter_call|].
  intros _. apply preserves_bind; [apply preserves_get_state|].
  intros st. apply preserves_ret.
Qed.

Lemma preserves_query_conversations (u c : pystr) (limit : Z) :
  preserves (on_table t J) (query_conversations E u c limit).
Proof.
  unfold query_conversations.
  apply preserves_bind; [apply preserves_adapter_call|].
  intros _. destruct (limit <? 1); [apply preserves_raise|].
  apply preserves_bind; [apply preserves_get_state|].
  intros st. apply preserves_ret.
Qed.

Lemma preserves_put_object (key : pystr) (body : value) :
  preserves (on_table t J) (put_object E key body).
Proof.
  unfold put_object. apply preserves_bind; [apply preserves_adapter_call|].
  intros _ st H. destruct t; exact H.
Qed.

(** A write to the table of the invariant keeps it when the written item
    does. *)
Lemma preserves_put_item (t' : table_name) (it : item) :
  (t' = t ->
   forall k tb, key_of (key_schema t) it = Some k -> J tb ->
                J (table_put (key_schema t) k (to_ddb_item it) tb)) ->
  preserves (on_table t J) (put_item E t' it).
Proof.
  intros HJ. unfold put_item.
  destruct (item_has_float it); [apply preserves_raise|].
  apply preserves_bind; [apply preserves_adapter_call|].
  intros _. destruct (key_of (key_schema t') it) as [k|] eqn:Hk;
    [|apply preserves_raise].
  intros st H. unfold modify, on_table in *. simpl.
  destruct t, t'; simpl in *; try exact H;
    apply (HJ eq_refl k _ Hk H).
Qed.

Lemma preserves_update_item (t' : table_name) (k : list pystr)
    (acts : list action) :
  (t' = t ->
   forall tb tb', table_update (key_schema t) k acts tb = Ok tb' -> J tb ->
                  J tb') ->
  preserves (on_table t J) (update_item E t' k acts).
Proof.
  intros HJ st H. unfold update_item.
  destruct (existsb action_has_float acts); [exact H|].
  cbv [bind adapter_call interact get_state modify raise ret].
  destruct (fault E (tick st)); simpl.
  - destruct t; exact H.
  - assert (Hb : get_table t' (bump st) = get_table t' st)
      by (destruct t'; reflexivity).
    rewrite Hb.
    destruct (table_update (key_schema t') k acts (get_table t' st))
      as [tb|e] eqn:Hu; simpl.
    + unfold on_table in *.
      destruct t, t'; simpl in *; try exact H;
        apply (HJ eq_refl _ _ Hu H).
    + destruct t; exact H.
Qed.

End Effects.

Ltac run_m :=
  cbv [bind ret raise lift try_except get_state modify interact adapter_call
       utc_now uuid4_hex12 invoke_model get_item put_item update_item
       query_memories query_conversations put_object ask_json].

Ltac proj :=
  cbn [fst snd tick table_users table_conversations table_memories s3
       get_table set_table set_s3 bump].

(** * Login of an existing user *)

Lemma whole_is_its_integer_part (q : Q) :
  Qintegral q = true -> Qeq q (Qint (Qtrunc q)).
Proof.
  destruct q as [z d]. unfold Qintegral, Qtrunc, Qint, Qeq. cbn [Qnum Qden].
  intros H. apply Z.eqb_eq in H.
  pose proof (Z.quot_rem' z (Zpos d)) as Hz. rewrite H, Z.add_0_r in Hz.
  rewrite Hz at 1. ring.
Qed.


Lemma convert_whole_decimal (E : env) (q : Q) (v : value) :
  Qintegral q = true ->
  _convert_decimals E (VDecimal q) = Ok v -> v = VInt (Qtrunc q).
Proof.
  intros Hq. cbn [_convert_decimals]. unfold decimal_is_whole.
  destruct (10 ^ DECIMAL_PREC <=? Z.abs (Qtrunc q)); cbn [rbind];
    [discriminate|].
  rewrite Hq. intros H. now injection H as <-.
Qed.



(** The login of a user whose profile holds a number of 29 digits: the
    update is made and the call raises. *)
Example a_login_that_raises_after_the_update :
  let E := Fixtures.world [] None in
  let it := dict_set (py "nickname") (VDecimal (Qint (10 ^ 28)))
              Fixtures.mina_item in
  let r := get_or_create_user E Fixtures.mina (py "mina@example.org")
             (py "Mina") (mkState [it] [] [] [] 3) in
  fst r = Raise InvalidOperation
  /\ exists it',
       stored_user Fixtures.mina (snd r) = Some it'
       /\ dict_get (py "total_sessions") it'
          = Some (VDecimal (Qplus (Qint 1) (Qint 1))).
Proof. vm_compute. split; [reflexivity|]. eexists. split; reflexivity. Qed.

(** * Failures of the persistence layer in the query paths *)

Lemma _get_top_memories_never_raises (E : env) (user_id character : pystr)
    (limit : Z) (st : state) :
  exists l, fst (_get_top_memories E user_id character limit st) = Ok l.
Proof.
  unfold _get_top_memories, try_except.
  match goal with |- context [match ?m st with _ => _ end] =>
    destruct (m st) as [[l|e] st'] end; simpl; eauto.
Qed.

Lemma _get_recent_summaries_never_raises (E : env)
    (user_id character : pystr) (limit : Z) (st : state) :
  exists l, fst (_get_recent_summaries E user_id character limit st) = Ok l.
Proof.
  unfold _get_recent_summaries, try_except.
  match goal with |- context [match ?m st with _ => _ end] =>
    destruct (m st) as [[l|e] st'] end; simpl; eauto.
Qed.

(** The ranker and the summary query turn a failing query into an empty
    list. *)
Lemma query_fault_gives_empty_list (E : env) (user_id character : pystr)
    (limit : Z) (st : state) :
  fault E (tick st) = true ->
  fst (_get_top_memories E user_id character limit st) = Ok []
  /\ fst (_get_recent_summaries E user_id character limit st) = Ok [].
Proof.
  intros Hf. unfold _get_top_memories, _get_recent_summaries. run_m.
  rewrite Hf. split; reflexivity.
Qed.

(** The profile lookup has no handler: when [get_item] on the user table
    raises, every function that starts with [get_user_profile] raises. *)
Lemma profile_lookup_fault_propagates (E : env) (user_id character : pystr)
    (messages : list item) (st : state) :
  fault E (tick st) = true ->
  fst (get_user_profile E user_id st) = Raise AdapterError
  /\ fst (build_memory_context E user_id character st) = Raise AdapterError
  /\ fst (get_onboarding_prompt_addition E user_id character st)
     = Raise AdapterError
  /\ fst (get_profile_completion_prompt E user_id st) = Raise AdapterError
  /\ fst (process_profile_completion E user_id messages st)
     = Raise AdapterError.
Proof.
  intros Hf.
  unfold build_memory_context, get_onboarding_prompt_addition,
    get_profile_completion_prompt, process_profile_completion,
    get_user_profile.
  run_m. rewrite Hf. repeat split; reflexivity.
Qed.

(** C1 (the code departs from the claim).  With the user table failing on
    the first call, each exposed query function raises instead of returning
    an empty value, while the ranker and the summary query, whose bodies
    are wrapped in a handler, return the empty list in the same world. *)
Theorem profile_lookup_failure_reaches_the_caller :
  let E := Fixtures.failing_at 3 (Fixtures.world [] None) in
  let st := Fixtures.one_user in
  fst (build_memory_context E Fixtures.mina (py "Rumi") st)
    = Raise AdapterError
  /\ fst (get_onboarding_prompt_addition E Fixtures.mina (py "Rumi") st)
     = Raise AdapterError
  /\ fst (get_profile_completion_prompt E Fixtures.mina st)
     = Raise AdapterError
  /\ fst (process_profile_completion E Fixtures.mina Fixtures.two_turns st)
     = Raise AdapterError
  /\ fst (_get_top_memories E Fixtures.mina (py "Rumi") 15 st) = Ok []
  /\ fst (_get_recent_summaries E Fixtures.mina (py "Rumi") 5 st) = Ok [].
Proof. vm_compute. repeat split. Qed.

(** * A failed extraction *)

Lemma non_json_text_fails (E : env) (character : pystr)
    (messages : list item) (n : nat) (raw text : pystr) :
  llm_reply E n
    (EXTRACTION_PROMPT character (conversation_text E character messages))
  = Some raw ->
  strip_code_fence (strip raw) = Ok text ->
  json_loads E text = None ->
  extraction_fails E character messages n.
Proof.
  intros Hr Hs Hj. unfold extraction_fails. rewrite Hr.
  exists JSONDecodeError. unfold parse_reply. rewrite Hs. simpl.
  now rewrite Hj.
Qed.

Lemma failed_extraction_is_zeroed (E : env) (character : pystr)
    (messages : list item) (st : state) :
  extraction_fails E character messages (tick st) ->
  _extract_all_from_conversation E character messages st
  = (Ok zeroed_extraction, bump st).
Proof.
  unfold extraction_fails, _extract_all_from_conversation. run_m.
  destruct (llm_reply E (tick st) _) as [raw|]; [|reflexivity].
  intros [e He]. rewrite He. reflexivity.
Qed.

(** C7. With at least two turns, when the extraction call fails (the model
    call raises or its text is no JSON) and the two writes go through,
    [save_conversation] returns normally, stores the transcript under the
    conversation's path, puts one ConversationRecord under the
    conversation's key, with the empty summary, no keyword and the
    sentiment "neutral", and leaves the memory table as it was. *)
Theorem save_conversation_with_failed_extraction
    (E : env) (st : state) (user_id character session_start : pystr)
    (messages : list item) :
  (2 <= length messages)%nat ->
  extraction_fails E character messages (S (tick st)) ->
  fault E (S (S (tick st))) = false ->
  fault E (S (S (S (tick st)))) = false ->
  let r := save_conversation E user_id character messages session_start st in
  let path :=
    s3_log_path_of user_id (conversation_id_of character session_start) in
  fst r = Ok tt
  /\ dict_get path (s3 (snd r))
     = Some (transcript user_id character session_start (now E (tick st))
               messages)
  /\ (exists rec,
        stored_conversation user_id character session_start (snd r) = Some rec
        /\ table_conversations (snd r)
           = table_put (key_schema Conversations)
               [user_id; conversation_id_of character session_start] rec
               (table_conversations st)
        /\ dict_get (py "summary") rec = Some (VStr [])
        /\ dict_get (py "keywords") rec = Some (VList [])
        /\ dict_get (py "user_sentiment") rec = Some (VStr (py "neutral")))
  /\ table_memories (snd r) = table_memories st.
Proof.
  intros Hlen Hx Hf2 Hf3 r path. subst r path.
  unfold save_conversation, save_extraction.
  destruct (length messages <? 2)%nat eqn:Hl;
    [apply Nat.ltb_lt in Hl; lia|].
  run_m. proj.
  rewrite (failed_extraction_is_zeroed E character messages (bump st) Hx).
  proj. rewrite Hf2.
  change (py_get (py "summary") (VStr []) zeroed_extraction)
    with (Ok (VStr [])).
  change (py_get (py "keywords") (VList []) zeroed_extraction)
    with (Ok (VList [])).
  change (py_get (py "user_sentiment") (VStr (py "neutral")) zeroed_extraction)
    with (Ok (VStr (py "neutral"))).
  change (py_get (py "new_user_info") (VDict []) zeroed_extraction)
    with (Ok (VDict [])).
  change (py_get (py "memories") (VList []) zeroed_extraction)
    with (Ok (VList [])).
  cbn [py_iter for_each truthy].
  match goal with |- context [item_has_float ?it] =>
    change (item_has_float it) with false;
    change (key_of (key_schema Conversations) it)
      with (Some [user_id; conversation_id_of character session_start])
  end.
  proj. rewrite Hf3. cbv [ret]. proj.
  split; [reflexivity|]. split; [|split; [|reflexivity]].
  - cbn [dict_get]. now rewrite str_eqb_refl.
  - eexists. split; [|split; [reflexivity|]].
    + unfold stored_conversation. proj.
      apply table_find_put_same. reflexivity.
    + repeat split; reflexivity.
Qed.

(** * The context block *)

Lemma finish_context_bounded (parts : list pystr) :
  (length (finish_context parts) <= 4000 + length TRUNCATION_MARKER)%nat.
Proof.
  unfold finish_context. destruct parts as [|p parts]; [simpl; lia|].
  destruct (4000 <? length (join (NL ++ NL) (p :: parts)))%nat eqn:Hlen.
  - rewrite length_app, length_firstn. lia.
  - apply Nat.ltb_ge in Hlen. lia.
Qed.

Lemma in_firstn {A} (n : nat) (l : list A) (x : A) :
  In x (firstn n l) -> In x l.
Proof.
  intros H. rewrite <- (firstn_skipn n l). apply in_or_app. now left.
Qed.

Lemma in_slice_to {A} (n : Z) (l : list A) (x : A) :
  In x (slice_to n l) -> In x l.
Proof. unfold slice_to. destruct (0 <=? n); apply in_firstn. Qed.

Lemma insert_desc_perm {A} (gt : A -> A -> bool) (x : A) (l : list A) :
  Permutation (insert_desc gt x l) (x :: l).
Proof.
  induction l as [|y l IH]; simpl; auto.
  destruct (gt y x); auto.
  rewrite IH. apply perm_swap.
Qed.

Lemma sort_desc_perm {A} (gt : A -> A -> bool) (l : list A) :
  Permutation (sort_desc gt l) l.
Proof.
  induction l as [|x l IH]; simpl; auto.
  rewrite insert_desc_perm. now constructor.
Qed.

Lemma map_r_all_none {A B} (f : A -> result (option B)) (l : list A) :
  (forall x, In x l -> f x = Ok None) ->
  exists ls, map_r f l = Ok ls /\ cat_some ls = [].
Proof.
  induction l as [|x l IH]; intros H; simpl.
  - exists []. auto.
  - rewrite (H x) by now left. simpl.
    destruct IH as [ls [Hls Hc]]; [intros y Hy; apply H; now right|].
    rewrite Hls. simpl. exists (None :: ls). auto.
Qed.

(** What the summary query reads comes from the conversation table and
    belongs to the user and the character asked for. *)
Lemma query_conversations_sound (E : env) (user_id character : pystr)
    (limit : Z) (st : state) (l : list item) :
  fst (query_conversations E user_id character limit st) = Ok l ->
  forall it, In it l ->
    In it (table_conversations st)
    /\ is_str user_id (get_default (py "user_id") VNone it) = true
    /\ is_str character (get_default (py "character") VNone it) = true.
Proof.
  unfold query_conversations. run_m. proj.
  destruct (fault E (tick st)); [discriminate|].
  destruct (limit <? 1); [discriminate|]. proj.
  intros Hl it Hin. injection Hl as <-.
  apply filter_In in Hin as [Hin Hc].
  apply in_firstn in Hin.
  apply (Permutation_in _ (sort_desc_perm _ _)) in Hin.
  apply filter_In in Hin as [Hin Hu].
  apply andb_true_iff in Hu as [Hu _]. auto.
Qed.

(** ** Effects by table *)

Ltac preserve_step :=
  first
    [ apply preserves_ret | apply preserves_raise | apply preserves_lift
    | apply preserves_get_state | apply preserves_utc_now
    | apply preserves_uuid4_hex12 | apply preserves_ask_json
    | apply preserves_invoke_model | apply preserves_adapter_call
    | apply preserves_get_item | apply preserves_query_memories
    | apply preserves_query_conversations | apply preserves_put_object
    | apply preserves_bind_lift; intros ? ?
    | apply preserves_bind; [| intros ?]
    | apply preserves_try_except
    | apply preserves_for_each; intros ? ?
    | apply preserves_put_item; let H := fresh in intros H; discriminate H
    | apply preserves_update_item; let H := fresh in intros H; discriminate H
    | match goal with
      | |- preserves _ (match (if ?c then _ else _) with _ => _ end) =>
          destruct c
      | |- preserves _ (match ?x with _ => _ end) => destruct x
      | |- preserves _ (if ?x then _ else _) => destruct x
      end
    | progress cbv zeta ].

Ltac preserve := repeat preserve_step.

(** The same, with a rule for the calls that are not to be opened. *)
Ltac preserve_using tac := repeat first [ tac | preserve_step ].

Section ConversationTable.

Variable E : env.
Variable J : list item -> Prop.

Let I := on_table Conversations J.

Lemma conversations_kept_by_get_or_create_user (u e d : pystr) :
  preserves I (get_or_create_user E u e d).
Proof. unfold get_or_create_user, I. preserve. Qed.

Lemma conversations_kept_by_get_user_profile (u : pystr) :
  preserves I (get_user_profile E u).
Proof. unfold get_user_profile, I. preserve. Qed.

Lemma conversations_kept_by_update_user_profile (u : pystr) (updates : item) :
  preserves I (update_user_profile E u updates).
Proof. unfold update_user_profile, I. preserve. Qed.

Lemma conversations_kept_by_save_messages_incremental (u c : pystr)
    (messages : list item) (s : pystr) :
  preserves I (save_messages_incremental E u c messages s).
Proof. unfold save_messages_incremental, I. preserve. Qed.

Lemma conversations_kept_by_get_top_memories (u c : pystr) (limit : Z) :
  preserves I (_get_top_memories E u c limit).
Proof. unfold _get_top_memories, touch_memory, I. preserve. Qed.

Lemma conversations_kept_by_get_recent_summaries (u c : pystr) (limit : Z) :
  preserves I (_get_recent_summaries E u c limit).
Proof. unfold _get_recent_summaries, I. preserve. Qed.

Lemma conversations_kept_by_build_memory_context (u c : pystr) :
  preserves I (build_memory_context E u c).
Proof.
  unfold build_memory_context.
  pose proof conversations_kept_by_get_user_profile.
  pose proof conversations_kept_by_get_top_memories.
  pose proof conversations_kept_by_get_recent_summaries.
  unfold I in *. preserve; auto.
Qed.

Lemma conversations_kept_by_get_onboarding_prompt_addition (u c : pystr) :
  preserves I (get_onboarding_prompt_addition E u c).
Proof.
  unfold get_onboarding_prompt_addition.
  pose proof conversations_kept_by_get_user_profile.
  unfold I in *. preserve; auto.
Qed.

Lemma conversations_kept_by_process_onboarding_response (u : pystr)
    (messages : list item) (step : Z) :
  preserves I (process_onboarding_response E u messages step).
Proof.
  unfold process_onboarding_response.
  pose proof conversations_kept_by_update_user_profile.
  unfold I in *. preserve; auto.
Qed.

Lemma conversations_kept_by_get_profile_completion_prompt (u : pystr) :
  preserves I (get_profile_completion_prompt E u).
Proof.
  unfold get_profile_completion_prompt.
  pose proof conversations_kept_by_get_user_profile.
  unfold I in *. preserve; auto.
Qed.

Lemma conversations_kept_by_process_profile_completion (u : pystr)
    (messages : list item) :
  preserves I (process_profile_completion E u messages).
Proof.
  unfold process_profile_completion.
  pose proof conversations_kept_by_get_user_profile.
  pose proof conversations_kept_by_update_user_profile.
  unfold I in *. preserve; auto.
Qed.

End ConversationTable.

Lemma filter_none {A} (f : A -> bool) (l : list A) :
  (forall x, In x l -> f x = false) -> filter f l = [].
Proof.
  induction l as [|x l IH]; intros H; simpl; auto.
  rewrite (H x) by now left. apply IH. intros y Hy. apply H. now right.
Qed.

(** With no visible fact in the table, the ranker returns the empty list,
    whatever the adapter does. *)
Lemma _get_top_memories_nothing_stored (E : env) (user_id character : pystr)
    (limit : Z) (st : state) :
  (forall it, In it (table_memories st) ->
     fact_matches user_id (py "global") it = false
     /\ fact_matches user_id character it = false) ->
  fst (_get_top_memories E user_id character limit st) = Ok [].
Proof.
  intros H. unfold _get_top_memories. run_m. proj.
  destruct (fault E (tick st)); [reflexivity|]. proj.
  destruct (fault E (S (tick st))); [reflexivity|]. proj.
  rewrite !filter_none by (intros it Hit; now apply H).
  cbn. unfold slice_to. destruct (0 <=? limit); now rewrite firstn_nil.
Qed.

Lemma Qint_integral (z : Z) :
  Qintegral (Qint z) = true /\ Qtrunc (Qint z) = z.
Proof.
  unfold Qintegral, Qtrunc, Qint. cbn [Qnum Qden].
  now rewrite Z.rem_1_r, Z.quot_1_r.
Qed.

Lemma blank_profile_has_no_section (E : env) (p : item) :
  blank_profile p -> profile_section E (Some p) = Ok None.
Proof.
  intros (H1 & H2 & H3 & H4 & H5 & H6).
  unfold profile_section, profile_lines.
  rewrite H1, H2, H3, H4, H5, H6. simpl. now destruct p.
Qed.

Lemma summary_section_without_summaries (E : env) (l : list item) :
  (forall s, In s l -> get_truthy (py "summary") s = false) ->
  summary_section E l = Ok None.
Proof.
  intros H. unfold summary_section. destruct l as [|s l]; [reflexivity|].
  match goal with |- context [map_r ?f ?l'] =>
    destruct (map_r_all_none f l') as [ls [Hls Hc]] end.
  { intros x Hx. now rewrite (H x Hx). }
  rewrite Hls. simpl. now rewrite Hc.
Qed.

Lemma bind_ok {A B} (m : M A) (k : A -> M B) (st : state) (b : B) :
  fst (bind m k st) = Ok b ->
  exists a st', m st = (Ok a, st') /\ fst (k a st') = Ok b.
Proof.
  unfold bind. destruct (m st) as [[a|e] st']; simpl; [eauto | discriminate].
Qed.

Lemma map_r_in {A B} (f : A -> result B) (l : list A) (ys : list B)
    (y : B) :
  map_r f l = Ok ys -> In y ys -> exists x, In x l /\ f x = Ok y.
Proof.
  revert ys. induction l as [|a l IH]; intros ys H Hin.
  - injection H as <-. destruct Hin.
  - apply map_r_cons in H as (b & rest & Hb & Hrest & ->).
    destruct Hin as [<-|Hin]; [exists a; split; [now left | exact Hb]|].
    destruct (IH rest Hrest Hin) as (x & Hx & Hfx).
    exists x. split; [now right | exact Hfx].
Qed.

(** C8. Whatever is stored, the text [build_memory_context] returns is at
    most 4000 characters plus the truncation marker (12 characters) long;
    and when the profile lookup goes through, the profile is absent or
    blank, no active fact of the user is stored under the global scope or
    the character, and no conversation of the user with the character has
    a summary, it returns the empty string. *)
Theorem build_memory_context_bounded_and_empty
    (E : env) (st : state) (user_id character : pystr) :
  (forall s, fst (build_memory_context E user_id character st) = Ok s ->
     (length s <= 4000 + length TRUNCATION_MARKER)%nat)
  /\ length TRUNCATION_MARKER = 12%nat
  /\ (fault E (tick st) = false ->
      match stored_user user_id st with
      | Some it => exists p, convert_item E it = Ok p /\ blank_profile p
      | None => True
      end ->
      (forall it, In it (table_memories st) ->
         fact_matches user_id (py "global") it = false
         /\ fact_matches user_id character it = false) ->
      (forall it, In it (table_conversations st) ->
         is_str user_id (get_default (py "user_id") VNone it) = true ->
         is_str character (get_default (py "character") VNone it) = true ->
         forall rec, convert_item E it = Ok rec ->
                     get_truthy (py "summary") rec = false) ->
      fst (build_memory_context E user_id character st) = Ok []).
Proof.
  split; [|split; [reflexivity|]].
  - intros s H. unfold build_memory_context in H.
    repeat (apply bind_ok in H as (? & ? & _ & H)).
    injection H as <-. apply finish_context_bounded.
  - intros Hf Hp Hm Hc. unfold build_memory_context.
    assert (Htail :
              fst ((memories <- _get_top_memories E user_id character 15 ;;
                    p2 <- lift (memory_section E memories) ;;
                    summaries <-
                      _get_recent_summaries E user_id character 5 ;;
                    p3 <- lift (summary_section E summaries) ;;
                    ret (finish_context (cat_some [None; p2; p3])))
                     (bump st)) = Ok []).
    { unfold bind at 1.
      pose proof (@_get_top_memories_nothing_stored E user_id character 15
                    (bump st) Hm) as Hmem.
      pose proof (@conversations_kept_by_get_top_memories E
                    (fun tb => tb = table_conversations st) user_id character
                    15 (bump st) eq_refl) as Hkeep.
      unfold on_table in Hkeep. simpl in Hkeep.
      destruct (_get_top_memories E user_id character 15 (bump st))
        as [r1 st1]. simpl in Hmem, Hkeep. subst r1.
      cbn [memory_section].
      pose proof (@query_conversations_sound E user_id character 5 st1) as Hq.
      unfold _get_recent_summaries. cbv [bind try_except lift ret].
      destruct (query_conversations E user_id character 5 st1)
        as [[l|e] st2]; cbn [fst] in Hq |- *; [|reflexivity].
      destruct (map_r (convert_item E) l) as [recs|e] eqn:Hrecs;
        [|reflexivity].
      rewrite summary_section_without_summaries; [reflexivity|].
      intros s Hs.
      destruct (map_r_in _ _ _ _ Hrecs Hs) as (it & Hit & Hcv).
      destruct (Hq l eq_refl it Hit) as (Hin & Hu & Hch).
      rewrite Hkeep in Hin. now apply (Hc it Hin Hu Hch). }
    unfold bind at 1. unfold get_user_profile. run_m. proj. rewrite Hf. proj.
    fold (stored_user user_id st).
    destruct (stored_user user_id st) as [it|].
    + destruct Hp as (p & Hcv & Hblank). rewrite Hcv. proj.
      rewrite (blank_profile_has_no_section E p Hblank). exact Htail.
    + exact Htail.
Qed.

(** * The onboarding step *)

Lemma onboarding_steps_inv (step : Z) (field instr : pystr) :
  ONBOARDING_STEPS step = Some (field, instr) ->
  (step = 0 /\ field = py "nickname")
  \/ (step = 1 /\ field = py "birthday")
  \/ (step = 2 /\ field = py "interests")
  \/ (step = 3 /\ field = py "kpop_preferences")
  \/ (step = 4 /\ field = py "preferred_topics").
Proof.
  unfold ONBOARDING_STEPS.
  destruct step as [|p|p]; try discriminate;
    [| repeat (destruct p as [p|p|]; try discriminate)];
    intros H; injection H as <- _; tauto.
Qed.

Lemma onboarding_updates_spec (step : Z) (field instr : pystr) (d : item) :
  ONBOARDING_STEPS step = Some (field, instr) ->
  onboarding_updates field d
  = if truthy (get_default field VNone d)
    then [(field, get_default field VNone d)] else [].
Proof.
  intros H. apply onboarding_steps_inv in H.
  destruct H as [[_ ->]|[[_ ->]|[[_ ->]|[[_ ->]|[_ ->]]]]];
    unfold onboarding_updates, get_truthy;
    match goal with |- context [truthy ?v] => destruct (truthy v) end;
    reflexivity.
Qed.

Ltac dict_simpl :=
  repeat first
    [ rewrite dict_get_set_same
    | rewrite dict_get_set_other by reflexivity ].

(** Closed comparisons of literals, evaluated in place. *)
Ltac eval_str_eqb :=
  repeat match goal with
  | |- context [str_eqb ?a ?b] =>
      let r := eval vm_compute in (str_eqb a b) in
      match r with
      | true => change (str_eqb a b) with true
      | false => change (str_eqb a b) with false
      end
  end.

Lemma apply_actions_set_to (updates : item) (it : item) :
  apply_actions (map (fun kv => SetTo (fst kv) (snd kv)) updates) it
  = Ok (write_all updates it).
Proof.
  revert it. induction updates as [|[k v] l IH]; intros it; simpl; auto.
Qed.

Lemma key_of_write_all (ks : list pystr) (updates it : item) :
  (forall kv, In kv updates -> existsb (str_eqb (fst kv)) ks = false) ->
  key_of ks (write_all updates it) = key_of ks it.
Proof.
  revert it. induction updates as [|[k v] l IH]; intros it H; simpl; auto.
  unfold write_all in IH. rewrite IH by (intros kv Hkv; apply H; now right).
  apply key_of_dict_set. apply (H (k, v)). now left.
Qed.

Lemma key_of_profile_before (user_id : pystr) (st : state) :
  key_of (key_schema Users) (profile_before user_id st) = Some [user_id].
Proof.
  unfold profile_before, stored_user.
  destruct (table_find _ _ _) as [it|] eqn:H.
  - now apply table_find_some in H.
  - cbn. eval_str_eqb. reflexivity.
Qed.

Lemma existsb_has_float_dict_set (k : pystr) (v : value) (d : item) :
  has_float v = false ->
  existsb (fun kv => has_float (snd kv)) d = false ->
  existsb (fun kv => has_float (snd kv)) (dict_set k v d) = false.
Proof.
  intros Hv. induction d as [|[k' v'] d IH]; simpl.
  - intros _. now rewrite Hv.
  - intros H. apply orb_false_iff in H as [H1 H2].
    destruct (str_eqb k k'); simpl.
    + now rewrite Hv, H2.
    + now rewrite H1, IH.
Qed.

Lemma existsb_map_comp {A B} (f : B -> bool) (g : A -> B) (l : list A) :
  existsb f (map g l) = existsb (fun x => f (g x)) l.
Proof. induction l as [|x l IH]; simpl; congruence. Qed.

Lemma dict_set_not_nil (k : pystr) (v : value) (d : item) :
  dict_set k v d <> [].
Proof. destruct d as [|[k' v'] d]; simpl; [|destruct (str_eqb k k')]; discriminate. Qed.

(** [update_user_profile] with something to write, no float in it and the
    adapter call going through: one write of every pair, and of the time,
    onto the stored profile. *)
Lemma update_user_profile_ok (E : env) (user_id : pystr) (updates : item)
    (st : state) :
  updates <> [] ->
  existsb (fun kv => has_float (snd kv)) updates = false ->
  fault E (S (tick st)) = false ->
  update_user_profile E user_id updates st
  = (Ok tt,
     set_table Users
       (table_put (key_schema Users) [user_id]
          (write_all
             (dict_set (py "updated_at") (VStr (now E (tick st))) updates)
             (profile_before user_id st))
          (table_users st))
       (bump (bump st))).
Proof.
  intros Hne Hnf Hf. unfold update_user_profile.
  destruct updates as [|kv updates]; [contradiction|].
  assert (Hu : existsb action_has_float
                 (map (fun kv => SetTo (fst kv) (snd kv))
                    (dict_set (py "updated_at") (VStr (now E (tick st)))
                       (kv :: updates))) = false).
  { rewrite existsb_map_comp.
    apply (@existsb_has_float_dict_set (py "updated_at")
             (VStr (now E (tick st))) (kv :: updates) eq_refl Hnf). }
  run_m. proj. rewrite Hu. proj. rewrite Hf. proj.
  unfold table_update. rewrite apply_actions_set_to. cbn [rbind].
  reflexivity.
Qed.

(** C4 (as amended). At a step 0..4 whose judgment call parses to a dict:
    when [step_complete] is not true, the step is returned as it was and
    nothing stored changes; when it is true (and the answer holds no float,
    the adapter call going through), the returned and the stored step are
    the step plus one, the flag [onboarding_complete] is stored once the
    last step is passed, and the step's field is written exactly when the
    answer given for it is not empty: an empty or missing answer leaves
    the field as it was. *)
Theorem process_onboarding_response_step
    (E : env) (st : state) (user_id : pystr) (messages : list item)
    (step : Z) (field instruction : pystr) (d : item) :
  ONBOARDING_STEPS step = Some (field, instruction) ->
  judgment E field messages (tick st) = Ok (VDict d) ->
  let r := process_onboarding_response E user_id messages step st in
  let step_complete :=
    truthy (get_default (py "step_complete") (VBool false) d) in
  let answer := get_default field VNone d in
  (step_complete = false -> fst r = Ok step /\ same_store st (snd r))
  /\ (step_complete = true ->
      has_float answer = false ->
      fault E (S (S (tick st))) = false ->
      fst r = Ok (step + 1)
      /\ exists it',
           stored_user user_id (snd r) = Some it'
           /\ dict_get (py "onboarding_step") it'
              = Some (VDecimal (Qint (step + 1)))
           /\ (step = 4 ->
               dict_get (py "onboarding_complete") it' = Some (VBool true))
           /\ dict_get field it'
              = if truthy answer then Some (to_ddb answer)
                else dict_get field (profile_before user_id st)).
Proof.
  intros Hstep Hj r sc answer. subst r sc answer.
  unfold judgment in Hj.
  unfold process_onboarding_response. rewrite Hstep.
  run_m. proj.
  destruct (llm_reply E (tick st) _) as [raw|]; [|discriminate].
  rewrite Hj. cbn [py_get].
  destruct (truthy (get_default (py "step_complete") (VBool false) d)) eqn:Hsc;
    cbn [negb]; proj.
  - split; [discriminate|]. intros _ Hnf Hf.
    rewrite (@onboarding_updates_spec step field instruction d Hstep).
    set (updates := if 4 <? step + 1 then _ else _).
    assert (Hne : updates <> []).
    { subst updates. destruct (4 <? step + 1); apply dict_set_not_nil. }
    assert (Hfl : existsb (fun kv => has_float (snd kv)) updates = false).
    { subst updates.
      assert (existsb (fun kv => has_float (snd kv))
                (if truthy (get_default field VNone d)
                 then [(field, get_default field VNone d)] else []) = false)
        by (destruct (truthy (get_default field VNone d));
            cbn [existsb snd]; rewrite ?Hnf; reflexivity).
      destruct (4 <? step + 1);
        repeat apply existsb_has_float_dict_set; auto. }
    rewrite (@update_user_profile_ok E user_id updates (bump st) Hne Hfl Hf).
    proj. split; [reflexivity|]. clear Hne Hfl. subst updates.
    apply onboarding_steps_inv in Hstep.
    destruct Hstep as [[-> ->]|[[-> ->]|[[-> ->]|[[-> ->]|[-> ->]]]]];
      match goal with |- context [4 <? ?s + 1] =>
        let b := eval vm_compute in (4 <? s + 1) in
        change (4 <? s + 1) with b
      end;
      match goal with |- context [truthy (get_default ?f VNone d)] =>
        destruct (truthy (get_default f VNone d)) eqn:Ht
      end;
      repeat (progress (cbn [dict_set]; eval_str_eqb));
      cbn [write_all fold_left fst snd];
      (eexists; split;
       [ unfold stored_user; proj; apply table_find_put_same;
         rewrite !key_of_dict_set by reflexivity;
         apply (key_of_profile_before user_id (bump st))
       | split; [|split];
         [ dict_simpl; reflexivity
         | intros H4; try discriminate H4; dict_simpl; reflexivity
         | dict_simpl; reflexivity ] ]).
  - split; [|discriminate]. intros _.
    split; [reflexivity|]. repeat split.
Qed.

Lemma process_onboarding_response_step_witness :
  let E := Fixtures.world Fixtures.known_judgments
             (Some Fixtures.judgment_with_name) in
  let st := Fixtures.one_user in
  let d := [ (py "step_complete", VBool true);
             (py "nickname", VStr (py "Mina")) ] in
  let r := process_onboarding_response E Fixtures.mina Fixtures.two_turns 0
             st in
  let step_complete :=
    truthy (get_default (py "step_complete") (VBool false) d) in
  let answer := get_default (py "nickname") VNone d in
  (step_complete = false -> fst r = Ok 0 /\ same_store st (snd r))
  /\ (step_complete = true ->
      has_float answer = false ->
      fault E (S (S (tick st))) = false ->
      fst r = Ok (0 + 1)
      /\ exists it',
           stored_user Fixtures.mina (snd r) = Some it'
           /\ dict_get (py "onboarding_step") it'
              = Some (VDecimal (Qint (0 + 1)))
           /\ (0 = 4 ->
               dict_get (py "onboarding_complete") it' = Some (VBool true))
           /\ dict_get (py "nickname") it'
              = if truthy answer then Some (to_ddb answer)
                else dict_get (py "nickname")
                       (profile_before Fixtures.mina st)).
Proof.
  intros E st d.
  apply (@process_onboarding_response_step E st Fixtures.mina
           Fixtures.two_turns 0 (py "nickname") INSTR_NICKNAME d);
    reflexivity.
Defined.

(** C4, the claim as stated fails: at step 0 the judgment says
    [step_complete] with no name ([nickname] null); the step becomes 1,
    while the stored nickname stays the empty string it was: the only
    attributes written are [onboarding_step] and [updated_at]. *)
Lemma step_complete_without_answer_writes_no_field :
  let E := Fixtures.world Fixtures.known_judgments
             (Some Fixtures.judgment_without_name) in
  let r := process_onboarding_response E Fixtures.mina Fixtures.two_turns 0
             Fixtures.one_user in
  judgment E (py "nickname") Fixtures.two_turns 3
  = Ok (VDict [ (py "step_complete", VBool true); (py "nickname", VNone) ])
  /\ fst r = Ok 1
  /\ stored_user Fixtures.mina (snd r)
     = Some (dict_set (py "updated_at") (VStr (Fixtures.clock 4))
               (dict_set (py "onboarding_step") (VDecimal (Qint 1))
                  Fixtures.mina_item))
  /\ dict_get (py "nickname") Fixtures.mina_item = Some (VStr [])
  /\ (exists it', stored_user Fixtures.mina (snd r) = Some it'
                  /\ dict_get (py "nickname") it' = Some (VStr [])).
Proof.
  vm_compute. repeat split. eexists. split; reflexivity.
Qed.

(** * The onboarding flag in the user table *)

Lemma apply_action_flag_safe (a : action) (it it' : item) :
  flag_safe a ->
  apply_action a it = Ok it' ->
  key_of (key_schema Users) it' = key_of (key_schema Users) it
  /\ (flag_set it -> flag_set it').
Proof.
  intros [Hk Hc] Ha.
  assert (Hset : forall v, (action_attr a = py "onboarding_complete" ->
                            v = VBool true) ->
            key_of (key_schema Users) (dict_set (action_attr a) v it)
            = key_of (key_schema Users) it
            /\ (flag_set it -> flag_set (dict_set (action_attr a) v it))).
  { intros v Hv. split.
    - apply key_of_dict_set. cbn [key_schema existsb].
      rewrite orb_false_r. now apply str_eqb_neq.
    - unfold flag_set. intros Hf.
      destruct (str_eqb (py "onboarding_complete") (action_attr a)) eqn:Hq.
      + apply str_eqb_eq in Hq. rewrite <- Hq.
        rewrite dict_get_set_same. f_equal. auto.
      + now rewrite dict_get_set_other. }
  destruct a as [attr v|attr]; cbn [apply_action action_attr] in *.
  - injection Ha as <-. apply Hset. intros Hq.
    specialize (Hc Hq). now injection Hc as _ ->.
  - destruct (dict_get attr it) as [[| | | |q| | |]|]; try discriminate;
      injection Ha as <-; apply Hset; intros Hq;
      specialize (Hc Hq); discriminate Hc.
Qed.

Lemma apply_actions_flag_safe (acts : list action) (it it' : item) :
  Forall flag_safe acts ->
  apply_actions acts it = Ok it' ->
  key_of (key_schema Users) it' = key_of (key_schema Users) it
  /\ (flag_set it -> flag_set it').
Proof.
  intros Hs. revert it. induction Hs as [|a acts Ha Hs IH]; intros it H.
  - injection H as <-. auto.
  - cbn [apply_actions] in H.
    destruct (apply_action a it) as [it1|e] eqn:H1; [|discriminate].
    cbn [rbind] in H.
    destruct (apply_action_flag_safe a it it1 Ha H1) as [Hk1 Hf1].
    destruct (IH _ H) as [Hk2 Hf2].
    split; [congruence | auto].
Qed.

(** An update of any profile by flag-safe clauses keeps a stored flag. *)
Lemma table_update_keeps_flag (user_id u : pystr) (acts : list action)
    (tb tb' : list item) :
  Forall flag_safe acts ->
  table_update (key_schema Users) [u] acts tb = Ok tb' ->
  onboarding_complete_stored user_id tb ->
  onboarding_complete_stored user_id tb'.
Proof.
  intros Hs Hu [it [Hfind Hflag]]. unfold table_update in Hu.
  set (old := match table_find (key_schema Users) [u] tb with
              | Some x => x
              | None => key_item (key_schema Users) [u]
              end) in Hu.
  destruct (apply_actions acts old) as [new|e] eqn:Ha; [|discriminate].
  unfold rbind in Hu. injection Hu as <-.
  destruct (apply_actions_flag_safe acts old new Hs Ha) as [Hk Hf].
  assert (Hold : key_of (key_schema Users) old = Some [u]).
  { subst old. destruct (table_find (key_schema Users) [u] tb) eqn:Hx.
    - now apply table_find_some in Hx.
    - cbn. eval_str_eqb. reflexivity. }
  rewrite Hold in Hk.
  destruct (list_eq_dec N.eq_dec user_id u) as [->|Hne].
  - exists new. split; [now apply table_find_put_same|].
    apply Hf. subst old. now rewrite Hfind.
  - exists it. split; [|exact Hflag].
    change (table_put [py "user_id"] [u] new tb)
      with (table_put (key_schema Users) [u] new tb).
    rewrite (table_find_put_other _ [u] [user_id] new tb Hk); [exact Hfind|].
    intros H. injection H as H. contradiction.
Qed.

Lemma in_dict_set (k : pystr) (v : value) (d : item) (k' : pystr)
    (v' : value) :
  In (k', v') (dict_set k v d) -> (k' = k /\ v' = v) \/ In (k', v') d.
Proof.
  induction d as [|[k2 v2] d IH]; simpl.
  - intros [H|[]]. injection H as <- <-. auto.
  - destruct (str_eqb k k2) eqn:Hk; simpl.
    + apply str_eqb_eq in Hk. subst k2.
      intros [H|H]; [injection H as <- <-|]; auto.
    + intros [H|H]; auto. destruct (IH H); auto.
Qed.

Lemma flag_safe_dict_set (k : pystr) (v : value) (d : item) :
  k <> py "user_id" ->
  (k = py "onboarding_complete" -> v = VBool true) ->
  flag_safe_updates d -> flag_safe_updates (dict_set k v d).
Proof.
  intros Hk Hv Hd k' v' Hin. apply in_dict_set in Hin as [[-> ->]|Hin]; auto.
Qed.

Lemma flag_safe_nil : flag_safe_updates [].
Proof. intros k v []. Qed.

Lemma flag_safe_clauses (updates : item) :
  flag_safe_updates updates ->
  Forall flag_safe (map (fun kv => SetTo (fst kv) (snd kv)) updates).
Proof.
  intros H. apply Forall_forall. intros a Ha.
  apply in_map_iff in Ha as [[k v] [<- Hin]].
  destruct (H k v Hin) as [Hk Hv]. split; cbn; auto.
  intros ->. now rewrite (Hv eq_refl).
Qed.

(** An explicit list of pairs with literal keys. *)
Ltac flag_safe_list :=
  let k := fresh "k" in
  let v := fresh "v" in
  let Hin := fresh "Hin" in
  intros k v Hin; cbn [In] in Hin;
  repeat (destruct Hin as [Hin|Hin];
          [ injection Hin as <- <-; split;
            [ apply str_eqb_neq; reflexivity
            | let Hq := fresh in
              intros Hq; try reflexivity;
              apply str_eqb_eq in Hq; vm_compute in Hq; discriminate Hq ]
          | ]);
  contradiction.

Section UserTable.

Variable E : env.
Variable user_id : pystr.

Let I := on_table Users (onboarding_complete_stored user_id).

Lemma flag_kept_by_get_user_profile (u : pystr) :
  preserves I (get_user_profile E u).
Proof. unfold get_user_profile, I. preserve. Qed.

Lemma flag_kept_by_update_user_profile (u : pystr) (updates : item) :
  flag_safe_updates updates ->
  preserves I (update_user_profile E u updates).
Proof.
  intros Hs. unfold update_user_profile, I.
  destruct updates as [|kv updates]; [apply preserves_ret|].
  apply preserves_bind; [apply preserves_utc_now|]. intros now_.
  apply preserves_update_item. intros _ tb tb' Hu.
  refine (table_update_keeps_flag user_id u _ tb tb' _ Hu).
  apply flag_safe_clauses. apply flag_safe_dict_set; auto; discriminate.
Qed.

Lemma flag_kept_by_get_or_create_user (u e d : pystr) :
  preserves I (get_or_create_user E u e d).
Proof.
  intros st H. unfold I, on_table in *. cbn [get_table] in *.
  unfold get_or_create_user. run_m. proj.
  destruct (fault E (S (tick st))); [exact H|]. proj.
  destruct (table_find (key_schema Users) [u] (table_users st)) as [it|]
    eqn:Hfind.
  - cbn [existsb action_has_float has_float orb]. proj.
    destruct (fault E (S (S (tick st)))); [exact H|]. proj.
    match goal with |- context [table_update ?ks ?k ?acts ?tb] =>
      destruct (table_update ks k acts tb) as [tb'|err] eqn:Hu end;
      proj; [|exact H].
    refine (table_update_keeps_flag user_id u _ _ tb' _ Hu H).
    repeat constructor; cbn; try (apply str_eqb_neq; reflexivity);
      intros Hq; apply str_eqb_eq in Hq; discriminate Hq.
  - change (item_has_float (new_user u e d (now E (tick st)))) with false.
    proj. destruct (fault E (S (S (tick st)))); [exact H|]. proj.
    change (key_of (key_schema Users) (new_user u e d (now E (tick st))))
      with (Some [u]).
    proj. destruct H as [it [Hit Hflag]]. exists it. split; [|exact Hflag].
    rewrite table_find_put_other; [exact Hit | reflexivity |].
    intros Heq. injection Heq as ->. congruence.
Qed.

Lemma flag_safe_single (k : pystr) (v : value) :
  str_eqb k (py "user_id") = false ->
  str_eqb k (py "onboarding_complete") = false ->
  flag_safe_updates [(k, v)].
Proof.
  intros H1 H2 k' v' [Heq|[]]. injection Heq as <- <-.
  split; [now apply str_eqb_neq|].
  intros Hq. apply str_eqb_eq in Hq. congruence.
Qed.

Lemma onboarding_updates_flag_safe (field : pystr) (d : item) :
  flag_safe_updates (onboarding_updates field d).
Proof.
  unfold onboarding_updates.
  repeat match goal with
         | |- context [if ?c then _ else _] => destruct c
         end;
    try apply flag_safe_nil; apply flag_safe_single; reflexivity.
Qed.

Lemma profile_updates_of_flag_safe (new_info : value) (u : item) :
  profile_updates_of new_info = Ok u -> flag_safe_updates u.
Proof.
  unfold profile_updates_of.
  destruct new_info as [| | | | | | |d]; try discriminate.
  cbn [py_get rbind py_subscript]. unfold subscript.
  intros H.
  repeat match type of H with
         | context [if ?c then _ else _] => destruct c; cbn [rbind] in H
         | context [match dict_get ?k ?x with _ => _ end] =>
             destruct (dict_get k x); cbn [rbind] in H
         end;
    try discriminate; injection H as <-; flag_safe_list.
Qed.

Lemma flag_kept_by_save_conversation (u c : pystr) (messages : list item)
    (s : pystr) :
  preserves I (save_conversation E u c messages s).
Proof.
  unfold save_conversation, save_extraction, _extract_all_from_conversation,
    save_memory, I.
  preserve_using ltac:(apply flag_kept_by_update_user_profile).
  all: eapply profile_updates_of_flag_safe; eassumption.
Qed.

Lemma flag_kept_by_save_messages_incremental (u c : pystr)
    (messages : list item) (s : pystr) :
  preserves I (save_messages_incremental E u c messages s).
Proof. unfold save_messages_incremental, I. preserve. Qed.

Lemma flag_kept_by_build_memory_context (u c : pystr) :
  preserves I (build_memory_context E u c).
Proof.
  unfold build_memory_context, get_user_profile, _get_top_memories,
    touch_memory, _get_recent_summaries, I.
  preserve.
Qed.

Lemma flag_kept_by_get_onboarding_prompt_addition (u c : pystr) :
  preserves I (get_onboarding_prompt_addition E u c).
Proof. unfold get_onboarding_prompt_addition, get_user_profile, I. preserve. Qed.

Lemma flag_kept_by_process_onboarding_response (u : pystr)
    (messages : list item) (step : Z) :
  preserves I (process_onboarding_response E u messages step).
Proof.
  unfold process_onboarding_response, I.
  preserve_using ltac:(apply flag_kept_by_update_user_profile).
  all: match goal with
       | |- flag_safe_updates (if ?c then _ else _) => destruct c
       end.
  all: repeat (apply flag_safe_dict_set;
               [ apply str_eqb_neq; reflexivity
               | let Hq := fresh in
                 intros Hq; try reflexivity;
                 apply str_eqb_eq in Hq; discriminate Hq
               | ]).
  all: apply onboarding_updates_flag_safe.
Qed.

Lemma flag_kept_by_get_profile_completion_prompt (u : pystr) :
  preserves I (get_profile_completion_prompt E u).
Proof. unfold get_profile_completion_prompt, get_user_profile, I. preserve. Qed.

Lemma flag_kept_by_process_profile_completion (u : pystr)
    (messages : list item) :
  preserves I (process_profile_completion E u messages).
Proof.
  unfold process_profile_completion, get_user_profile, I.
  preserve_using ltac:(apply flag_kept_by_update_user_profile).
  all: apply flag_safe_single; reflexivity.
Qed.

End UserTable.

Lemma flag_kept_by_run_op (E : env) (user_id : pystr) (o : op) (st : state) :
  onboarding_complete_stored user_id (table_users st) ->
  onboarding_complete_stored user_id (table_users (run_op E o st)).
Proof.
  intros H. destruct o; cbn [run_op].
  - now apply flag_kept_by_get_or_create_user.
  - now apply flag_kept_by_save_conversation.
  - now apply flag_kept_by_save_messages_incremental.
  - now apply flag_kept_by_build_memory_context.
  - now apply flag_kept_by_get_onboarding_prompt_addition.
  - now apply flag_kept_by_process_onboarding_response.
  - now apply flag_kept_by_get_profile_completion_prompt.
  - now apply flag_kept_by_process_profile_completion.
Qed.

Lemma update_user_profile_result (E : env) (user_id : pystr) (updates : item)
    (st st' : state) :
  updates <> [] ->
  update_user_profile E user_id updates st = (Ok tt, st') ->
  st' = set_table Users
          (table_put (key_schema Users) [user_id]
             (write_all
                (dict_set (py "updated_at") (VStr (now E (tick st))) updates)
                (profile_before user_id st))
             (table_users st))
          (bump (bump st)).
Proof.
  intros Hne H. unfold update_user_profile in H.
  destruct updates as [|kv updates]; [contradiction|].
  revert H. run_m. proj.
  destruct (existsb action_has_float _); [discriminate|]. proj.
  destruct (fault E (S (tick st))); [discriminate|]. proj.
  unfold table_update. rewrite apply_actions_set_to. cbn [rbind].
  intros H. injection H as <-. reflexivity.
Qed.

(** * Onboarding never goes back *)

(** Either the step comes back as it was, or it comes back one higher,
    after the profile update returned. *)
Lemma ONBOARDING_STEPS_range (step : Z) (x : pystr * pystr) :
  ONBOARDING_STEPS step = Some x -> 0 <= step <= 4.
Proof.
  destruct step as [|p|p]; [lia | | discriminate].
  do 3 (destruct p as [p|p|]; try discriminate; try lia).
Qed.

Lemma process_onboarding_response_cases (E : env) (user_id : pystr)
    (messages : list item) (step : Z) (st : state) (s' : Z) :
  fst (process_onboarding_response E user_id messages step st) = Ok s' ->
  s' = step
  \/ (s' = step + 1
      /\ exists field instruction d st1,
           ONBOARDING_STEPS step = Some (field, instruction)
           /\ update_user_profile E user_id (step_updates step field d) st1
              = (Ok tt,
                 snd (process_onboarding_response E user_id messages step st))).
Proof.
  unfold process_onboarding_response.
  destruct (ONBOARDING_STEPS step) as [[field instruction]|] eqn:Hs.
  2:{ cbv [ret]. cbn [fst]. intros H. injection H as <-. now left. }
  cbv [bind try_except ret raise lift].
  destruct (ask_json E _ st) as [[x|e] st1]; cbn [fst snd].
  2:{ intros H. injection H as <-. now left. }
  destruct x as [| | | | | | |d]; cbn [py_get]; try discriminate.
  destruct (truthy (get_default (py "step_complete") (VBool false) d));
    cbn [negb fst snd].
  2:{ intros H. injection H as <-. now left. }
  fold (step_updates step field d).
  destruct (update_user_profile E user_id (step_updates step field d) st1)
    as [[[]|e] st2] eqn:Hu; cbn [fst snd]; [|discriminate].
  intros H. injection H as <-. right. split; [reflexivity|].
  exists field, instruction, d, st1. auto.
Qed.

Lemma beyond_the_last_step (step : Z) :
  4 < step -> ONBOARDING_STEPS step = None.
Proof.
  intros H. destruct step as [|p|p]; try lia; try reflexivity.
  repeat (destruct p as [p|p|]; try lia; try reflexivity).
Qed.

Lemma process_onboarding_response_done (E : env) (user_id : pystr)
    (messages : list item) (step : Z) (st : state) :
  4 < step ->
  process_onboarding_response E user_id messages step st = (Ok step, st).
Proof.
  intros H. unfold process_onboarding_response.
  now rewrite (beyond_the_last_step step H).
Qed.

Lemma process_onboarding_response_range (E : env) (user_id : pystr)
    (messages : list item) (step : Z) (st : state) (s' : Z) :
  fst (process_onboarding_response E user_id messages step st) = Ok s' ->
  step <= s' <= step + 1.
Proof.
  intros H. apply process_onboarding_response_cases in H as [->|[-> _]]; lia.
Qed.

(** Passing the last step stores the flag. *)
Lemma passing_the_last_step_sets_the_flag (E : env) (user_id : pystr)
    (messages : list item) (step : Z) (st : state) (s' : Z) :
  step <= 4 ->
  fst (process_onboarding_response E user_id messages step st) = Ok s' ->
  4 < s' ->
  onboarding_complete_stored user_id
    (table_users (snd (process_onboarding_response E user_id messages step st))).
Proof.
  intros Hle H Hgt.
  apply process_onboarding_response_cases in H
    as [->|[-> (field & instr & d & st1 & Hs & Hu)]]; [lia|].
  assert (step = 4) by lia. subst step.
  apply update_user_profile_result in Hu.
  2:{ unfold step_updates. cbn [Z.add Z.ltb Z.compare Pos.compare
                                Pos.compare_cont Pos.add Pos.succ].
      apply dict_set_not_nil. }
  rewrite Hu. proj. clear Hu.
  unfold step_updates.
  rewrite (onboarding_updates_spec 4 field instr d Hs).
  injection Hs as <- <-.
  change (4 <? 4 + 1) with true. cbv iota.
  eexists. split.
  - apply table_find_put_same.
    rewrite key_of_write_all; [apply key_of_profile_before|].
    destruct (truthy (get_default (py "preferred_topics") VNone d));
      repeat (progress (cbn [dict_set]; eval_str_eqb));
      intros kv Hin; cbn [In] in Hin;
      repeat (destruct Hin as [<-|Hin]; [reflexivity|]); contradiction.
  - unfold flag_set.
    destruct (truthy (get_default (py "preferred_topics") VNone d));
      repeat (progress (cbn [dict_set]; eval_str_eqb));
      cbn [write_all fold_left fst snd]; dict_simpl; reflexivity.
Qed.

Lemma onboarding_turn_range (E : env) (user_id : pystr)
    (messages : list item) (step : Z) (st : state) :
  step <= fst (onboarding_turn E user_id messages step st) <= step + 1.
Proof.
  unfold onboarding_turn.
  pose proof (process_onboarding_response_range E user_id messages step st)
    as H.
  destruct (process_onboarding_response E user_id messages step st)
    as [[s'|e] st']; cbn [fst] in *; [apply H; reflexivity | lia].
Qed.

Lemma onboarding_turn_store (E : env) (user_id : pystr)
    (messages : list item) (step : Z) (st : state) :
  snd (onboarding_turn E user_id messages step st)
  = snd (process_onboarding_response E user_id messages step st).
Proof.
  unfold onboarding_turn.
  now destruct (process_onboarding_response E user_id messages step st)
    as [[s'|e] st'].
Qed.

Lemma session_steps_sorted (E : env) (user_id : pystr) (events : list event)
    (step : Z) (st : state) :
  Sorted Z.le (step :: map fst (session E user_id events step st)).
Proof.
  revert step st. induction events as [|[messages|o] rest IH]; intros step st;
    cbn [session map].
  - repeat constructor.
  - constructor; [apply IH|]. constructor. cbn [fst].
    apply onboarding_turn_range.
  - constructor; [apply IH|]. constructor. cbn [fst]. lia.
Qed.

Lemma session_done (E : env) (user_id : pystr) (events : list event)
    (step : Z) (st : state) :
  4 < step ->
  forall p, In p (session E user_id events step st) -> fst p = step.
Proof.
  intros Hgt. revert st. induction events as [|[messages|o] rest IH];
    intros st p Hin; cbn [session] in Hin.
  - contradiction.
  - unfold onboarding_turn in Hin.
    rewrite process_onboarding_response_done in Hin by exact Hgt.
    cbn [fst snd] in Hin. destruct Hin as [<-|Hin]; [reflexivity|].
    now apply (IH st).
  - destruct Hin as [<-|Hin]; [reflexivity|].
    now apply (IH (run_op E o st) p).
Qed.

Lemma session_keeps_flag (E : env) (user_id : pystr) (events : list event)
    (step : Z) (st : state) :
  onboarding_complete_stored user_id (table_users st) ->
  forall p, In p (session E user_id events step st) ->
    onboarding_complete_stored user_id (table_users (snd p)).
Proof.
  revert step st. induction events as [|[messages|o] rest IH];
    intros step st Hflag p Hin; cbn [session] in Hin.
  - contradiction.
  - assert (Hnext : onboarding_complete_stored user_id
                      (table_users
                         (snd (onboarding_turn E user_id messages step st)))).
    { rewrite onboarding_turn_store.
      now apply flag_kept_by_process_onboarding_response. }
    destruct Hin as [<-|Hin]; [exact Hnext|].
    eapply IH; eassumption.
  - pose proof (flag_kept_by_run_op E user_id o st Hflag) as Hnext.
    destruct Hin as [<-|Hin]; [exact Hnext|].
    eapply IH; eassumption.
Qed.

Lemma session_sets_flag (E : env) (user_id : pystr) (events : list event)
    (step : Z) (st : state) :
  step <= 4 ->
  forall p, In p (session E user_id events step st) ->
    4 < fst p ->
    onboarding_complete_stored user_id (table_users (snd p)).
Proof.
  revert step st. induction events as [|[messages|o] rest IH];
    intros step st Hle p Hin Hgt; cbn [session] in Hin.
  - contradiction.
  - set (r := onboarding_turn E user_id messages step st) in *.
    assert (Hcross : 4 < fst r ->
              onboarding_complete_stored user_id (table_users (snd r))).
    { subst r. intros H. rewrite onboarding_turn_store.
      unfold onboarding_turn in H.
      destruct (process_onboarding_response E user_id messages step st)
        as [[s'|e] st'] eqn:Hr; cbn [fst] in H; [|lia].
      pose proof (passing_the_last_step_sets_the_flag E user_id messages
                    step st s' Hle) as Hp.
      rewrite Hr in Hp. now apply Hp. }
    destruct Hin as [<-|Hin]; [now apply Hcross|].
    destruct (Z_le_gt_dec (fst r) 4) as [Hr|Hr].
    + eapply IH; eassumption.
    + apply (session_keeps_flag E user_id rest (fst r) (snd r)); auto.
      apply Hcross. lia.
  - destruct Hin as [<-|Hin]; [cbn [fst] in Hgt; lia|].
    eapply IH; eassumption.
Qed.

(** * Conversation records *)

(** [save_conversation] leaves the records under every other key alone. *)
Lemma save_conversation_keeps_other_records (E : env)
    (user_id character session_start : pystr) (messages : list item)
    (k : list pystr) (found : option item) :
  k <> [user_id; conversation_id_of character session_start] ->
  preserves
    (on_table Conversations
       (fun tb => table_find (key_schema Conversations) k tb = found))
    (save_conversation E user_id character messages session_start).
Proof.
  intros Hk.
  unfold save_conversation, save_extraction, _extract_all_from_conversation,
    save_memory.
  preserve_using ltac:(apply conversations_kept_by_update_user_profile).
  apply preserves_put_item. intros _ k0 tb Hk0 Hfind.
  rewrite key_of_sanitize_item in Hk0.
  change (Some [user_id; conversation_id_of character session_start]
          = Some k0) in Hk0.
  injection Hk0 as <-.
  rewrite table_find_put_other; [exact Hfind | | exact Hk].
  now rewrite key_of_to_ddb_item, key_of_sanitize_item.
Qed.

(** C3, the claim as stated fails: two saves of one session (same user,
    character and session start), first with two turns, then with three.
    After the first the record under the session's key counts two
    messages; after the second the table still holds one record, under the
    same key, and it counts three. *)
Lemma later_save_replaces_the_record :
  let E := Fixtures.world [] None in
  let start := Fixtures.clock 0 in
  let st1 := snd (save_conversation E Fixtures.mina (py "Rumi")
                    Fixtures.two_turns start Fixtures.one_user) in
  let st2 := snd (save_conversation E Fixtures.mina (py "Rumi")
                    Fixtures.three_turns start st1) in
  exists r1 r2,
    table_conversations st1 = [r1]
    /\ table_conversations st2 = [r2]
    /\ stored_conversation Fixtures.mina (py "Rumi") start st1 = Some r1
    /\ stored_conversation Fixtures.mina (py "Rumi") start st2 = Some r2
    /\ dict_get (py "message_count") r1 = Some (VDecimal (Qint 2))
    /\ dict_get (py "message_count") r2 = Some (VDecimal (Qint 3))
    /\ r1 <> r2.
Proof.
  vm_compute. eexists _, _. repeat split. discriminate.
Qed.

(** C3 (as amended). A ConversationRecord is put under the key
    (user_id, character#session_start).  [save_conversation] never
    changes what is stored under another key, and no other operation of
    the manager changes the conversation table at all; only a later
    [save_conversation] for the same user, character and session start
    replaces the record under that key. *)
Theorem conversation_record_changes_only_by_resave (E : env) (st : state) :
  (forall user_id character messages session_start k,
     k <> [user_id; conversation_id_of character session_start] ->
     table_find (key_schema Conversations) k
       (table_conversations
          (run_op E
             (SaveConversation user_id character messages session_start) st))
     = table_find (key_schema Conversations) k (table_conversations st))
  /\ (forall o,
        match o with SaveConversation _ _ _ _ => False | _ => True end ->
        table_conversations (run_op E o st) = table_conversations st).
Proof.
  split.
  - intros user_id character messages session_start k Hk.
    now apply (save_conversation_keeps_other_records E user_id character
                 session_start messages k _ Hk st).
  - intros o Ho.
    pose (J := fun tb : list item => tb = table_conversations st).
    destruct o; try contradiction; cbn [run_op].
    + now apply (conversations_kept_by_get_or_create_user E J).
    + now apply (conversations_kept_by_save_messages_incremental E J).
    + now apply (conversations_kept_by_build_memory_context E J).
    + now apply (conversations_kept_by_get_onboarding_prompt_addition E J).
    + now apply (conversations_kept_by_process_onboarding_response E J).
    + now apply (conversations_kept_by_get_profile_completion_prompt E J).
    + now apply (conversations_kept_by_process_profile_completion E J).
Qed.

(** * The importance of a stored fact *)

Lemma _extract_all_from_conversation_eq (E : env) (character : pystr)
    (messages : list item) (st : state) :
  _extract_all_from_conversation E character messages st
  = (Ok (extracted E character messages (tick st)), bump st).
Proof.
  unfold _extract_all_from_conversation, extracted. run_m.
  destruct (llm_reply E (tick st) _) as [raw|]; [|reflexivity].
  now destruct (parse_reply E raw).
Qed.

(** One pass of the loop of step 4: the memory table is as it was, or the
    fact of the memory, with the uuid just read, is put. *)
Lemma save_memory_cases (E : env) (user_id conversation_id now_ : pystr)
    (mem : value) (st : state) :
  let st' := snd (save_memory E user_id conversation_id now_ mem st) in
  table_memories st' = table_memories st
  \/ exists md,
       mem = VDict md
       /\ table_memories st'
          = table_put (key_schema Memories)
              [user_id;
               py_str E (get_default (py "character") (VStr (py "global")) md)
               ++ py "#" ++ uuid_hex12 E (tick st)]
              (fact_of E user_id conversation_id now_ (tick st) md)
              (table_memories st).
Proof.
  intros st'. subst st'. unfold save_memory.
  destruct mem as [| | | | | | |md]; cbn [py_get];
    try (cbv [bind lift]; proj; now left).
  cbv [bind lift uuid4_hex12 interact ret try_except put_item adapter_call
       raise modify]. proj.
  destruct (item_has_float _); proj; [now left|].
  destruct (fault E (S (tick st))); proj; [now left|].
  rewrite key_of_sanitize_item.
  right. exists md. split; reflexivity.
Qed.

Lemma save_memory_writes_for (E : env)
    (user_id conversation_id now_ : pystr) (extraction mem : value)
    (before : list item) :
  In mem (memories_of extraction) ->
  preserves
    (on_table Memories
       (fun tb => forall it, In it tb ->
                    In it before
                    \/ written_for E user_id conversation_id now_ extraction
                         it))
    (save_memory E user_id conversation_id now_ mem).
Proof.
  intros Hmem st HJ. unfold on_table in *. cbn [get_table] in *.
  destruct (save_memory_cases E user_id conversation_id now_ mem st)
    as [->|(md & -> & ->)]; [exact HJ|].
  intros it Hit. apply in_table_put in Hit as [->|Hit]; [|now apply HJ].
  right. exists md, (tick st). split; [exact Hmem | reflexivity].
Qed.

Lemma save_extraction_writes_for (E : env)
    (user_id character session_start now_ : pystr) (messages : list item)
    (extraction : value) (before : list item) :
  preserves
    (on_table Memories
       (fun tb => forall it, In it tb ->
                    In it before
                    \/ written_for E user_id
                         (conversation_id_of character session_start) now_
                         extraction it))
    (save_extraction E user_id character messages session_start now_
       extraction).
Proof.
  unfold save_extraction.
  preserve_using ltac:(first
    [ apply preserves_update_item; let H := fresh in intros H; discriminate H
    | match goal with
      | |- preserves _ (update_user_profile _ _ _) =>
          unfold update_user_profile
      | Hm : py_get (py "memories") _ extraction = Ok ?mems,
        Hi : py_iter ?mems = Ok ?l,
        Hx : In ?x ?l |- preserves _ (save_memory _ _ _ _ ?x) =>
          apply save_memory_writes_for;
          unfold memories_of; rewrite Hm, Hi; exact Hx
      end ]).
Qed.

(** C2, the claim as stated fails: the extraction rates a memory 9; the
    fact is stored with importance 9, outside 1..5. *)
Lemma importance_is_stored_unclamped :
  let E := Fixtures.world Fixtures.known_extractions
             (Some Fixtures.extraction_rated_nine) in
  let st' := snd (save_conversation E Fixtures.mina (py "Rumi")
                    Fixtures.two_turns (Fixtures.clock 0) Fixtures.one_user) in
  exists fact,
    table_memories Fixtures.one_user = []
    /\ table_memories st' = [fact]
    /\ dict_get (py "content") fact
       = Some (VStr (py "the user leads a dance crew"))
    /\ dict_get (py "importance") fact = Some (VDecimal (Qint 9))
    /\ importance_in_range fact = false.
Proof.
  vm_compute. eexists. repeat split.
Qed.

(** C2 (as amended). Every fact [save_conversation] adds to the memory
    table is the fact of one memory of the extraction: it carries the
    content of that memory and the importance the extraction gave for that
    same memory, unchanged, or 3 where it gave none; so the stored
    importance is a whole number from 1 to 5 whenever every extracted
    memory has no importance or an integer from 1 to 5, and not otherwise
    guaranteed. *)
Theorem save_conversation_stores_importance_as_given
    (E : env) (st : state) (user_id character session_start : pystr)
    (messages : list item) :
  let st' :=
    snd (save_conversation E user_id character messages session_start st) in
  let extraction := extracted E character messages (S (tick st)) in
  (forall it, In it (table_memories st') ->
     In it (table_memories st)
     \/ exists mem n,
          In (VDict mem) (memories_of extraction)
          /\ it = fact_of E user_id
                    (conversation_id_of character session_start)
                    (now E (tick st)) n mem
          /\ dict_get (py "content") it
             = Some (to_ddb (_sanitize_for_ddb
                               (get_default (py "content") (VStr []) mem)))
          /\ dict_get (py "importance") it
             = Some (to_ddb (_sanitize_for_ddb
                               (get_default (py "importance") (VInt 3) mem))))
  /\ ((forall mem, In (VDict mem) (memories_of extraction) ->
                   importance_as_asked mem) ->
      forall it, In it (table_memories st') ->
        In it (table_memories st) \/ importance_in_range it = true).
Proof.
  intros st' extraction.
  assert (Hfrom : forall it, In it (table_memories st') ->
            In it (table_memories st)
            \/ written_for E user_id
                 (conversation_id_of character session_start)
                 (now E (tick st)) extraction it).
  { subst st' extraction. unfold save_conversation.
    destruct (length messages <? 2)%nat; [cbv [ret]; cbn [snd]; auto|].
    cbv [bind utc_now interact ret]. proj.
    rewrite _extract_all_from_conversation_eq. proj.
    apply (save_extraction_writes_for E user_id character session_start
             (now E (tick st)) messages _ (table_memories st)
             (bump (bump st))).
    unfold on_table. cbn [get_table]. proj. auto. }
  split.
  - intros it Hin.
    destruct (Hfrom it Hin) as [Hold|(mem & n & Hmem & ->)]; [now left|].
    right. exists mem, n. split; [exact Hmem|]. split; [reflexivity|].
    unfold fact_of. rewrite !dict_get_to_ddb_item, !dict_get_sanitize_item.
    split; reflexivity.
  - intros Hasked it Hin.
    destruct (Hfrom it Hin) as [Hold|(mem & n & Hmem & ->)]; [now left|right].
    specialize (Hasked mem Hmem). unfold importance_as_asked in Hasked.
    unfold importance_in_range, fact_of.
    rewrite dict_get_to_ddb_item, dict_get_sanitize_item.
    cbn [dict_get]. eval_str_eqb. cbn [option_map]. unfold get_default.
    destruct (dict_get (py "importance") mem) as [[| |z| | | | |]|];
      try contradiction; cbn.
    + unfold Qintegral, Qtrunc, Qint. cbn [Qnum Qden].
      rewrite Z.rem_1_r, Z.quot_1_r.
      destruct Hasked as [H1 H2].
      apply Z.leb_le in H1, H2. now rewrite H1, H2.
    + reflexivity.
Qed.

(** * The memory ranker *)

Lemma touch_memory_returns (E : env) (user_id : pystr) (m : item)
    (st : state) :
  fst (touch_memory E user_id m st) = Ok tt.
Proof.
  unfold touch_memory, try_except.
  match goal with |- context [match ?x with _ => _ end] =>
    destruct x as [[[]|e] st'] end; reflexivity.
Qed.

Lemma for_each_touch_returns (E : env) (user_id : pystr) (sel : list item)
    (st : state) :
  fst (for_each sel (touch_memory E user_id) st) = Ok tt.
Proof.
  revert st. induction sel as [|m sel IH]; intros st; [reflexivity|].
  cbn [for_each]. unfold bind.
  pose proof (touch_memory_returns E user_id m st) as H.
  destruct (touch_memory E user_id m st) as [[[]|e] st1]; cbn [fst] in H;
    [apply IH | discriminate].
Qed.

(** The ranker either gives the empty list and leaves the table alone, or
    sorts what the queries read, touches the head of it and returns that
    head converted, or the empty list when the conversion raises. *)
Lemma _get_top_memories_shape (E : env) (user_id character : pystr)
    (limit : Z) (st : state) :
  let r := _get_top_memories E user_id character limit st in
  (fst r = Ok [] /\ table_memories (snd r) = table_memories st)
  \/ exists sorted,
       sort_by_importance E
         (visible_facts user_id character (table_memories st)) = Ok sorted
       /\ fst r = match map_r (convert_item E) (slice_to limit sorted) with
                  | Ok l => Ok l
                  | Raise _ => Ok []
                  end
       /\ snd r = snd (for_each (slice_to limit sorted)
                         (touch_memory E user_id) (bump (bump st))).
Proof.
  unfold _get_top_memories. run_m. proj.
  destruct (fault E (tick st)); [left; auto|]. proj.
  destruct (fault E (S (tick st))); [left; auto|]. proj.
  fold (visible_facts user_id character (table_memories st)).
  destruct (sort_by_importance E
              (visible_facts user_id character (table_memories st)))
    as [sorted|e]; [|left; auto].
  right. exists sorted. split; [reflexivity|].
  pose proof (for_each_touch_returns E user_id (slice_to limit sorted)
                (bump (bump st))) as H.
  destruct (for_each (slice_to limit sorted) (touch_memory E user_id)
              (bump (bump st))) as [[[]|e] st']; cbn [fst] in H;
    [|discriminate].
  proj. destruct (map_r (convert_item E) (slice_to limit sorted)); auto.
Qed.

(** ** Order *)

Lemma insert_desc_sorted (x : Z * item) (l : list (Z * item)) :
  StronglySorted by_key_desc l ->
  StronglySorted by_key_desc
    (insert_desc (fun a b => fst b <? fst a) x l).
Proof.
  induction 1 as [|y l Hs IH Hall]; cbn [insert_desc].
  - repeat constructor.
  - destruct (fst x <? fst y) eqn:Hlt.
    + constructor; [exact IH|].
      apply Z.ltb_lt in Hlt.
      apply Forall_forall. intros z Hz.
      apply (Permutation_in _ (insert_desc_perm _ x l)) in Hz.
      destruct Hz as [<-|Hz]; [unfold by_key_desc; lia|].
      now apply (proj1 (Forall_forall _ _) Hall).
    + apply Z.ltb_ge in Hlt. constructor; [now constructor|].
      constructor; [exact Hlt|].
      apply Forall_forall. intros z Hz.
      pose proof (proj1 (Forall_forall _ _) Hall z Hz) as Hyz.
      unfold by_key_desc in *. lia.
Qed.

Lemma sort_desc_sorted (l : list (Z * item)) :
  StronglySorted by_key_desc (sort_desc (fun a b => fst b <? fst a) l).
Proof.
  induction l as [|x l IH]; cbn [sort_desc fold_right]; [constructor|].
  now apply insert_desc_sorted.
Qed.

Lemma map_r_with_key (E : env) (l : list item) (keyed : list (Z * item)) :
  map_r (with_key E) l = Ok keyed ->
  map snd keyed = l
  /\ forall kx, In kx keyed -> importance_key E (snd kx) = Ok (fst kx).
Proof.
  revert keyed. induction l as [|x l IH]; intros keyed H; cbn [map_r] in H.
  - injection H as <-. split; [reflexivity | intros kx []].
  - unfold with_key at 1 in H.
    destruct (importance_key E x) as [k|e] eqn:Hk; [|discriminate].
    cbn [rbind] in H.
    destruct (map_r (with_key E) l) as [rest|e]; [|discriminate].
    cbn [rbind] in H. injection H as <-.
    destruct (IH rest eq_refl) as [Hsnd Hkeys].
    split; [cbn [map snd]; now rewrite Hsnd|].
    intros kx [<-|Hin]; [exact Hk | now apply Hkeys].
Qed.

Lemma map_r_keys (E : env) (kl : list (Z * item)) :
  (forall kx, In kx kl -> importance_key E (snd kx) = Ok (fst kx)) ->
  map_r (importance_key E) (map snd kl) = Ok (map fst kl).
Proof.
  induction kl as [|kx kl IH]; intros H; cbn [map map_r]; [reflexivity|].
  rewrite (H kx) by now left. cbn [rbind].
  rewrite IH by (intros y Hy; apply H; now right). reflexivity.
Qed.

Lemma sorted_keys (l : list (Z * item)) :
  StronglySorted by_key_desc l -> StronglySorted Z.ge (map fst l).
Proof.
  induction 1 as [|x l Hs IH Hall]; cbn [map]; constructor; auto.
  apply Forall_forall. intros k Hk.
  apply in_map_iff in Hk as [y [<- Hy]].
  pose proof (proj1 (Forall_forall _ _) Hall y Hy) as H.
  unfold by_key_desc in H. lia.
Qed.

Lemma sort_by_importance_sorted (E : env) (l sorted : list item) :
  sort_by_importance E l = Ok sorted ->
  Permutation sorted l
  /\ exists keys, map_r (importance_key E) sorted = Ok keys
                  /\ StronglySorted Z.ge keys.
Proof.
  unfold sort_by_importance.
  destruct (map_r (with_key E) l) as [keyed|e] eqn:Hk; [|discriminate].
  cbn [rbind]. intros H. injection H as <-.
  destruct (map_r_with_key E l keyed Hk) as [Hsnd Hkeys].
  split.
  - rewrite <- Hsnd. apply Permutation_map. apply sort_desc_perm.
  - exists (map fst (sort_desc (fun a b => fst b <? fst a) keyed)). split.
    + apply map_r_keys. intros kx Hin. apply Hkeys.
      exact (Permutation_in kx (sort_desc_perm _ keyed) Hin).
    + apply sorted_keys, sort_desc_sorted.
Qed.

Lemma map_r_firstn {A B} (f : A -> result B) (n : nat) (l : list A)
    (ys : list B) :
  map_r f l = Ok ys -> map_r f (firstn n l) = Ok (firstn n ys).
Proof.
  revert l ys. induction n as [|n IH]; intros l ys H; [reflexivity|].
  destruct l as [|x l]; cbn [map_r] in H.
  - injection H as <-. reflexivity.
  - destruct (f x) as [y|e] eqn:Hy; [|discriminate]. cbn [rbind] in H.
    destruct (map_r f l) as [rest|e] eqn:Hr; [|discriminate].
    cbn [rbind] in H. injection H as <-.
    cbn [firstn map_r]. rewrite Hy. cbn [rbind].
    now rewrite (IH l rest Hr).
Qed.

Lemma strongly_sorted_firstn {A} (R : A -> A -> Prop) (n : nat)
    (l : list A) :
  StronglySorted R l -> StronglySorted R (firstn n l).
Proof.
  intros H. revert n. induction H as [|x l Hs IH Hall]; intros n.
  - rewrite firstn_nil. constructor.
  - destruct n as [|n]; cbn [firstn]; constructor; auto.
    apply Forall_forall. intros y Hy. apply in_firstn in Hy.
    now apply (proj1 (Forall_forall _ _) Hall).
Qed.

(** The key by which the ranker sorts is the importance itself when the
    fact holds an integer. *)
Lemma importance_key_of_integer (E : env) (m : item) (z : Z) :
  dict_get (py "importance") m = Some (VInt z) ->
  importance_key E m = Ok z.
Proof. intros H. unfold importance_key, get_default. now rewrite H. Qed.

Lemma map_r_length {A B} (f : A -> result B) (l : list A) (ys : list B) :
  map_r f l = Ok ys -> length ys = length l.
Proof.
  revert ys. induction l as [|x l IH]; intros ys H.
  - now injection H as <-.
  - apply map_r_cons in H as (y & rest & _ & Hrest & ->).
    cbn [length]. now rewrite (IH rest Hrest).
Qed.

Lemma length_slice_to {A} (n : Z) (l : list A) :
  0 <= n -> Z.of_nat (length (slice_to n l)) <= n.
Proof.
  intros Hn. unfold slice_to.
  destruct (0 <=? n) eqn:H; [|apply Z.leb_gt in H; lia].
  rewrite length_firstn. lia.
Qed.

Lemma map_r_slice_to {A B} (f : A -> result B) (n : Z) (l : list A)
    (ys : list B) :
  map_r f l = Ok ys -> map_r f (slice_to n l) = Ok (slice_to n ys).
Proof.
  intros H. unfold slice_to. rewrite (map_r_length f l ys H).
  destruct (0 <=? n); now apply map_r_firstn.
Qed.

Lemma strongly_sorted_slice_to {A} (R : A -> A -> Prop) (n : Z)
    (l : list A) :
  StronglySorted R l -> StronglySorted R (slice_to n l).
Proof.
  unfold slice_to. destruct (0 <=? n); apply strongly_sorted_firstn.
Qed.

(** A fact with a whole importance is read with that importance, and the
    ranker's key is that importance. *)
Lemma whole_importance (E : env) (m m' : item) (q : Q) :
  dict_get (py "importance") m = Some (VDecimal q) ->
  Qintegral q = true ->
  importance_key E m = Ok (Qtrunc q)
  /\ (convert_item E m = Ok m' ->
      dict_get (py "importance") m' = Some (VInt (Qtrunc q))).
Proof.
  intros Hm Hq. split.
  - unfold importance_key, get_default. now rewrite Hm.
  - intros Hc.
    pose proof (dict_get_convert_item E (py "importance") m m' Hc) as H.
    rewrite Hm in H. destruct H as (v' & Hv & ->).
    now rewrite (convert_whole_decimal E q v' Hq Hv).
Qed.

Lemma whole_importances (E : env) (chosen l : list item) (keys : list Z) :
  (forall m, In m chosen ->
     exists q, dict_get (py "importance") m = Some (VDecimal q)
               /\ Qintegral q = true) ->
  map_r (convert_item E) chosen = Ok l ->
  map_r (importance_key E) chosen = Ok keys ->
  map (dict_get (py "importance")) l = map (fun z => Some (VInt z)) keys.
Proof.
  revert l keys. induction chosen as [|m chosen IH]; intros l keys Hw Hl Hk.
  - injection Hl as <-. injection Hk as <-. reflexivity.
  - apply map_r_cons in Hl as (m' & l' & Hm' & Hl' & ->).
    apply map_r_cons in Hk as (z & keys' & Hz & Hk' & ->).
    destruct (Hw m (or_introl eq_refl)) as (q & Hq & Hint).
    destruct (whole_importance E m m' q Hq Hint) as [Hkey Hconv].
    rewrite Hkey in Hz. injection Hz as <-.
    cbn [map]. rewrite (Hconv Hm').
    f_equal. apply IH; auto. intros x Hx. apply Hw. now right.
Qed.

(** C5, the claim as stated fails: two facts rated 4.2 and 4.9, the lower
    stored first, come back in that order, the lower first, since both
    have the key 4; and with the limit -1 two facts of three come back. *)
Lemma _get_top_memories_sorts_by_the_integer_part :
  let E := Fixtures.world [] None in
  (exists a b,
     fst (_get_top_memories E Fixtures.mina (py "Rumi") 15
            Fixtures.with_fractions) = Ok [a; b]
     /\ dict_get (py "importance") a = Some (VFloat (Qmake 21 5))
     /\ dict_get (py "importance") b = Some (VFloat (Qmake 49 10)))
  /\ (exists a b,
        fst (_get_top_memories E Fixtures.mina (py "Rumi") (-1)
               Fixtures.with_facts) = Ok [a; b]).
Proof.
  vm_compute. split; eexists _, _; repeat split.
Qed.

(** C5 (as amended). For every store, user, character and limit, the
    ranker returns the empty list or the conversion of a list of stored
    facts of the user, under the global scope or the character, that is in
    non-increasing order of the ranker's key [int(x.get("importance", 0))],
    the whole part of the stored importance; with a limit that is not
    negative the list has at most [limit] facts.  When every such fact has
    a whole importance, the importances returned are these keys, so the
    list is in non-increasing order of importance; the importances need
    not be distinct. *)
Theorem _get_top_memories_sorted_and_bounded
    (E : env) (st : state) (user_id character : pystr) (limit : Z) :
  let visible := visible_facts user_id character (table_memories st) in
  exists l chosen keys,
    fst (_get_top_memories E user_id character limit st) = Ok l
    /\ (l = [] \/ map_r (convert_item E) chosen = Ok l)
    /\ (forall m, In m chosen -> In m visible)
    /\ map_r (importance_key E) chosen = Ok keys
    /\ StronglySorted Z.ge keys
    /\ (0 <= limit -> Z.of_nat (length l) <= limit)
    /\ ((forall m, In m visible ->
           exists q, dict_get (py "importance") m = Some (VDecimal q)
                     /\ Qintegral q = true) ->
        l = []
        \/ map (dict_get (py "importance")) l
           = map (fun z => Some (VInt z)) keys).
Proof.
  intros visible. subst visible.
  destruct (_get_top_memories_shape E user_id character limit st)
    as [[Hr _]|[sorted (Hs & Hr & _)]].
  - exists [], [], []. rewrite Hr.
    split; [reflexivity|]. split; [now left|]. split; [intros m []|].
    split; [reflexivity|]. split; [constructor|].
    split; [cbn; lia | now left].
  - apply sort_by_importance_sorted in Hs as [Hperm [keys [Hk Hsorted]]].
    assert (Hin : forall m, In m (slice_to limit sorted) ->
              In m (visible_facts user_id character (table_memories st))).
    { intros m Hm. apply in_slice_to in Hm.
      exact (Permutation_in m Hperm Hm). }
    destruct (map_r (convert_item E) (slice_to limit sorted)) as [l|e] eqn:Hl.
    + exists l, (slice_to limit sorted), (slice_to limit keys).
      split; [exact Hr|]. split; [now right|]. split; [exact Hin|].
      split; [now apply map_r_slice_to|].
      split; [now apply strongly_sorted_slice_to|]. split.
      * intros H0. rewrite (map_r_length _ _ _ Hl).
        now apply length_slice_to.
      * intros Hw. right.
        apply (whole_importances E (slice_to limit sorted)); auto.
        now apply map_r_slice_to.
    + exists [], (slice_to limit sorted), (slice_to limit keys).
      split; [exact Hr|]. split; [now left|]. split; [exact Hin|].
      split; [now apply map_r_slice_to|].
      split; [now apply strongly_sorted_slice_to|].
      split; [cbn; lia | now left].
Qed.

(** ** Reference metadata *)

Lemma apply_touch_clauses (t : pystr) (it new : item) :
  apply_actions (touch_clauses t) it = Ok new ->
  exists c, bumped_count it = Some c /\ new = touched t c it.
Proof.
  unfold touch_clauses, bumped_count, touched.
  cbn [apply_actions apply_action].
  destruct (dict_get (py "reference_count") it) as [[| | | |q| | |]|];
    cbn [rbind to_ddb]; try discriminate;
    intros H; injection H as <-; eauto.
Qed.

Lemma key_of_touched (t : pystr) (c : Q) (it : item) :
  key_of (key_schema Memories) (touched t c it)
  = key_of (key_schema Memories) it.
Proof. unfold touched. now rewrite !key_of_dict_set by reflexivity. Qed.

Lemma key_of_fact_before (user_id mid : pystr) (tb : list item) :
  key_of (key_schema Memories) (fact_before user_id mid tb)
  = Some [user_id; mid].
Proof.
  unfold fact_before.
  destruct (table_find _ _ _) as [it|] eqn:H.
  - now apply table_find_some in H.
  - cbn. eval_str_eqb. reflexivity.
Qed.

Lemma touch_update_shape (user_id mid t : pystr) (tb tb' : list item) :
  table_update (key_schema Memories) [user_id; mid] (touch_clauses t) tb
  = Ok tb' ->
  exists c,
    bumped_count (fact_before user_id mid tb) = Some c
    /\ tb' = table_put (key_schema Memories) [user_id; mid]
               (touched t c (fact_before user_id mid tb)) tb.
Proof.
  unfold table_update. fold (fact_before user_id mid tb).
  destruct (apply_actions (touch_clauses t) (fact_before user_id mid tb))
    as [new|e] eqn:Ha; [|discriminate].
  unfold rbind. intros H. inversion H; subst tb'. clear H.
  apply apply_touch_clauses in Ha as [c [Hc ->]]. eauto.
Qed.

Lemma touch_update_other (user_id mid t : pystr) (tb tb' : list item)
    (k : list pystr) :
  table_update (key_schema Memories) [user_id; mid] (touch_clauses t) tb
  = Ok tb' ->
  k <> [user_id; mid] ->
  table_find (key_schema Memories) k tb'
  = table_find (key_schema Memories) k tb.
Proof.
  intros H Hk. apply touch_update_shape in H as [c [_ ->]].
  apply table_find_put_other; [|exact Hk].
  rewrite key_of_touched. apply key_of_fact_before.
Qed.





















(** * Worked cases *)

Lemma save_conversation_with_failed_extraction_witness :
  let E := Fixtures.world [] (Some (py "Sorry, I cannot help with that.")) in
  let st := Fixtures.one_user in
  let start := Fixtures.clock 1 in
  let r := save_conversation E Fixtures.mina (py "Rumi") Fixtures.two_turns
             start st in
  let path :=
    s3_log_path_of Fixtures.mina (conversation_id_of (py "Rumi") start) in
  fst r = Ok tt
  /\ dict_get path (s3 (snd r))
     = Some (transcript Fixtures.mina (py "Rumi") start (now E (tick st))
               Fixtures.two_turns)
  /\ (exists rec,
        stored_conversation Fixtures.mina (py "Rumi") start (snd r) = Some rec
        /\ table_conversations (snd r)
           = table_put (key_schema Conversations)
               [Fixtures.mina; conversation_id_of (py "Rumi") start] rec
               (table_conversations st)
        /\ dict_get (py "summary") rec = Some (VStr [])
        /\ dict_get (py "keywords") rec = Some (VList [])
        /\ dict_get (py "user_sentiment") rec = Some (VStr (py "neutral")))
  /\ table_memories (snd r) = table_memories st.
Proof.
  intros E st start.
  apply (save_conversation_with_failed_extraction E st Fixtures.mina
           (py "Rumi") start Fixtures.two_turns).
  - cbn. lia.
  - exists JSONDecodeError. reflexivity.
  - reflexivity.
  - reflexivity.
Defined.

(** A new user with nothing remembered gets no context block. *)
Example build_memory_context_of_a_new_user :
  fst (build_memory_context (Fixtures.world [] None) Fixtures.mina
         (py "Rumi") Fixtures.one_user) = Ok [].
Proof. reflexivity. Qed.

(** A profile with a nickname of 5000 characters is cut at the budget:
    4000 characters and the marker. *)
Example build_memory_context_cuts_a_long_profile :
  let long_name := repeat 97%N 5000 in
  let st := mkState [ dict_set (py "nickname") (VStr long_name)
                        Fixtures.mina_item ] [] [] [] 0 in
  match fst (build_memory_context (Fixtures.world [] None) Fixtures.mina
               (py "Rumi") st) with
  | Ok s => length s = 4012%nat
            /\ skipn 4000 s = TRUNCATION_MARKER
  | Raise _ => False
  end.
Proof. vm_compute. split; reflexivity. Qed.

(** Scenario A: both facts come back, the one rated 5 first. *)
Example ranking_two_facts :
  let st := mkState [Fixtures.mina_item] []
              [Fixtures.likes_tea; Fixtures.call_me_oppa] [] 0 in
  fst (_get_top_memories (Fixtures.world [] None) Fixtures.mina (py "Rumi")
         15 st)
  = map_r (convert_item (Fixtures.world [] None))
      [ Fixtures.call_me_oppa; Fixtures.likes_tea ].
Proof. reflexivity. Qed.

(** With the limit 2 of three facts, the two most important are returned
    and have their count raised and their time set; the third is stored
    as it was. *)
Example ranking_touches_the_returned_facts :
  let E := Fixtures.world [] None in
  let r := _get_top_memories E Fixtures.mina (py "Rumi") 2
             Fixtures.with_facts in
  fst r = map_r (convert_item E)
            [ Fixtures.call_me_oppa; Fixtures.has_a_cat ]
  /\ table_memories (snd r)
     = [ Fixtures.likes_tea;
         touched (Fixtures.clock 7) (Qplus (Qint 7) (Qint 1))
           Fixtures.has_a_cat;
         touched (Fixtures.clock 5) (Qplus (Qint 0) (Qint 1))
           Fixtures.call_me_oppa ].
Proof. vm_compute. split; reflexivity. Qed.

(** A negative limit is a Python slice bound: [all_mems[:-1]] drops the
    last fact and returns the other two. *)
Example ranking_with_a_negative_limit :
  fst (_get_top_memories (Fixtures.world [] None) Fixtures.mina (py "Rumi")
         (-1) Fixtures.with_facts)
  = map_r (convert_item (Fixtures.world [] None))
      [ Fixtures.call_me_oppa; Fixtures.has_a_cat ].
Proof. reflexivity. Qed.

(** For the character named "global" the two queries read the same facts:
    each comes back twice and is updated twice. *)
Example ranking_for_the_character_global :
  let E := Fixtures.world [] None in
  let st := mkState [Fixtures.mina_item] [] [Fixtures.has_a_cat] [] 0 in
  let r := _get_top_memories E Fixtures.mina (py "global") 15 st in
  fst r = map_r (convert_item E) [ Fixtures.has_a_cat; Fixtures.has_a_cat ]
  /\ exists it, table_memories (snd r) = [it]
                /\ py_int E (get_default (py "reference_count") VNone it)
                   = Ok 9.
Proof. vm_compute. split; [reflexivity|]. eexists. split; reflexivity. Qed.

(** Scenario B: at step 0 the judgment gives the name; it is stored and
    the step becomes 1. *)
Example onboarding_stores_the_name :
  let E := Fixtures.world Fixtures.known_judgments
             (Some Fixtures.judgment_with_name) in
  let r := process_onboarding_response E Fixtures.mina Fixtures.two_turns 0
             Fixtures.one_user in
  fst r = Ok 1
  /\ exists it, stored_user Fixtures.mina (snd r) = Some it
                /\ dict_get (py "nickname") it = Some (VStr (py "Mina"))
                /\ dict_get (py "onboarding_step") it
                   = Some (VDecimal (Qint 1)).
Proof. vm_compute. split; [reflexivity|]. eexists. repeat split. Qed.

(** Scenario C: the last step completes; the step becomes 5 and the flag
    is stored; the next call returns 5 and leaves the world as it is. *)
Example onboarding_last_step :
  let E := Fixtures.world Fixtures.known_judgments
             (Some Fixtures.judgment_without_name) in
  let r := process_onboarding_response E Fixtures.mina Fixtures.two_turns 4
             Fixtures.one_user in
  fst r = Ok 5
  /\ (exists it, stored_user Fixtures.mina (snd r) = Some it
                 /\ dict_get (py "onboarding_complete") it
                    = Some (VBool true))
  /\ process_onboarding_response E Fixtures.mina Fixtures.two_turns 5 (snd r)
     = (Ok 5, snd r).
Proof.
  vm_compute. split; [reflexivity|]. split; [|reflexivity].
  eexists. split; reflexivity.
Qed.

(** C6, the claim as stated fails: the step that is stored is the step
    passed in plus one, not the stored step plus one.  Two calls in a row,
    the first with the step 4, the second with a stale step 0: both
    return, with 5 and with 1, and the stored step is 5 and then 1; the
    flag stays true. *)
Lemma onboarding_with_a_stale_step :
  let E := Fixtures.world Fixtures.known_judgments
             (Some Fixtures.judgment_with_name) in
  let r1 := process_onboarding_response E Fixtures.mina Fixtures.two_turns 4
              Fixtures.one_user in
  let r2 := process_onboarding_response E Fixtures.mina Fixtures.two_turns 0
              (snd r1) in
  fst r1 = Ok 5 /\ fst r2 = Ok 1
  /\ step_stored Fixtures.mina 5 (snd r1)
  /\ step_stored Fixtures.mina 1 (snd r2)
  /\ onboarding_complete_stored Fixtures.mina (table_users (snd r2)).
Proof.
  vm_compute. split; [reflexivity|]. split; [reflexivity|].
  repeat split; eexists; split; reflexivity.
Qed.

(** The empty context of a new user, from the general statement. *)
Lemma build_memory_context_bounded_and_empty_witness :
  fst (build_memory_context (Fixtures.world [] None) Fixtures.mina
         (py "Rumi") Fixtures.one_user) = Ok [].
Proof.
  apply (proj2 (proj2 (build_memory_context_bounded_and_empty
                         (Fixtures.world [] None) Fixtures.one_user
                         Fixtures.mina (py "Rumi")))).
  - reflexivity.
  - eexists. split; [vm_compute; reflexivity | repeat split].
  - intros it [].
  - intros it [].
Defined.



(** Ratings of 4 and none are stored as 4 and 3, from the general
    statement. *)
Lemma save_conversation_stores_importance_as_given_witness :
  let E := Fixtures.world Fixtures.known_extractions
             (Some Fixtures.extraction_rated_four) in
  let st := Fixtures.one_user in
  let st' := snd (save_conversation E Fixtures.mina (py "Rumi")
                    Fixtures.two_turns (Fixtures.clock 0) st) in
  length (table_memories st') = 2%nat
  /\ forall it, In it (table_memories st') ->
       In it (table_memories st) \/ importance_in_range it = true.
Proof.
  intros E st. split; [reflexivity|].
  apply (proj2 (save_conversation_stores_importance_as_given E st
                  Fixtures.mina (py "Rumi") (Fixtures.clock 0)
                  Fixtures.two_turns)).
  intros mem Hin. vm_compute in Hin.
  destruct Hin as [Heq|[Heq|[]]]; injection Heq as <-; vm_compute;
    [intuition discriminate | exact I].
Defined.

(** * Further properties of the manager *)

(** ** The two number conversions *)

(** Induction on a value, through its lists and dicts. *)
Lemma value_nested_ind (P : value -> Prop) :
  P VNone ->
  (forall b, P (VBool b)) ->
  (forall z, P (VInt z)) ->
  (forall q, P (VFloat q)) ->
  (forall q, P (VDecimal q)) ->
  (forall s, P (VStr s)) ->
  (forall l, Forall P l -> P (VList l)) ->
  (forall d, Forall (fun kv => P (snd kv)) d -> P (VDict d)) ->
  forall v, P v.
Proof.
  intros HN HB HI HF HD HS HL HM.
  fix IH 1. intros [ | b | z | q | q | s | l | d].
  - exact HN.
  - apply HB.
  - apply HI.
  - apply HF.
  - apply HD.
  - apply HS.
  - apply HL. induction l as [|x l IHl]; constructor; [apply IH | exact IHl].
  - apply HM. induction d as [|[k x] d IHd]; constructor;
      [apply IH | exact IHd].
Qed.

Lemma sanitized_has_no_float (v : value) :
  has_float (_sanitize_for_ddb v) = false.
Proof.
  induction v as [ | b | z | q | q | s | l IH | d IH] using value_nested_ind;
    try reflexivity.
  - cbn [_sanitize_for_ddb has_float]. rewrite existsb_map_comp.
    induction IH as [|x l Hx _ IHl]; simpl; [reflexivity|].
    now rewrite Hx, IHl.
  - cbn [_sanitize_for_ddb has_float]. rewrite existsb_map_comp.
    induction IH as [|[k x] d Hx _ IHd]; simpl; [reflexivity|].
    simpl in Hx. now rewrite Hx, IHd.
Qed.

Lemma sanitize_item_has_no_float (it : item) :
  item_has_float (sanitize_item it) = false.
Proof.
  exact (sanitized_has_no_float (VDict it)).
Qed.

(** X1. [_sanitize_for_ddb] leaves no float anywhere in a value, however
    deep; so the write of a sanitized item is never refused for holding a
    float, the one reason boto3 raises [TypeError] for a value of JSON.
    (A float of the embedding is a finite one.) *)
Theorem _sanitize_for_ddb_leaves_no_float :
  (forall v, has_float (_sanitize_for_ddb v) = false)
  /\ (forall E t it st,
        fst (put_item E t (sanitize_item it) st) <> Raise TypeError).
Proof.
  split; [exact sanitized_has_no_float|].
  intros E t it st. unfold put_item.
  rewrite sanitize_item_has_no_float.
  run_m. proj. destruct (fault E (tick st)); proj; [discriminate|].
  destruct (key_of _ _); proj; discriminate.
Qed.

Lemma convert_without_decimal (E : env) (v : value) :
  has_decimal v = false -> _convert_decimals E v = Ok v.
Proof.
  induction v as [ | b | z | q | q | s | l IH | d IH] using value_nested_ind;
    try reflexivity; try discriminate.
  - cbn [_convert_decimals has_decimal]. intros H.
    assert (Hl : map_r (_convert_decimals E) l = Ok l).
    { induction IH as [|x l Hx _ IHl]; cbn [existsb map_r] in *;
        [reflexivity|].
      apply orb_false_iff in H as [H1 H2].
      now rewrite (Hx H1), (IHl H2). }
    now rewrite Hl.
  - cbn [_convert_decimals has_decimal]. intros H.
    match goal with |- context [map_r ?f d] =>
      assert (Hd : map_r f d = Ok d)
    end.
    { induction IH as [|[k x] d Hx _ IHd]; cbn [existsb map_r snd] in *;
        [reflexivity|].
      apply orb_false_iff in H as [H1 H2].
      now rewrite (Hx H1), (IHd H2). }
    now rewrite Hd.
Qed.

(** [_convert_decimals] on a value, according to its [Decimal]s. *)
Lemma convert_by_size (E : env) (v : value) :
  (convertible v = true ->
   exists v', _convert_decimals E v = Ok v' /\ has_decimal v' = false)
  /\ (convertible v = false ->
      _convert_decimals E v = Raise InvalidOperation).
Proof.
  induction v as [ | b | z | q | q | s | l IH | d IH] using value_nested_ind;
    try (split; [intros _; eexists; split; reflexivity | discriminate]).
  - cbn [convertible _convert_decimals]. unfold decimal_is_whole.
    rewrite Z.ltb_antisym.
    destruct (10 ^ DECIMAL_PREC <=? Z.abs (Qtrunc q)); cbn [negb rbind].
    + split; [discriminate | reflexivity].
    + split; [|discriminate]. intros _.
      destruct (Qintegral q); eexists; split; reflexivity.
  - cbn [convertible _convert_decimals].
    assert (Hl : (forallb convertible l = true ->
                  exists l', map_r (_convert_decimals E) l = Ok l'
                             /\ existsb has_decimal l' = false)
                 /\ (forallb convertible l = false ->
                     map_r (_convert_decimals E) l = Raise InvalidOperation)).
    { induction IH as [|x l [Hx1 Hx2] _ [IH1 IH2]]; cbn [forallb map_r].
      - split; [intros _; now exists [] | discriminate].
      - destruct (convertible x); cbn [andb].
        + destruct (Hx1 eq_refl) as (x' & -> & Hd). cbn [rbind]. split.
          * intros H. destruct (IH1 H) as (l' & -> & Hl').
            exists (x' :: l'). cbn [rbind existsb]. now rewrite Hd, Hl'.
          * intros H. now rewrite (IH2 H).
        + split; [discriminate|]. intros _. now rewrite (Hx2 eq_refl). }
    destruct Hl as [H1 H2]. split.
    + intros H. destruct (H1 H) as (l' & -> & Hl').
      exists (VList l'). split; [reflexivity | exact Hl'].
    + intros H. now rewrite (H2 H).
  - cbn [convertible _convert_decimals].
    match goal with |- context [map_r ?f d] =>
      assert (Hd : (forallb (fun kv => match kv with
                                       | (_, x) => convertible x
                                       end) d = true ->
                    exists d', map_r f d = Ok d'
                               /\ existsb (fun kv => match kv with
                                                     | (_, x) => has_decimal x
                                                     end) d' = false)
                   /\ (forallb (fun kv => match kv with
                                          | (_, x) => convertible x
                                          end) d = false ->
                       map_r f d = Raise InvalidOperation))
    end.
    { induction IH as [|[k x] d [Hx1 Hx2] _ [IH1 IH2]];
        cbn [forallb map_r snd] in *.
      - split; [intros _; now exists [] | discriminate].
      - destruct (convertible x); cbn [andb].
        + destruct (Hx1 eq_refl) as (x' & -> & Hx'). cbn [rbind]. split.
          * intros H. destruct (IH1 H) as (d' & -> & Hd').
            exists ((k, x') :: d'). cbn [rbind existsb].
            now rewrite Hx', Hd'.
          * intros H. now rewrite (IH2 H).
        + split; [discriminate|]. intros _. now rewrite (Hx2 eq_refl). }
    destruct Hd as [H1 H2]. split.
    + intros H. destruct (H1 H) as (d' & -> & Hd').
      exists (VDict d'). split; [reflexivity | exact Hd'].
    + intros H. now rewrite (H2 H).
Qed.

(** X2. [_convert_decimals] gets through exactly the values whose
    [Decimal]s all have a whole part of 28 digits at most, and raises
    [decimal.InvalidOperation] on every other value; what it gives holds
    no [Decimal] anywhere, and converting it again gives it back. *)
Theorem _convert_decimals_leaves_no_decimal (E : env) (v : value) :
  (convertible v = true ->
   exists v',
     _convert_decimals E v = Ok v'
     /\ has_decimal v' = false
     /\ _convert_decimals E v' = Ok v')
  /\ (convertible v = false ->
      _convert_decimals E v = Raise InvalidOperation).
Proof.
  destruct (convert_by_size E v) as [H1 H2]. split; [|exact H2].
  intros H. destruct (H1 H) as (v' & Hv & Hd).
  exists v'. split; [exact Hv|]. split; [exact Hd|].
  now apply convert_without_decimal.
Qed.

Lemma Qsame_eq (a b : Q) : Qsame a b = true -> a = b.
Proof.
  destruct a as [x d], b as [y e]. unfold Qsame. cbn [Qnum Qden].
  intros H. apply andb_true_iff in H as [H1 H2].
  apply Z.eqb_eq in H1. apply Pos.eqb_eq in H2. now subst.
Qed.

(** X3. A value of JSON whose numbers the table takes and the conversion
    reads (integers of 28 digits at most; floats that are no whole
    numbers, of a size from 1E-130 to 28 digits before the point, which
    [float] gives back from their decimal form) comes back as it was when
    it is sanitized, written to a table, read and converted: integers come
    back as integers, not as [Decimal]s. *)
Theorem written_values_are_read_back (E : env) (v : value) :
  kept_by_the_table E v = true ->
  _convert_decimals E (to_ddb (_sanitize_for_ddb v)) = Ok v.
Proof.
  induction v as [ | b | z | q | q | s | l IH | d IH] using value_nested_ind;
    try reflexivity; try discriminate.
  - cbn [kept_by_the_table _sanitize_for_ddb to_ddb]. intros H.
    apply Z.ltb_lt in H. now apply convert_whole.
  - cbn [kept_by_the_table _sanitize_for_ddb to_ddb _convert_decimals].
    intros H. apply andb_true_iff in H as [H Hsame].
    apply andb_true_iff in H as [H _].
    apply andb_true_iff in H as [Hfrac Hsize].
    apply negb_true_iff in Hfrac. rewrite Z.ltb_antisym in Hsize.
    apply negb_true_iff in Hsize.
    unfold decimal_is_whole. rewrite Hsize, Hfrac. cbn [rbind].
    now rewrite (Qsame_eq _ _ Hsame).
  - cbn [_convert_decimals to_ddb _sanitize_for_ddb kept_by_the_table].
    intros H. rewrite map_map.
    assert (Hl : map_r (_convert_decimals E)
                   (map (fun x => to_ddb (_sanitize_for_ddb x)) l) = Ok l).
    { induction IH as [|x l Hx _ IHl]; cbn [map map_r forallb] in *;
        [reflexivity|].
      apply andb_true_iff in H as [H1 H2].
      now rewrite (Hx H1), (IHl H2). }
    now rewrite Hl.
  - cbn [_convert_decimals to_ddb _sanitize_for_ddb kept_by_the_table].
    intros H. rewrite map_map.
    match goal with |- context [map_r ?f (map ?g d)] =>
      assert (Hd : map_r f (map g d) = Ok d)
    end.
    { induction IH as [|[k x] d Hx _ IHd]; cbn [map map_r forallb snd] in *;
        [reflexivity|].
      apply andb_true_iff in H as [H1 H2].
      now rewrite (Hx H1), (IHd H2). }
    now rewrite Hd.
Qed.

Lemma written_values_are_read_back_witness :
  let E := Fixtures.world [] None in
  kept_by_the_table E Fixtures.nested = true
  /\ _convert_decimals E (to_ddb (_sanitize_for_ddb Fixtures.nested))
     = Ok Fixtures.nested.
Proof.
  split; [reflexivity|].
  apply (written_values_are_read_back (Fixtures.world [] None)
           Fixtures.nested).
  reflexivity.
Defined.

(** A float that is a whole number comes back as an integer, and an
    integer of 29 digits, once written, is not read again. *)
Example a_whole_float_is_read_back_as_an_integer (E : env) :
  _convert_decimals E (to_ddb (_sanitize_for_ddb (VFloat (Qint 2))))
  = Ok (VInt 2)
  /\ _convert_decimals E (to_ddb (_sanitize_for_ddb (VInt (10 ^ 28))))
     = Raise InvalidOperation.
Proof. split; reflexivity. Qed.

(** ** Login of a new user *)

Lemma table_put_absent (ks : list pystr) (k : list pystr) (it : item)
    (t : list item) :
  table_find ks k t = None -> table_put ks k it t = t ++ [it].
Proof.
  unfold table_find. induction t as [|x t IH]; simpl; [reflexivity|].
  destruct (has_key ks k x); [discriminate|].
  intros H. now rewrite IH.
Qed.

(** X4. For a user with no stored profile (the two adapter calls going
    through), [get_or_create_user] returns the profile of a new user, at
    step 0 with onboarding not complete and one session, and adds it to the
    user table, beside the profiles that are there; [get_user_profile]
    then returns that same profile. *)
Theorem get_or_create_user_creates_the_profile
    (E : env) (st : state) (user_id email display_name : pystr) :
  stored_user user_id st = None ->
  fault E (S (tick st)) = false ->
  fault E (S (S (tick st))) = false ->
  let user := new_user user_id email display_name (now E (tick st)) in
  let r := get_or_create_user E user_id email display_name st in
  fst r = Ok user
  /\ table_users (snd r) = table_users st ++ [to_ddb_item user]
  /\ (fault E (tick (snd r)) = false ->
      fst (get_user_profile E user_id (snd r)) = Ok (Some user)).
Proof.
  intros Hnew Hf1 Hf2 user r. subst r.
  unfold stored_user in Hnew.
  unfold get_or_create_user. run_m. proj. rewrite Hf1. proj.
  rewrite Hnew.
  change (item_has_float (new_user user_id email display_name
                            (now E (tick st)))) with false.
  proj. rewrite Hf2. proj.
  change (key_of (key_schema Users)
            (new_user user_id email display_name (now E (tick st))))
    with (Some [user_id]).
  proj. split; [reflexivity|].
  split; [apply (table_put_absent _ _ _ _ Hnew)|].
  intros Hf3. unfold get_user_profile. run_m. proj. rewrite Hf3. proj.
  rewrite table_find_put_same by reflexivity.
  reflexivity.
Qed.

Lemma get_or_create_user_creates_the_profile_witness :
  let E := Fixtures.world [] None in
  let st := Fixtures.empty in
  let user := new_user Fixtures.mina (py "mina@example.org") (py "Mina")
                (now E (tick st)) in
  let r := get_or_create_user E Fixtures.mina (py "mina@example.org")
             (py "Mina") st in
  fst r = Ok user
  /\ table_users (snd r) = table_users st ++ [to_ddb_item user]
  /\ (fault E (tick (snd r)) = false ->
      fst (get_user_profile E Fixtures.mina (snd r)) = Ok (Some user)).
Proof.
  apply (get_or_create_user_creates_the_profile (Fixtures.world [] None)
           Fixtures.empty Fixtures.mina (py "mina@example.org") (py "Mina"));
    reflexivity.
Defined.

(** X5. A user who has just been created is asked for the nickname: the
    onboarding text read after the login is the one of step 0. *)
Theorem a_new_user_is_asked_for_the_nickname
    (E : env) (st : state) (user_id email display_name character : pystr) :
  stored_user user_id st = None ->
  fault E (S (tick st)) = false ->
  fault E (S (S (tick st))) = false ->
  fault E (S (S (S (tick st)))) = false ->
  let st' := snd (get_or_create_user E user_id email display_name st) in
  fst (get_onboarding_prompt_addition E user_id character st')
  = Ok (onboarding_text 0 INSTR_NICKNAME).
Proof.
  intros Hnew Hf1 Hf2 Hf3 st'. subst st'.
  unfold stored_user in Hnew.
  unfold get_or_create_user. run_m. proj. rewrite Hf1. proj.
  rewrite Hnew.
  change (item_has_float (new_user user_id email display_name
                            (now E (tick st)))) with false.
  proj. rewrite Hf2. proj.
  change (key_of (key_schema Users)
            (new_user user_id email display_name (now E (tick st))))
    with (Some [user_id]).
  proj.
  unfold get_onboarding_prompt_addition, get_user_profile. run_m. proj.
  rewrite Hf3. proj.
  rewrite table_find_put_same by reflexivity.
  reflexivity.
Qed.

Lemma a_new_user_is_asked_for_the_nickname_witness :
  let E := Fixtures.world [] None in
  let st' := snd (get_or_create_user E Fixtures.mina (py "mina@example.org")
                    (py "Mina") Fixtures.empty) in
  fst (get_onboarding_prompt_addition E Fixtures.mina (py "Rumi") st')
  = Ok (onboarding_text 0 INSTR_NICKNAME).
Proof.
  apply (a_new_user_is_asked_for_the_nickname (Fixtures.world [] None)
           Fixtures.empty Fixtures.mina (py "mina@example.org") (py "Mina")
           (py "Rumi")); reflexivity.
Defined.

(** ** What an operation leaves alone *)

Lemma table_update_other (u other : pystr) (acts : list action)
    (tb tb' : list item) :
  Forall flag_safe acts ->
  table_update (key_schema Users) [u] acts tb = Ok tb' ->
  other <> u ->
  table_find (key_schema Users) [other] tb'
  = table_find (key_schema Users) [other] tb.
Proof.
  intros Hs Hu Hne. unfold table_update in Hu.
  set (old := match table_find (key_schema Users) [u] tb with
              | Some x => x
              | None => key_item (key_schema Users) [u]
              end) in Hu.
  destruct (apply_actions acts old) as [new|e] eqn:Ha; [|discriminate].
  unfold rbind in Hu. injection Hu as <-.
  destruct (apply_actions_flag_safe acts old new Hs Ha) as [Hk _].
  assert (Hold : key_of (key_schema Users) old = Some [u]).
  { subst old. destruct (table_find (key_schema Users) [u] tb) eqn:Hx.
    - now apply table_find_some in Hx.
    - cbn. eval_str_eqb. reflexivity. }
  rewrite Hold in Hk.
  apply table_find_put_other; [exact Hk|].
  intros H. injection H as H. contradiction.
Qed.

Section OtherUsers.

Variable E : env.
Variable other : pystr.
Variable found : option item.

Let I := on_table Users
           (fun tb => table_find (key_schema Users) [other] tb = found).

Lemma other_kept_by_update_user_profile (u : pystr) (updates : item) :
  other <> u ->
  flag_safe_updates updates ->
  preserves I (update_user_profile E u updates).
Proof.
  intros Hne Hs. unfold update_user_profile, I.
  destruct updates as [|kv updates]; [apply preserves_ret|].
  apply preserves_bind; [apply preserves_utc_now|]. intros now_.
  apply preserves_update_item. intros _ tb tb' Hu <-.
  refine (table_update_other u other _ tb tb' _ Hu Hne).
  apply flag_safe_clauses. apply flag_safe_dict_set; auto; discriminate.
Qed.

Lemma other_kept_by_get_or_create_user (u e d : pystr) :
  other <> u ->
  preserves I (get_or_create_user E u e d).
Proof.
  intros Hne st H. unfold I, on_table in *. cbn [get_table] in *.
  unfold get_or_create_user. run_m. proj.
  destruct (fault E (S (tick st))); [exact H|]. proj.
  destruct (table_find (key_schema Users) [u] (table_users st)) as [it|]
    eqn:Hfind.
  - cbn [existsb action_has_float has_float orb]. proj.
    destruct (fault E (S (S (tick st)))); [exact H|]. proj.
    match goal with |- context [table_update ?ks ?k ?acts ?tb] =>
      destruct (table_update ks k acts tb) as [tb'|err] eqn:Hu end;
      proj; [|exact H].
    rewrite <- H.
    refine (table_update_other u other _ _ tb' _ Hu Hne).
    repeat constructor; cbn; try (apply str_eqb_neq; reflexivity);
      intros Hq; apply str_eqb_eq in Hq; discriminate Hq.
  - change (item_has_float (new_user u e d (now E (tick st)))) with false.
    proj. destruct (fault E (S (S (tick st)))); [exact H|]. proj.
    change (key_of (key_schema Users) (new_user u e d (now E (tick st))))
      with (Some [u]).
    proj. rewrite <- H.
    apply table_find_put_other; [reflexivity|].
    intros Heq. injection Heq as ->. congruence.
Qed.

Lemma other_kept_by_save_conversation (u c : pystr) (messages : list item)
    (s : pystr) :
  other <> u ->
  preserves I (save_conversation E u c messages s).
Proof.
  intros Hne.
  unfold save_conversation, save_extraction, _extract_all_from_conversation,
    save_memory, I.
  preserve_using ltac:(apply other_kept_by_update_user_profile;
                       [exact Hne|]).
  all: eapply profile_updates_of_flag_safe; eassumption.
Qed.

Lemma other_kept_by_build_memory_context (u c : pystr) :
  preserves I (build_memory_context E u c).
Proof.
  unfold build_memory_context, get_user_profile, _get_top_memories,
    touch_memory, _get_recent_summaries, I.
  preserve.
Qed.

Lemma other_kept_by_process_onboarding_response (u : pystr)
    (messages : list item) (step : Z) :
  other <> u ->
  preserves I (process_onboarding_response E u messages step).
Proof.
  intros Hne.
  unfold process_onboarding_response, I.
  preserve_using ltac:(apply other_kept_by_update_user_profile;
                       [exact Hne|]).
  all: match goal with
       | |- flag_safe_updates (if ?c then _ else _) => destruct c
       end.
  all: repeat (apply flag_safe_dict_set;
               [ apply str_eqb_neq; reflexivity
               | let Hq := fresh in
                 intros Hq; try reflexivity;
                 apply str_eqb_eq in Hq; discriminate Hq
               | ]).
  all: apply onboarding_updates_flag_safe.
Qed.

Lemma other_kept_by_process_profile_completion (u : pystr)
    (messages : list item) :
  other <> u ->
  preserves I (process_profile_completion E u messages).
Proof.
  intros Hne.
  unfold process_profile_completion, get_user_profile, I.
  preserve_using ltac:(apply other_kept_by_update_user_profile;
                       [exact Hne|]).
  all: apply flag_safe_single; reflexivity.
Qed.

End OtherUsers.

Lemma operations_keep_the_profiles_of_other_users
    (E : env) (o : op) (st : state) (other : pystr) :
  other <> op_user o ->
  stored_user other (run_op E o st) = stored_user other st.
Proof.
  intros Hne. unfold stored_user.
  set (found := table_find (key_schema Users) [other] (table_users st)).
  assert (H0 : on_table Users
                 (fun tb => table_find (key_schema Users) [other] tb = found)
                 st) by reflexivity.
  destruct o; cbn [run_op op_user] in *.
  - exact (other_kept_by_get_or_create_user E other found _ _ _ Hne st H0).
  - exact (other_kept_by_save_conversation E other found _ _ _ _ Hne st H0).
  - assert (Hp : preserves
                   (on_table Users
                      (fun tb => table_find (key_schema Users) [other] tb
                                 = found))
                   (save_messages_incremental E user_id character messages
                      session_start)).
    { unfold save_messages_incremental. preserve. }
    exact (Hp st H0).
  - exact (other_kept_by_build_memory_context E other found _ _ st H0).
  - assert (Hp : preserves
                   (on_table Users
                      (fun tb => table_find (key_schema Users) [other] tb
                                 = found))
                   (get_onboarding_prompt_addition E user_id character)).
    { unfold get_onboarding_prompt_addition, get_user_profile. preserve. }
    exact (Hp st H0).
  - exact (other_kept_by_process_onboarding_response E other found _ _ _ Hne
             st H0).
  - assert (Hp : preserves
                   (on_table Users
                      (fun tb => table_find (key_schema Users) [other] tb
                                 = found))
                   (get_profile_completion_prompt E user_id)).
    { unfold get_profile_completion_prompt, get_user_profile. preserve. }
    exact (Hp st H0).
  - exact (other_kept_by_process_profile_completion E other found _ _ Hne
             st H0).
Qed.

(** *** The memory table *)

Section MemoryTable.

Variable E : env.
Variable J : list item -> Prop.

Let I := on_table Memories J.

Lemma memories_kept_by_get_or_create_user (u e d : pystr) :
  preserves I (get_or_create_user E u e d).
Proof. unfold get_or_create_user, I. preserve. Qed.

Lemma memories_kept_by_update_user_profile (u : pystr) (updates : item) :
  preserves I (update_user_profile E u updates).
Proof. unfold update_user_profile, I. preserve. Qed.

Lemma memories_kept_by_save_messages_incremental (u c : pystr)
    (messages : list item) (s : pystr) :
  preserves I (save_messages_incremental E u c messages s).
Proof. unfold save_messages_incremental, I. preserve. Qed.

Lemma memories_kept_by_get_onboarding_prompt_addition (u c : pystr) :
  preserves I (get_onboarding_prompt_addition E u c).
Proof.
  unfold get_onboarding_prompt_addition, get_user_profile, I. preserve.
Qed.

Lemma memories_kept_by_process_onboarding_response (u : pystr)
    (messages : list item) (step : Z) :
  preserves I (process_onboarding_response E u messages step).
Proof.
  unfold process_onboarding_response, I.
  preserve_using ltac:(apply memories_kept_by_update_user_profile).
Qed.

Lemma memories_kept_by_get_profile_completion_prompt (u : pystr) :
  preserves I (get_profile_completion_prompt E u).
Proof.
  unfold get_profile_completion_prompt, get_user_profile, I. preserve.
Qed.

Lemma memories_kept_by_process_profile_completion (u : pystr)
    (messages : list item) :
  preserves I (process_profile_completion E u messages).
Proof.
  unfold process_profile_completion, get_user_profile, I.
  preserve_using ltac:(apply memories_kept_by_update_user_profile).
Qed.

(** What is left to show of [build_memory_context]: the reference
    updates. *)
Lemma memories_kept_by_build_memory_context (u c : pystr) :
  (forall m, preserves I (touch_memory E u m)) ->
  preserves I (build_memory_context E u c).
Proof.
  intros Htouch.
  unfold build_memory_context, get_user_profile, _get_top_memories,
    _get_recent_summaries, I.
  preserve_using ltac:(apply Htouch).
Qed.

(** What is left to show of [save_conversation]: the writes of the
    extracted memories. *)
Lemma memories_kept_by_save_conversation (u c : pystr)
    (messages : list item) (s : pystr) :
  (forall conversation_id now_ mem,
     preserves I (save_memory E u conversation_id now_ mem)) ->
  preserves I (save_conversation E u c messages s).
Proof.
  intros Hsave.
  unfold save_conversation, save_extraction, _extract_all_from_conversation,
    I.
  preserve_using ltac:(first [ apply Hsave
                             | apply memories_kept_by_update_user_profile ]).
Qed.

End MemoryTable.

Lemma touch_memory_other_user (E : env) (user_id : pystr) (m : item)
    (k : list pystr) (found : option item) :
  hd_error k <> Some user_id ->
  preserves
    (on_table Memories
       (fun tb => table_find (key_schema Memories) k tb = found))
    (touch_memory E user_id m).
Proof.
  intros Hk. unfold touch_memory.
  apply preserves_try_except; [|apply preserves_ret].
  apply preserves_bind_lift. intros v Hv.
  apply preserves_bind; [apply preserves_utc_now|]. intros t.
  destruct v as [| | | | |mid| |]; try apply preserves_raise.
  apply preserves_update_item. intros _ tb tb' Hup Hfind.
  fold (touch_clauses t) in Hup.
  rewrite (touch_update_other user_id mid t tb tb' k Hup); [exact Hfind|].
  intros ->. now apply Hk.
Qed.

Lemma save_memory_other_user (E : env)
    (user_id conversation_id now_ : pystr) (mem : value)
    (k : list pystr) (found : option item) :
  hd_error k <> Some user_id ->
  preserves
    (on_table Memories
       (fun tb => table_find (key_schema Memories) k tb = found))
    (save_memory E user_id conversation_id now_ mem).
Proof.
  intros Hk. unfold save_memory.
  preserve.
  apply preserves_put_item. intros _ k0 tb Hk0 Hfind.
  rewrite table_find_put_other; [exact Hfind | | ].
  - rewrite key_of_to_ddb_item. exact Hk0.
  - intros ->. apply Hk.
    rewrite key_of_sanitize_item in Hk0. cbn [key_schema key_of] in Hk0.
    revert Hk0. cbn [dict_get]. eval_str_eqb.
    intros Heq. injection Heq as <-. reflexivity.
Qed.

(** X6. An operation made for one user leaves what is stored for any
    other user as it was, in every world and whether it returns or raises:
    the profile, every conversation record and every fact of the other
    user. *)
Theorem operations_keep_what_is_stored_for_other_users
    (E : env) (o : op) (st : state) (other : pystr) :
  other <> op_user o ->
  stored_user other (run_op E o st) = stored_user other st
  /\ (forall cid,
        table_find (key_schema Conversations) [other; cid]
          (table_conversations (run_op E o st))
        = table_find (key_schema Conversations) [other; cid]
            (table_conversations st))
  /\ (forall mid,
        table_find (key_schema Memories) [other; mid]
          (table_memories (run_op E o st))
        = table_find (key_schema Memories) [other; mid] (table_memories st)).
Proof.
  intros Hne.
  split; [now apply operations_keep_the_profiles_of_other_users|]. split.
  - intros cid.
    set (found := table_find (key_schema Conversations) [other; cid]
                    (table_conversations st)).
    set (J := fun tb => table_find (key_schema Conversations) [other; cid] tb
                        = found).
    assert (H0 : on_table Conversations J st) by reflexivity.
    destruct o; cbn [run_op op_user] in *.
    + now apply (conversations_kept_by_get_or_create_user E J).
    + apply (save_conversation_keeps_other_records E user_id character
               session_start messages [other; cid] found); [|exact H0].
      intros H. injection H as H _. contradiction.
    + now apply (conversations_kept_by_save_messages_incremental E J).
    + now apply (conversations_kept_by_build_memory_context E J).
    + now apply (conversations_kept_by_get_onboarding_prompt_addition E J).
    + now apply (conversations_kept_by_process_onboarding_response E J).
    + now apply (conversations_kept_by_get_profile_completion_prompt E J).
    + now apply (conversations_kept_by_process_profile_completion E J).
  - intros mid.
    set (found := table_find (key_schema Memories) [other; mid]
                    (table_memories st)).
    set (J := fun tb => table_find (key_schema Memories) [other; mid] tb
                        = found).
    assert (H0 : on_table Memories J st) by reflexivity.
    assert (Hhd : forall u, other <> u -> hd_error [other; mid] <> Some u).
    { intros u Hu H. injection H as H. contradiction. }
    destruct o; cbn [run_op op_user] in *.
    + now apply (memories_kept_by_get_or_create_user E J).
    + apply (memories_kept_by_save_conversation E J); [|exact H0].
      intros conversation_id now_ mem. apply save_memory_other_user; auto.
    + now apply (memories_kept_by_save_messages_incremental E J).
    + apply (memories_kept_by_build_memory_context E J); [|exact H0].
      intros m. apply touch_memory_other_user; auto.
    + now apply (memories_kept_by_get_onboarding_prompt_addition E J).
    + now apply (memories_kept_by_process_onboarding_response E J).
    + now apply (memories_kept_by_get_profile_completion_prompt E J).
    + now apply (memories_kept_by_process_profile_completion E J).
Qed.

Lemma operations_keep_what_is_stored_for_other_users_witness :
  let E := Fixtures.world Fixtures.known_extractions
             (Some Fixtures.extraction_rated_four) in
  let o := SaveConversation Fixtures.mina (py "Rumi") Fixtures.two_turns
             (Fixtures.clock 0) in
  let st := Fixtures.two_users in
  Fixtures.jin <> op_user o
  /\ table_conversations (run_op E o st) <> table_conversations st
  /\ table_memories (run_op E o st) <> table_memories st
  /\ stored_user Fixtures.jin (run_op E o st) = Some Fixtures.jin_item
  /\ table_find (key_schema Conversations)
       [Fixtures.jin; py "Mira#" ++ Fixtures.clock 1]
       (table_conversations (run_op E o st))
     = Some Fixtures.jin_conversation
  /\ table_find (key_schema Memories)
       [Fixtures.jin; py "Mira#" ++ Fixtures.suffix 6]
       (table_memories (run_op E o st))
     = Some Fixtures.jin_fact.
Proof.
  assert (H : Fixtures.jin <> Fixtures.mina) by discriminate.
  split; [exact H|].
  split; [vm_compute; discriminate|].
  split; [vm_compute; discriminate|].
  destruct (operations_keep_what_is_stored_for_other_users
              (Fixtures.world Fixtures.known_extractions
                 (Some Fixtures.extraction_rated_four))
              (SaveConversation Fixtures.mina (py "Rumi")
                 Fixtures.two_turns (Fixtures.clock 0))
              Fixtures.two_users Fixtures.jin H) as (H1 & H2 & H3).
  split; [|split].
  - exact (eq_trans H1 eq_refl).
  - exact (eq_trans (H2 (py "Mira#" ++ Fixtures.clock 1)) eq_refl).
  - exact (eq_trans (H3 (py "Mira#" ++ Fixtures.suffix 6)) eq_refl).
Defined.

(** *** The attributes of the profile *)

Lemma apply_action_within (w : list pystr) (a : action) (it it' : item) :
  writes_within w a ->
  apply_action a it = Ok it' ->
  key_of (key_schema Users) it' = key_of (key_schema Users) it
  /\ same_outside w it it'.
Proof.
  intros [Hw Hk] Ha.
  assert (Hset : forall v,
            key_of (key_schema Users) (dict_set (action_attr a) v it)
            = key_of (key_schema Users) it
            /\ same_outside w it (dict_set (action_attr a) v it)).
  { intros v. split.
    - apply key_of_dict_set. cbn [key_schema existsb].
      rewrite orb_false_r. now apply str_eqb_neq.
    - intros k Hkw. apply dict_get_set_other.
      destruct (str_eqb k (action_attr a)) eqn:Hq; [|reflexivity].
      apply str_eqb_eq in Hq. subst k. congruence. }
  destruct a as [attr v|attr]; cbn [apply_action action_attr] in *.
  - injection Ha as <-. apply Hset.
  - destruct (dict_get attr it) as [[| | | |q| | |]|]; try discriminate;
      injection Ha as <-; apply Hset.
Qed.

Lemma apply_actions_within (w : list pystr) (acts : list action)
    (it it' : item) :
  Forall (writes_within w) acts ->
  apply_actions acts it = Ok it' ->
  key_of (key_schema Users) it' = key_of (key_schema Users) it
  /\ same_outside w it it'.
Proof.
  intros Hs. revert it. induction Hs as [|a acts Ha Hs IH]; intros it H.
  - injection H as <-. split; [reflexivity | intros k _; reflexivity].
  - cbn [apply_actions] in H.
    destruct (apply_action a it) as [it1|e] eqn:H1; [|discriminate].
    cbn [rbind] in H.
    destruct (apply_action_within w a it it1 Ha H1) as [Hk1 Hs1].
    destruct (IH _ H) as [Hk2 Hs2].
    split; [congruence|].
    intros k Hk. rewrite (Hs2 k Hk). now apply Hs1.
Qed.

Lemma table_update_within (user_id : pystr) (w : list pystr)
    (acts : list action) (it : item) (tb tb' : list item) :
  Forall (writes_within w) acts ->
  table_update (key_schema Users) [user_id] acts tb = Ok tb' ->
  profile_kept user_id w it tb -> profile_kept user_id w it tb'.
Proof.
  intros Hs Hu [it1 [Hfind Hsame]]. unfold table_update in Hu.
  rewrite Hfind in Hu.
  destruct (apply_actions acts it1) as [new|e] eqn:Ha; [|discriminate].
  unfold rbind in Hu. injection Hu as <-.
  destruct (apply_actions_within w acts it1 new Hs Ha) as [Hk Hn].
  exists new. split.
  - apply table_find_put_same.
    transitivity (key_of (key_schema Users) it1); [exact Hk|].
    now apply table_find_some in Hfind.
  - intros k Hkw. rewrite (Hn k Hkw). now apply Hsame.
Qed.

Lemma updates_within_clauses (w : list pystr) (updates : item) :
  updates_within w updates ->
  Forall (writes_within w) (map (fun kv => SetTo (fst kv) (snd kv)) updates).
Proof.
  intros H. apply Forall_forall. intros a Ha.
  apply in_map_iff in Ha as [[k v] [<- Hin]].
  exact (H k v Hin).
Qed.

Lemma updates_within_dict_set (w : list pystr) (k : pystr) (v : value)
    (d : item) :
  existsb (str_eqb k) w = true -> k <> py "user_id" ->
  updates_within w d -> updates_within w (dict_set k v d).
Proof.
  intros Hk Hu Hd k' v' Hin.
  apply in_dict_set in Hin as [[-> ->]|Hin];
    [split; assumption | exact (Hd k' v' Hin)].
Qed.

Lemma updates_within_nil (w : list pystr) : updates_within w [].
Proof. intros k v []. Qed.

Ltac within_list :=
  let k := fresh "k" in
  let v := fresh "v" in
  let Hin := fresh "Hin" in
  intros k v Hin; cbn [In] in Hin;
  repeat (destruct Hin as [Hin|Hin];
          [ injection Hin as <- <-; split;
            [ reflexivity | apply str_eqb_neq; reflexivity ]
          | ]);
  contradiction.

Section WriteSets.

Variable E : env.
Variable user_id : pystr.
Variable w : list pystr.
Variable it : item.

Let I := on_table Users (profile_kept user_id w it).

Lemma within_update_user_profile (updates : item) :
  existsb (str_eqb (py "updated_at")) w = true ->
  updates_within w updates ->
  preserves I (update_user_profile E user_id updates).
Proof.
  intros Hat Hs. unfold update_user_profile, I.
  destruct updates as [|kv updates]; [apply preserves_ret|].
  apply preserves_bind; [apply preserves_utc_now|]. intros now_.
  apply preserves_update_item. intros _ tb tb' Hu.
  refine (table_update_within user_id w _ it tb tb' _ Hu).
  apply updates_within_clauses. apply updates_within_dict_set; auto.
  discriminate.
Qed.

End WriteSets.

Lemma profile_updates_of_within (new_info : value) (u : item) :
  profile_updates_of new_info = Ok u ->
  updates_within
    [py "kpop_preferences"; py "birthday"; py "nickname"; py "updated_at"] u.
Proof.
  unfold profile_updates_of.
  destruct new_info as [| | | | | | |d]; try discriminate.
  cbn [py_get rbind py_subscript]. unfold subscript.
  intros H.
  repeat match type of H with
         | context [if ?c then _ else _] => destruct c; cbn [rbind] in H
         | context [match dict_get ?k ?x with _ => _ end] =>
             destruct (dict_get k x); cbn [rbind] in H
         end;
    try discriminate; injection H as <-; within_list.
Qed.

Lemma onboarding_updates_within (field : pystr) (d : item) :
  updates_within
    [py "nickname"; py "birthday"; py "interests"; py "kpop_preferences";
     py "preferred_topics"; py "onboarding_step"; py "onboarding_complete";
     py "updated_at"]
    (onboarding_updates field d).
Proof.
  unfold onboarding_updates.
  repeat match goal with
         | |- context [if ?c then _ else _] => destruct c
         end;
    try apply updates_within_nil; within_list.
Qed.

Lemma within_get_or_create_user (E : env) (u e d : pystr) (it : item) :
  preserves
    (on_table Users
       (profile_kept u [py "last_login_at"; py "total_sessions"] it))
    (get_or_create_user E u e d).
Proof.
  intros st H. unfold on_table in *. cbn [get_table] in *.
  unfold get_or_create_user. run_m. proj.
  destruct (fault E (S (tick st))); [exact H|]. proj.
  destruct (table_find (key_schema Users) [u] (table_users st)) as [it0|]
    eqn:Hfind.
  - cbn [existsb action_has_float has_float orb]. proj.
    destruct (fault E (S (S (tick st)))); [exact H|]. proj.
    match goal with |- context [table_update ?ks ?k ?acts ?tb] =>
      destruct (table_update ks k acts tb) as [tb'|err] eqn:Hu end;
      proj; [|exact H].
    refine (table_update_within u _ _ it _ tb' _ Hu H).
    repeat constructor; try reflexivity; apply str_eqb_neq; reflexivity.
  - destruct H as [it' [Hit _]]. congruence.
Qed.

Lemma profile_kept_by_run_op
    (E : env) (o : op) (st : state) (it : item) :
  stored_user (op_user o) st = Some it ->
  profile_kept (op_user o) (written_attributes o) it
    (table_users (run_op E o st)).
Proof.
  intros Hst.
  assert (H0 : forall w, on_table Users (profile_kept (op_user o) w it) st).
  { intros w. exists it. split; [exact Hst | intros k _; reflexivity]. }
  assert (Hrun : forall A (m : M A),
            preserves
              (on_table Users
                 (profile_kept (op_user o) (written_attributes o) it)) m ->
            profile_kept (op_user o) (written_attributes o) it
              (table_users (snd (m st)))).
  { intros A m Hp. exact (Hp st (H0 _)). }
  destruct o; cbn [run_op op_user written_attributes] in *; apply Hrun.
  - apply within_get_or_create_user.
  - unfold save_conversation, save_extraction, _extract_all_from_conversation,
      save_memory.
    preserve_using ltac:(apply within_update_user_profile; [reflexivity|]).
    all: eapply profile_updates_of_within; eassumption.
  - unfold save_messages_incremental. preserve.
  - unfold build_memory_context, get_user_profile, _get_top_memories,
      touch_memory, _get_recent_summaries.
    preserve.
  - unfold get_onboarding_prompt_addition, get_user_profile. preserve.
  - unfold process_onboarding_response.
    preserve_using ltac:(apply within_update_user_profile; [reflexivity|]).
    all: match goal with
         | |- updates_within _ (if ?c then _ else _) => destruct c
         end.
    all: repeat (apply updates_within_dict_set;
                 [ reflexivity | apply str_eqb_neq; reflexivity | ]).
    all: apply onboarding_updates_within.
  - unfold get_profile_completion_prompt, get_user_profile. preserve.
  - unfold process_profile_completion, get_user_profile.
    preserve_using ltac:(apply within_update_user_profile; [reflexivity|]).
    all: within_list.
Qed.

(** X7. Each operation changes the stored profile of its user at most in
    the attributes it is for, in every world and whether it returns or
    raises: the login in [last_login_at] and [total_sessions]; a save in
    [kpop_preferences], [birthday], [nickname] and [updated_at]; an
    onboarding step in the five collected fields, [onboarding_step],
    [onboarding_complete] and [updated_at]; the profile completion in
    [gender] and [updated_at]; the other operations in none.  The profile
    stays stored. *)
Theorem operations_write_only_their_attributes
    (E : env) (o : op) (st : state) (it : item) :
  stored_user (op_user o) st = Some it ->
  profile_kept (op_user o) (written_attributes o) it
    (table_users (run_op E o st)).
Proof. apply profile_kept_by_run_op. Qed.

Lemma operations_write_only_their_attributes_witness :
  let E := Fixtures.world Fixtures.known_judgments
             (Some Fixtures.judgment_with_name) in
  let o := OnboardingResponse Fixtures.mina Fixtures.two_turns 0 in
  profile_kept (op_user o) (written_attributes o) Fixtures.mina_item
    (table_users (run_op E o Fixtures.one_user)).
Proof.
  apply (operations_write_only_their_attributes
           (Fixtures.world Fixtures.known_judgments
              (Some Fixtures.judgment_with_name))
           (OnboardingResponse Fixtures.mina Fixtures.two_turns 0)
           Fixtures.one_user Fixtures.mina_item).
  reflexivity.
Defined.

(** *** The content of the facts *)

Lemma same_but_reference_data_touched (t : pystr) (c : Q) (it : item) :
  same_but_reference_data it (touched t c it).
Proof.
  intros k H1 H2. unfold touched.
  rewrite !dict_get_set_other by (now apply str_eqb_neq). reflexivity.
Qed.

Lemma touch_update_keeps_facts (user_id mid t : pystr)
    (before tb tb' : list item) :
  table_update (key_schema Memories) [user_id; mid] (touch_clauses t) tb
  = Ok tb' ->
  facts_kept before tb -> facts_kept before tb'.
Proof.
  intros Hup Hkept k it Hfind.
  destruct (Hkept k it Hfind) as [it1 [H1 Hsame]].
  destruct (list_eq_dec (list_eq_dec N.eq_dec) k [user_id; mid]) as [->|Hne].
  - apply touch_update_shape in Hup as [c [_ ->]].
    exists (touched t c (fact_before user_id mid tb)). split.
    + apply table_find_put_same.
      rewrite key_of_touched. apply key_of_fact_before.
    + unfold fact_before. rewrite H1.
      intros a Ha1 Ha2.
      rewrite (same_but_reference_data_touched t c it1 a Ha1 Ha2).
      now apply Hsame.
  - exists it1. split; [|exact Hsame].
    now rewrite (touch_update_other user_id mid t tb tb' k Hup Hne).
Qed.

Lemma touch_memory_keeps_facts (E : env) (user_id : pystr) (m : item)
    (before : list item) :
  preserves (on_table Memories (facts_kept before)) (touch_memory E user_id m).
Proof.
  unfold touch_memory.
  apply preserves_try_except; [|apply preserves_ret].
  apply preserves_bind_lift. intros v Hv.
  apply preserves_bind; [apply preserves_utc_now|]. intros t.
  destruct v as [| | | | |mid| |]; try apply preserves_raise.
  apply preserves_update_item. intros _ tb tb' Hup.
  fold (touch_clauses t) in Hup.
  exact (touch_update_keeps_facts user_id mid t before tb tb' Hup).
Qed.

(** X8. No operation other than [save_conversation] deletes a stored
    fact or changes anything of it but [reference_count] and
    [last_referenced]: retrieval leaves the user, the scope, the category,
    the content, the importance and the activity of every fact as they
    were, in every world. *)
Theorem retrieval_keeps_the_content_of_facts
    (E : env) (o : op) (st : state) :
  match o with SaveConversation _ _ _ _ => False | _ => True end ->
  facts_kept (table_memories st) (table_memories (run_op E o st)).
Proof.
  intros Ho.
  set (before := table_memories st).
  assert (H0 : on_table Memories (facts_kept before) st).
  { intros k it H. exists it. split; [exact H|]. intros a _ _. reflexivity. }
  destruct o; cbn [run_op]; try contradiction.
  - now apply (memories_kept_by_get_or_create_user E (facts_kept before)).
  - now apply (memories_kept_by_save_messages_incremental E
                 (facts_kept before)).
  - apply (memories_kept_by_build_memory_context E (facts_kept before));
      [|exact H0].
    intros m. apply touch_memory_keeps_facts.
  - now apply (memories_kept_by_get_onboarding_prompt_addition E
                 (facts_kept before)).
  - now apply (memories_kept_by_process_onboarding_response E
                 (facts_kept before)).
  - now apply (memories_kept_by_get_profile_completion_prompt E
                 (facts_kept before)).
  - now apply (memories_kept_by_process_profile_completion E
                 (facts_kept before)).
Qed.

Lemma retrieval_keeps_the_content_of_facts_witness :
  let E := Fixtures.world [] None in
  let o := BuildContext Fixtures.mina (py "Rumi") in
  facts_kept (table_memories Fixtures.with_facts)
    (table_memories (run_op E o Fixtures.with_facts)).
Proof.
  apply (retrieval_keeps_the_content_of_facts (Fixtures.world [] None)
           (BuildContext Fixtures.mina (py "Rumi")) Fixtures.with_facts).
  exact I.
Defined.

(** ** More on the save pipeline *)

Lemma returns_ret {A} (a : A) : returns (ret a).
Proof. intros st. now exists a. Qed.

Lemma returns_bind {A B} (m : M A) (k : A -> M B) :
  returns m -> (forall a, returns (k a)) -> returns (bind m k).
Proof.
  intros Hm Hk st. unfold bind. destruct (Hm st) as [a Ha].
  destruct (m st) as [[a'|e] st']; cbn [fst] in Ha; [|discriminate].
  apply Hk.
Qed.

Lemma returns_bind_lift {A B} (r : result A) (k : A -> M B) (a : A) :
  r = Ok a -> returns (k a) -> returns (bind (lift r) k).
Proof. intros -> Hk st. cbv [bind lift]. apply Hk. Qed.

Lemma returns_try_except {A} (m h : M A) :
  returns h -> returns (try_except m h).
Proof.
  intros Hh st. unfold try_except.
  destruct (m st) as [[a|e] st']; [now exists a | apply Hh].
Qed.

Lemma returns_for_each {A} (l : list A) (body : A -> M unit) :
  (forall x, In x l -> returns (body x)) -> returns (for_each l body).
Proof.
  induction l as [|x l IH]; intros H; cbn [for_each].
  - apply returns_ret.
  - apply returns_bind; [apply H; now left|].
    intros _. apply IH. intros y Hy. apply H. now right.
Qed.

Lemma returns_interact : returns interact.
Proof. intros st. now exists (tick st). Qed.

Lemma returns_uuid4_hex12 (E : env) : returns (uuid4_hex12 E).
Proof.
  unfold uuid4_hex12. apply returns_bind; [apply returns_interact|].
  intros n. apply returns_ret.
Qed.

Lemma save_memory_returns (E : env) (user_id conversation_id now_ : pystr)
    (md : item) :
  returns (save_memory E user_id conversation_id now_ (VDict md)).
Proof.
  unfold save_memory. cbn [py_get].
  eapply returns_bind_lift; [reflexivity|].
  apply returns_bind; [apply returns_uuid4_hex12|]. intros suffix.
  repeat (eapply returns_bind_lift; [reflexivity|]).
  apply returns_try_except, returns_ret.
Qed.

Lemma save_extraction_returns (E : env)
    (user_id character session_start now_ : pystr) (messages : list item)
    (extraction : value) :
  storable extraction ->
  returns (save_extraction E user_id character messages session_start now_
             extraction).
Proof.
  intros (d & ms & -> & Hms & Hdict & Hinfo).
  unfold save_extraction. cbn [py_get].
  apply returns_bind; [apply returns_try_except, returns_ret|]. intros _.
  repeat (eapply returns_bind_lift; [reflexivity|]).
  apply returns_bind; [apply returns_try_except, returns_ret|]. intros _.
  eapply returns_bind_lift; [reflexivity|].
  eapply returns_bind_lift; [exact Hms|].
  apply returns_bind.
  - apply returns_for_each. intros m Hm.
    destruct (Hdict m Hm) as [md ->]. apply save_memory_returns.
  - intros _. eapply returns_bind_lift; [reflexivity|].
    rewrite Hinfo. apply returns_ret.
Qed.

(** X9. When the extraction is an object whose memories are objects and
    that holds no new user information (the zeroed extraction of a failed
    model call is one), [save_conversation] returns and does not raise,
    in every world: whatever fails in writing the transcript, the
    conversation record or a fact is swallowed. *)
Theorem save_conversation_swallows_storage_failures
    (E : env) (st : state) (user_id character session_start : pystr)
    (messages : list item) :
  storable (extracted E character messages (S (tick st))) ->
  fst (save_conversation E user_id character messages session_start st)
  = Ok tt.
Proof.
  intros Hs. unfold save_conversation.
  destruct (length messages <? 2)%nat; [reflexivity|].
  cbv [bind utc_now interact ret]. proj.
  rewrite _extract_all_from_conversation_eq. proj.
  destruct (save_extraction_returns E user_id character session_start
              (now E (tick st)) messages _ Hs (bump (bump st))) as [[] H].
  exact H.
Qed.

Lemma storable_zeroed : storable zeroed_extraction.
Proof.
  eexists _, []. split; [reflexivity|]. split; [reflexivity|].
  split; [intros m []|reflexivity].
Qed.

Lemma save_conversation_swallows_storage_failures_witness :
  let E := Fixtures.nothing_works in
  storable (extracted E (py "Rumi") Fixtures.two_turns
              (S (tick Fixtures.one_user)))
  /\ fst (save_conversation E Fixtures.mina (py "Rumi") Fixtures.two_turns
            (Fixtures.clock 0) Fixtures.one_user) = Ok tt.
Proof.
  split.
  - exact storable_zeroed.
  - apply (save_conversation_swallows_storage_failures Fixtures.nothing_works
             Fixtures.one_user Fixtures.mina (py "Rumi") (Fixtures.clock 0)
             Fixtures.two_turns).
    exact storable_zeroed.
Defined.

(** X10. When the reply of the model parses to JSON that is no object (a
    list, a string, a number), [save_conversation] with two turns or more
    raises [AttributeError] at the first [extraction.get]: the three tables
    are as they were, only the transcript may have been written. *)
Theorem save_conversation_of_a_reply_that_is_no_object
    (E : env) (st : state) (user_id character session_start : pystr)
    (messages : list item) :
  (2 <= length messages)%nat ->
  match extracted E character messages (S (tick st)) with
  | VDict _ => False
  | _ => True
  end ->
  let r := save_conversation E user_id character messages session_start st in
  fst r = Raise AttributeError
  /\ table_users (snd r) = table_users st
  /\ table_conversations (snd r) = table_conversations st
  /\ table_memories (snd r) = table_memories st.
Proof.
  intros Hlen Hx r. subst r. unfold save_conversation.
  destruct (length messages <? 2)%nat eqn:Hl;
    [apply Nat.ltb_lt in Hl; lia|].
  cbv [bind utc_now interact ret]. proj.
  rewrite _extract_all_from_conversation_eq. proj.
  change (tick (bump st)) with (S (tick st)).
  destruct (extracted E character messages (S (tick st)));
    try contradiction;
    unfold save_extraction; run_m; proj;
    destruct (fault E (S (S (tick st)))); proj; cbn [py_get];
    repeat split; reflexivity.
Qed.

Lemma save_conversation_of_a_reply_that_is_no_object_witness :
  let E := Fixtures.world Fixtures.known_lists (Some (py "[]")) in
  let st := Fixtures.one_user in
  let r := save_conversation E Fixtures.mina (py "Rumi") Fixtures.two_turns
             (Fixtures.clock 0) st in
  fst r = Raise AttributeError
  /\ table_users (snd r) = table_users st
  /\ table_conversations (snd r) = table_conversations st
  /\ table_memories (snd r) = table_memories st.
Proof.
  apply (save_conversation_of_a_reply_that_is_no_object
           (Fixtures.world Fixtures.known_lists (Some (py "[]")))
           Fixtures.one_user Fixtures.mina (py "Rumi") (Fixtures.clock 0)
           Fixtures.two_turns).
  - apply le_n.
  - vm_compute. exact I.
Defined.

Lemma save_memory_adds_new_facts (E : env)
    (user_id conversation_id now_ : pystr) (mem : value)
    (before : list item) :
  preserves
    (on_table Memories
       (fun tb => forall it, In it tb ->
                    In it before \/ new_fact user_id conversation_id it))
    (save_memory E user_id conversation_id now_ mem).
Proof.
  unfold save_memory. preserve.
  apply preserves_put_item. intros _ k tb Hk HJ it Hin.
  apply in_table_put in Hin as [->|Hin]; [right | now apply HJ].
  unfold new_fact.
  rewrite !dict_get_to_ddb_item, !dict_get_sanitize_item.
  cbn [dict_get]. eval_str_eqb. cbn [option_map _sanitize_for_ddb to_ddb].
  repeat split; try discriminate; eauto.
Qed.

(** X11. Every fact [save_conversation] adds to the memory table is
    complete: it carries the user, a memory id, a scope, a category, a
    content and an importance (the defaults where the extraction gave
    none), the id of the conversation it comes from, one time as creation
    and last reference, a reference count of zero, and it is active. *)
Theorem save_conversation_adds_complete_facts
    (E : env) (st : state) (user_id character session_start : pystr)
    (messages : list item) (it : item) :
  In it (table_memories
           (snd (save_conversation E user_id character messages
                   session_start st))) ->
  In it (table_memories st)
  \/ new_fact user_id (conversation_id_of character session_start) it.
Proof.
  revert it.
  assert (Hp : preserves
                 (on_table Memories
                    (fun tb => forall it, In it tb ->
                       In it (table_memories st)
                       \/ new_fact user_id
                            (conversation_id_of character session_start) it))
                 (save_conversation E user_id character messages
                    session_start)).
  { unfold save_conversation, save_extraction,
      _extract_all_from_conversation.
    preserve_using ltac:(first
      [ apply save_memory_adds_new_facts
      | apply preserves_update_item; let H := fresh in intros H; discriminate H
      | match goal with
        | |- preserves _ (update_user_profile _ _ _) =>
            unfold update_user_profile
        end ]). }
  apply (Hp st). intros it H. now left.
Qed.

Lemma save_conversation_adds_complete_facts_witness :
  let E := Fixtures.world Fixtures.known_extractions
             (Some Fixtures.extraction_rated_nine) in
  let st' := snd (save_conversation E Fixtures.mina (py "Rumi")
                    Fixtures.two_turns (Fixtures.clock 0) Fixtures.one_user) in
  exists it,
    table_memories st' = [it]
    /\ (In it (table_memories Fixtures.one_user)
        \/ new_fact Fixtures.mina
             (conversation_id_of (py "Rumi") (Fixtures.clock 0)) it).
Proof.
  eexists. split; [vm_compute; reflexivity|].
  apply (save_conversation_adds_complete_facts
           (Fixtures.world Fixtures.known_extractions
              (Some Fixtures.extraction_rated_nine))
           Fixtures.one_user Fixtures.mina (py "Rumi") (Fixtures.clock 0)
           Fixtures.two_turns).
  vm_compute. left. reflexivity.
Defined.

Lemma dict_get_filter_other (p key : pystr) (b : list (pystr * value)) :
  p <> key ->
  dict_get p (filter (fun kb => negb (str_eqb key (fst kb))) b)
  = dict_get p b.
Proof.
  intros Hne. induction b as [|[k v] b IH]; cbn [filter dict_get fst];
    [reflexivity|].
  destruct (str_eqb key k) eqn:Hk; cbn [negb dict_get].
  - apply str_eqb_eq in Hk. subst k.
    apply str_eqb_neq in Hne. now rewrite Hne.
  - now rewrite IH.
Qed.

(** X12. [save_messages_incremental] never raises and leaves the three
    tables and every other object of the bucket as they were.  With
    messages to save and the S3 call going through, the object under
    [chat-logs/<user>/<character>#<start>.json] is the transcript of all
    the messages given, in place of what was there (the path is the one
    [save_conversation] writes to, so the transcript of a full save is
    replaced by one without [session_end]); with no message, or the call
    failing, the bucket is as it was. *)
Theorem save_messages_incremental_writes_only_the_transcript
    (E : env) (st : state) (user_id character session_start : pystr)
    (messages : list item) :
  let r :=
    save_messages_incremental E user_id character messages session_start st in
  let path :=
    s3_log_path_of user_id (conversation_id_of character session_start) in
  fst r = Ok tt
  /\ table_users (snd r) = table_users st
  /\ table_conversations (snd r) = table_conversations st
  /\ table_memories (snd r) = table_memories st
  /\ (forall p, p <> path -> dict_get p (s3 (snd r)) = dict_get p (s3 st))
  /\ (messages <> [] -> fault E (tick st) = false ->
      dict_get path (s3 (snd r))
      = Some (running_transcript user_id character session_start messages))
  /\ (messages = [] \/ fault E (tick st) = true -> s3 (snd r) = s3 st).
Proof.
  intros r path. subst r path. unfold save_messages_incremental.
  destruct messages as [|m messages].
  - cbv [ret]. proj. repeat split; auto. intros H _; now destruct H.
  - run_m. proj. destruct (fault E (tick st)) eqn:Hf; proj.
    + repeat split; auto. intros _ H; discriminate H.
    + split; [reflexivity|]. split; [reflexivity|]. split; [reflexivity|].
      split; [reflexivity|]. split; [|split].
      * intros p Hp. cbn [dict_get].
        apply str_eqb_neq in Hp. rewrite Hp.
        apply dict_get_filter_other. now apply str_eqb_neq.
      * intros _ _. cbn [dict_get]. now rewrite str_eqb_refl.
      * intros [H|H]; discriminate H.
Qed.

(** ** More on the ranker *)

Lemma map_r_ok_each {A B} (f : A -> result B) (l : list A) (ys : list B) :
  map_r f l = Ok ys -> forall x, In x l -> exists y, f x = Ok y.
Proof.
  revert ys. induction l as [|a l IH]; intros ys H x Hin; [destruct Hin|].
  cbn [map_r] in H.
  destruct (f a) as [y|e] eqn:Hy; [|discriminate]. cbn [rbind] in H.
  destruct (map_r f l) as [rest|e] eqn:Hr; [|discriminate].
  destruct Hin as [<-|Hin]; [now exists y | eapply IH; eauto].
Qed.

Lemma map_r_each_ok {A B} (f : A -> result B) (l : list A) :
  (forall x, In x l -> exists y, f x = Ok y) -> exists ys, map_r f l = Ok ys.
Proof.
  induction l as [|a l IH]; intros H; [now exists []|].
  destruct (H a (or_introl eq_refl)) as [y Hy].
  destruct IH as [ys Hys]; [intros x Hx; apply H; now right|].
  exists (y :: ys). cbn [map_r]. now rewrite Hy, Hys.
Qed.

Lemma sort_by_importance_readable (E : env) (l : list item) :
  (forall m, In m l -> exists z, importance_key E m = Ok z) ->
  exists sorted, sort_by_importance E l = Ok sorted.
Proof.
  intros H. unfold sort_by_importance.
  destruct (map_r_each_ok (with_key E) l) as [keyed Hk].
  - intros m Hm. destruct (H m Hm) as [z Hz].
    exists (z, m). unfold with_key. now rewrite Hz.
  - rewrite Hk. cbn [rbind]. eauto.
Qed.

Lemma sort_by_importance_unreadable (E : env) (l : list item) (m : item)
    (e : exn) :
  In m l -> importance_key E m = Raise e ->
  exists e', sort_by_importance E l = Raise e'.
Proof.
  intros Hin He. unfold sort_by_importance.
  destruct (map_r (with_key E) l) as [keyed|e'] eqn:Hk;
    [|now exists e'].
  destruct (map_r_ok_each _ _ _ Hk m Hin) as [[z x] Hy].
  unfold with_key in Hy. rewrite He in Hy. discriminate Hy.
Qed.

(** The ranker when both queries go through and the sort succeeds. *)
Lemma _get_top_memories_sorted_slice (E : env) (user_id character : pystr)
    (limit : Z) (st : state) (sorted : list item) :
  fault E (tick st) = false ->
  fault E (S (tick st)) = false ->
  sort_by_importance E (visible_facts user_id character (table_memories st))
  = Ok sorted ->
  fst (_get_top_memories E user_id character limit st)
  = match map_r (convert_item E) (slice_to limit sorted) with
    | Ok l => Ok l
    | Raise _ => Ok []
    end.
Proof.
  intros Hf1 Hf2 Hs.
  unfold _get_top_memories. run_m. proj. rewrite Hf1. proj. rewrite Hf2. proj.
  fold (visible_facts user_id character (table_memories st)).
  rewrite Hs.
  pose proof (for_each_touch_returns E user_id (slice_to limit sorted)
                (bump (bump st))) as H.
  destruct (for_each (slice_to limit sorted) (touch_memory E user_id)
              (bump (bump st))) as [[[]|e] st']; cbn [fst] in H;
    [|discriminate].
  proj. now destruct (map_r (convert_item E) (slice_to limit sorted)).
Qed.

Lemma strongly_sorted_app {A} (R : A -> A -> Prop) (l1 l2 : list A) :
  StronglySorted R (l1 ++ l2) ->
  forall a b, In a l1 -> In b l2 -> R a b.
Proof.
  induction l1 as [|x l1 IH]; intros H a b Ha Hb; [destruct Ha|].
  cbn [app] in H. apply StronglySorted_inv in H as [Hs Hall].
  destruct Ha as [<-|Ha].
  - apply (proj1 (Forall_forall _ _) Hall). apply in_or_app. now right.
  - now apply IH.
Qed.

(** X13. When the two queries go through and every visible fact has an
    importance [int] can read, the ranker selects [limit] of the visible
    facts, or all of them when there are fewer, and none of the facts left
    out has a higher key than a selected one, the key of a fact being
    [int] of its importance (its integer part, so a fact of importance 4.9
    may be left out beside a selected one of 4.2).  What it returns is the
    selected facts, each converted, in the order of the selection, or the
    empty list when the conversion of one of them raises. *)
Theorem _get_top_memories_returns_the_most_important
    (E : env) (st : state) (user_id character : pystr) (limit : nat) :
  fault E (tick st) = false ->
  fault E (S (tick st)) = false ->
  (forall m, In m (visible_facts user_id character (table_memories st)) ->
     exists z, importance_key E m = Ok z) ->
  exists chosen left_out,
    Permutation (chosen ++ left_out)
      (visible_facts user_id character (table_memories st))
    /\ fst (_get_top_memories E user_id character (Z.of_nat limit) st)
       = match map_r (convert_item E) chosen with
         | Ok l => Ok l
         | Raise _ => Ok []
         end
    /\ length chosen
       = Nat.min limit
           (length (visible_facts user_id character (table_memories st)))
    /\ (forall m m' z z',
          In m chosen -> In m' left_out ->
          importance_key E m = Ok z -> importance_key E m' = Ok z' ->
          z' <= z).
Proof.
  intros Hf1 Hf2 Hread.
  set (vis := visible_facts user_id character (table_memories st)) in *.
  destruct (sort_by_importance_readable E vis Hread) as [sorted Hs].
  pose proof (_get_top_memories_sorted_slice E user_id character
                (Z.of_nat limit) st sorted Hf1 Hf2 Hs) as Hr.
  unfold slice_to in Hr.
  destruct (0 <=? Z.of_nat limit) eqn:Hl; [|apply Z.leb_gt in Hl; lia].
  rewrite Nat2Z.id in Hr.
  unfold sort_by_importance in Hs.
  destruct (map_r (with_key E) vis) as [keyed|e] eqn:Hk; [|discriminate].
  cbn [rbind] in Hs. injection Hs as <-.
  destruct (map_r_with_key E vis keyed Hk) as [Hsnd Hkeys].
  set (ks := sort_desc (fun a b => fst b <? fst a) keyed) in *.
  exists (firstn limit (map snd ks)), (skipn limit (map snd ks)).
  split; [|split; [exact Hr|split]].
  - rewrite firstn_skipn, <- Hsnd. apply Permutation_map, sort_desc_perm.
  - rewrite length_firstn. f_equal.
    rewrite <- Hsnd, !length_map.
    apply Permutation_length, sort_desc_perm.
  - intros m m' z z' Hm Hm' Hz Hz'.
    rewrite firstn_map in Hm. rewrite skipn_map in Hm'.
    apply in_map_iff in Hm as [kx [<- Hkx]].
    apply in_map_iff in Hm' as [kx' [<- Hkx']].
    assert (Hin : forall y, In y ks -> importance_key E (snd y) = Ok (fst y)).
    { intros y Hy. apply Hkeys.
      exact (Permutation_in y (sort_desc_perm _ keyed) Hy). }
    rewrite (Hin kx) in Hz by (eapply in_firstn; eauto).
    rewrite (Hin kx') in Hz'
      by (rewrite <- (firstn_skipn limit ks); apply in_or_app; now right).
    injection Hz as <-. injection Hz' as <-.
    pose proof (sort_desc_sorted keyed) as Hsorted. fold ks in Hsorted.
    rewrite <- (firstn_skipn limit ks) in Hsorted.
    exact (strongly_sorted_app _ _ _ Hsorted kx kx' Hkx Hkx').
Qed.

Lemma _get_top_memories_returns_the_most_important_witness :
  let E := Fixtures.world [] None in
  let st := Fixtures.with_facts in
  exists chosen left_out,
    Permutation (chosen ++ left_out)
      (visible_facts Fixtures.mina (py "Rumi") (table_memories st))
    /\ fst (_get_top_memories E Fixtures.mina (py "Rumi") (Z.of_nat 2) st)
       = match map_r (convert_item E) chosen with
         | Ok l => Ok l
         | Raise _ => Ok []
         end
    /\ length chosen
       = Nat.min 2
           (length (visible_facts Fixtures.mina (py "Rumi")
                      (table_memories st)))
    /\ (forall m m' z z',
          In m chosen -> In m' left_out ->
          importance_key E m = Ok z -> importance_key E m' = Ok z' ->
          z' <= z).
Proof.
  apply (_get_top_memories_returns_the_most_important
           (Fixtures.world [] None) Fixtures.with_facts Fixtures.mina
           (py "Rumi") 2); try reflexivity.
  intros m Hm. vm_compute in Hm.
  repeat (destruct Hm as [<-|Hm]; [eexists; vm_compute; reflexivity|]).
  contradiction.
Defined.

(** X14. One visible fact whose importance [int] cannot read (a null, a
    word) makes the sort raise inside the [try]: the ranker returns the
    empty list, for every limit, and updates no reference. *)
Theorem _get_top_memories_with_an_unreadable_importance
    (E : env) (st : state) (user_id character : pystr) (limit : Z)
    (m : item) (e : exn) :
  In m (visible_facts user_id character (table_memories st)) ->
  importance_key E m = Raise e ->
  let r := _get_top_memories E user_id character limit st in
  fst r = Ok [] /\ table_memories (snd r) = table_memories st.
Proof.
  intros Hin He r. subst r.
  destruct (_get_top_memories_shape E user_id character limit st)
    as [H|[sorted (Hs & _)]]; [exact H|].
  destruct (sort_by_importance_unreadable E _ m e Hin He) as [e' He'].
  rewrite He' in Hs. discriminate Hs.
Qed.

Lemma _get_top_memories_with_an_unreadable_importance_witness :
  let E := Fixtures.world [] None in
  let st := Fixtures.with_an_unrated_fact in
  let r := _get_top_memories E Fixtures.mina (py "Rumi") 15 st in
  importance_key E Fixtures.unrated = Raise TypeError
  /\ fst r = Ok [] /\ table_memories (snd r) = table_memories st.
Proof.
  split; [reflexivity|].
  apply (_get_top_memories_with_an_unreadable_importance
           (Fixtures.world [] None) Fixtures.with_an_unrated_fact
           Fixtures.mina (py "Rumi") 15 Fixtures.unrated TypeError).
  - vm_compute. right. left. reflexivity.
  - reflexivity.
Defined.

Lemma filter_insert_desc (p : Z * item -> bool) (z : Z) (x : Z * item)
    (l : list (Z * item)) :
  (forall y, p y = true -> fst y = z) ->
  filter p (insert_desc (fun a b => fst b <? fst a) x l)
  = if p x then x :: filter p l else filter p l.
Proof.
  intros Hp. induction l as [|y l IH]; cbn [insert_desc filter].
  - reflexivity.
  - destruct (fst x <? fst y) eqn:Hlt; cbn [filter].
    + rewrite IH. destruct (p x) eqn:Hx; [|reflexivity].
      destruct (p y) eqn:Hy; [|reflexivity].
      apply Hp in Hx, Hy. apply Z.ltb_lt in Hlt. lia.
    + reflexivity.
Qed.

Lemma filter_sort_desc (p : Z * item -> bool) (z : Z) (l : list (Z * item)) :
  (forall y, p y = true -> fst y = z) ->
  filter p (sort_desc (fun a b => fst b <? fst a) l) = filter p l.
Proof.
  intros Hp. induction l as [|x l IH]; [reflexivity|].
  cbn [sort_desc fold_right].
  change (fold_right (insert_desc (fun a b => fst b <? fst a)) [] l)
    with (sort_desc (fun a b => fst b <? fst a) l).
  rewrite (filter_insert_desc p z x _ Hp), IH. reflexivity.
Qed.

Lemma filter_map_snd_keyed (E : env) (z : Z) (kl : list (Z * item)) :
  (forall kx, In kx kl -> importance_key E (snd kx) = Ok (fst kx)) ->
  filter (ranked E z) (map snd kl)
  = map snd (filter (fun kx => fst kx =? z) kl).
Proof.
  induction kl as [|kx kl IH]; intros H; [reflexivity|].
  cbn [map filter]. unfold ranked at 1.
  rewrite (H kx) by now left.
  rewrite IH by (intros y Hy; apply H; now right).
  now destruct (fst kx =? z).
Qed.

Lemma sort_by_importance_stable (E : env) (l sorted : list item) (z : Z) :
  sort_by_importance E l = Ok sorted ->
  filter (ranked E z) sorted = filter (ranked E z) l.
Proof.
  unfold sort_by_importance.
  destruct (map_r (with_key E) l) as [keyed|e] eqn:Hk; [|discriminate].
  cbn [rbind]. intros H. injection H as <-.
  destruct (map_r_with_key E l keyed Hk) as [Hsnd Hkeys].
  rewrite filter_map_snd_keyed.
  - rewrite (filter_sort_desc _ z keyed)
      by (intros y Hy; now apply Z.eqb_eq in Hy).
    rewrite <- (filter_map_snd_keyed E z keyed Hkeys). now rewrite Hsnd.
  - intros kx Hin. apply Hkeys.
    exact (Permutation_in kx (sort_desc_perm _ keyed) Hin).
Qed.

(** X15. The sort of the ranker is stable: a non-empty result is the
    conversion, one by one and in their order, of stored facts among
    which those of one key ([int] of the importance) come in the order the
    queries gave them, the global facts before the facts of the character,
    each group in the order of the table; a limit cuts this sequence at
    its end. *)
Theorem _get_top_memories_keeps_the_order_of_ties
    (E : env) (st : state) (user_id character : pystr) (limit : nat)
    (l : list item) (z : Z) :
  fst (_get_top_memories E user_id character (Z.of_nat limit) st) = Ok l ->
  l <> [] ->
  exists chosen rest,
    map_r (convert_item E) chosen = Ok l
    /\ filter (ranked E z)
         (filter (fact_matches user_id (py "global")) (table_memories st))
       ++ filter (ranked E z)
            (filter (fact_matches user_id character) (table_memories st))
       = filter (ranked E z) chosen ++ rest.
Proof.
  intros Hr Hne.
  destruct (_get_top_memories_shape E user_id character (Z.of_nat limit) st)
    as [[H _]|[sorted (Hs & H & _)]]; rewrite H in Hr;
    [injection Hr as <-; contradiction|].
  destruct (map_r (convert_item E) (slice_to (Z.of_nat limit) sorted))
    as [l'|e] eqn:Hc; injection Hr as <-; [|contradiction].
  unfold slice_to in Hc.
  destruct (0 <=? Z.of_nat limit) eqn:Hl; [|apply Z.leb_gt in Hl; lia].
  rewrite Nat2Z.id in Hc.
  exists (firstn limit sorted), (filter (ranked E z) (skipn limit sorted)).
  split; [exact Hc|].
  rewrite <- filter_app. fold (visible_facts user_id character
                                  (table_memories st)).
  rewrite <- (sort_by_importance_stable E _ sorted z Hs).
  rewrite <- filter_app, firstn_skipn. reflexivity.
Qed.

Lemma _get_top_memories_keeps_the_order_of_ties_witness :
  let E := Fixtures.world [] None in
  let st := Fixtures.with_ties in
  exists l,
    fst (_get_top_memories E Fixtures.mina (py "Rumi") 4 st) = Ok l
    /\ length l = 4%nat
    /\ exists chosen rest,
         map_r (convert_item E) chosen = Ok l
         /\ [Fixtures.has_a_cat; Fixtures.is_from_busan;
             Fixtures.plays_guitar]
            = filter (ranked E 3) chosen ++ rest.
Proof.
  eexists. split; [vm_compute; reflexivity|]. split; [reflexivity|].
  apply (_get_top_memories_keeps_the_order_of_ties (Fixtures.world [] None)
           Fixtures.with_ties Fixtures.mina (py "Rumi") 4 _ 3).
  - vm_compute. reflexivity.
  - discriminate.
Defined.

(** ** Prompts and profile completion *)

Lemma flag_kept_by_run_ops (E : env) (user_id : pystr) (ops : list op)
    (st : state) :
  onboarding_complete_stored user_id (table_users st) ->
  onboarding_complete_stored user_id (table_users (run_ops E ops st)).
Proof.
  revert st. induction ops as [|o ops IH]; intros st H; [exact H|].
  cbn [run_ops fold_left]. apply IH. now apply flag_kept_by_run_op.
Qed.

(** X16. Once [onboarding_complete] is stored for a user, it stays
    stored through any sequence of operations of the manager, for any
    users, and, the profile lookup going through, the onboarding text is
    empty when the stored profile converts; when the conversion raises (a
    number of 29 digits or more in the profile) the call raises the same
    exception.  Either way the call reads the profile and does nothing
    else. *)
Theorem no_onboarding_prompt_once_complete
    (E : env) (st : state) (user_id character : pystr) (ops : list op) :
  onboarding_complete_stored user_id (table_users st) ->
  fault E (tick (run_ops E ops st)) = false ->
  exists it,
    stored_user user_id (run_ops E ops st) = Some it
    /\ flag_set it
    /\ get_onboarding_prompt_addition E user_id character (run_ops E ops st)
       = (match convert_item E it with
          | Ok _ => Ok []
          | Raise e => Raise e
          end, bump (run_ops E ops st)).
Proof.
  intros H Hf.
  apply (flag_kept_by_run_ops E user_id ops) in H.
  destruct H as [it [Hfind Hflag]].
  exists it. split; [exact Hfind|]. split; [exact Hflag|].
  unfold get_onboarding_prompt_addition, get_user_profile. run_m. proj.
  rewrite Hf. proj. rewrite Hfind. cbv [lift bind ret]. proj.
  destruct (convert_item E it) as [p|e] eqn:Hc; proj; [|reflexivity].
  destruct p as [|kv rest]; [reflexivity|].
  pose proof (dict_get_convert_item E (py "onboarding_complete") it _ Hc)
    as Hg.
  unfold flag_set in Hflag. rewrite Hflag in Hg.
  destruct Hg as (v' & Hv & Hget). cbn [_convert_decimals] in Hv.
  injection Hv as <-.
  unfold get_truthy, get_default. rewrite Hget. reflexivity.
Qed.

Lemma no_onboarding_prompt_once_complete_witness :
  let E := Fixtures.world Fixtures.known_judgments
             (Some Fixtures.judgment_with_name) in
  let ops := [ OnboardingResponse Fixtures.mina Fixtures.two_turns 0;
               Login Fixtures.mina (py "mina@example.org") (py "Mina") ] in
  let st' := run_ops E ops Fixtures.done_user in
  exists it,
    stored_user Fixtures.mina st' = Some it
    /\ flag_set it
    /\ get_onboarding_prompt_addition E Fixtures.mina (py "Rumi") st'
       = (match convert_item E it with
          | Ok _ => Ok []
          | Raise e => Raise e
          end, bump st')
    /\ get_onboarding_prompt_addition E Fixtures.mina (py "Rumi") st'
       = (Ok [], bump st').
Proof.
  destruct (no_onboarding_prompt_once_complete
              (Fixtures.world Fixtures.known_judgments
                 (Some Fixtures.judgment_with_name))
              Fixtures.done_user Fixtures.mina (py "Rumi")
              [ OnboardingResponse Fixtures.mina Fixtures.two_turns 0;
                Login Fixtures.mina (py "mina@example.org") (py "Mina") ])
    as (it & Hs & Hflag & Hr).
  - eexists. split; reflexivity.
  - reflexivity.
  - exists it. split; [exact Hs|]. split; [exact Hflag|].
    split; [exact Hr|]. reflexivity.
Defined.

(** X17. For a user whose gender, in the profile as converted, is not
    empty, the profile lookup going through, the completion text is empty
    and [process_profile_completion] returns at once; when the conversion
    of the stored profile raises (a number of 29 digits or more in it),
    both raise the same exception.  Either way both read the profile and
    do nothing else, so no model call is made and nothing is written. *)
Theorem a_known_gender_is_not_asked_again
    (E : env) (st : state) (user_id : pystr) (messages : list item)
    (it : item) :
  stored_user user_id st = Some it ->
  (forall p, convert_item E it = Ok p ->
             get_truthy (py "gender") p = true) ->
  fault E (tick st) = false ->
  get_profile_completion_prompt E user_id st
  = (match convert_item E it with
     | Ok _ => Ok []
     | Raise e => Raise e
     end, bump st)
  /\ process_profile_completion E user_id messages st
     = (match convert_item E it with
        | Ok _ => Ok tt
        | Raise e => Raise e
        end, bump st).
Proof.
  intros Hfind Hg Hf. unfold stored_user in Hfind.
  unfold get_profile_completion_prompt, process_profile_completion,
    get_user_profile.
  run_m. proj. rewrite Hf. proj. rewrite Hfind. cbv [lift bind ret]. proj.
  destruct (convert_item E it) as [p|e] eqn:Hc; proj;
    [|split; reflexivity].
  specialize (Hg p eq_refl).
  destruct p as [|kv rest]; [discriminate Hg|].
  unfold missing_fields, PROFILE_COMPLETION_FIELDS.
  cbn [filter fst]. rewrite Hg. cbn [negb map]. split; reflexivity.
Qed.

Lemma a_known_gender_is_not_asked_again_witness :
  let E := Fixtures.world [] None in
  let st := Fixtures.known_gender in
  get_profile_completion_prompt E Fixtures.mina st
  = (match convert_item E Fixtures.mina_male with
     | Ok _ => Ok []
     | Raise e => Raise e
     end, bump st)
  /\ process_profile_completion E Fixtures.mina Fixtures.two_turns st
     = (match convert_item E Fixtures.mina_male with
        | Ok _ => Ok tt
        | Raise e => Raise e
        end, bump st).
Proof.
  apply (a_known_gender_is_not_asked_again (Fixtures.world [] None)
           Fixtures.known_gender Fixtures.mina Fixtures.two_turns
           Fixtures.mina_male); try reflexivity.
  intros p Hp. vm_compute in Hp. injection Hp as <-. reflexivity.
Defined.

(** A profile that holds a number of 29 digits: the completion text is not
    empty or missing, the call raises. *)
Example a_profile_that_is_not_read :
  let E := Fixtures.world [] None in
  let it := dict_set (py "total_sessions") (VDecimal (Qint (10 ^ 28)))
              Fixtures.mina_male in
  let st := mkState [it] [] [] [] 0 in
  fst (get_profile_completion_prompt E Fixtures.mina st)
  = Raise InvalidOperation
  /\ fst (get_onboarding_prompt_addition E Fixtures.mina (py "Rumi") st)
     = Raise InvalidOperation.
Proof. split; reflexivity. Qed.

Lemma update_user_profile_raise (E : env) (user_id : pystr) (updates : item)
    (st : state) (e : exn) :
  fst (update_user_profile E user_id updates st) = Raise e ->
  same_store st (snd (update_user_profile E user_id updates st)).
Proof.
  unfold update_user_profile.
  destruct updates as [|kv updates]; [discriminate|].
  run_m. proj.
  destruct (existsb action_has_float _); proj;
    [intros _; repeat split|].
  destruct (fault E (S (tick st))); proj; [intros _; repeat split|].
  unfold table_update. rewrite apply_actions_set_to. cbn [rbind].
  discriminate.
Qed.

Ltac nothing_written :=
  split; [reflexivity|]; split; [reflexivity|]; split; [reflexivity|];
  left; reflexivity.

(** X18. [process_profile_completion] writes nothing but a gender: in
    every world it leaves the conversation table, the memory table and the
    bucket as they were, and either leaves the user table as it was or
    replaces the profile of the user, whose gender was empty, by the same
    profile with [gender] set to [male] or [female] and [updated_at] set
    to the time. *)
Theorem process_profile_completion_writes_only_a_gender
    (E : env) (st : state) (user_id : pystr) (messages : list item) :
  let st' := snd (process_profile_completion E user_id messages st) in
  table_conversations st' = table_conversations st
  /\ table_memories st' = table_memories st
  /\ s3 st' = s3 st
  /\ (table_users st' = table_users st
      \/ exists it g t,
           stored_user user_id st = Some it
           /\ (exists p, convert_item E it = Ok p
                         /\ get_truthy (py "gender") p = false)
           /\ (g = py "male" \/ g = py "female")
           /\ table_users st'
              = table_put (key_schema Users) [user_id]
                  (dict_set (py "updated_at") (VStr t)
                     (dict_set (py "gender") (VStr g) it))
                  (table_users st)).
Proof.
  intros st'. subst st'.
  unfold process_profile_completion, get_user_profile.
  cbv [bind get_item adapter_call interact get_state ret raise]. proj.
  destruct (fault E (tick st)); proj; [nothing_written|].
  destruct (table_find (key_schema Users) [user_id] (table_users st))
    as [it|] eqn:Hfind; cbv [lift bind ret]; proj; [|nothing_written].
  destruct (convert_item E it) as [p|e0] eqn:Hc; proj; [|nothing_written].
  destruct p as [|kv rest] eqn:Hp; [nothing_written|].
  rewrite <- Hp in *. unfold missing_fields, PROFILE_COMPLETION_FIELDS.
  cbn [filter fst].
  destruct (get_truthy (py "gender") p) eqn:Hg;
    cbn [negb map]; [nothing_written|].
  cbv [try_except bind ask_json invoke_model interact lift ret raise]. proj.
  destruct (llm_reply E (S (tick st)) _) as [raw|]; proj;
    [|nothing_written].
  destruct (parse_reply E raw) as [extracted|e]; proj;
    [|nothing_written].
  destruct (py_get (py "confidence") VNone extracted) as [confidence|e];
    proj; [|nothing_written].
  destruct (is_str (py "high") confidence); cbn [negb];
    [|nothing_written].
  destruct (py_get (py "gender") VNone extracted) as [gender|e];
    proj; [|nothing_written].
  cbn [existsb]. eval_str_eqb. cbn [orb]. rewrite andb_true_r.
  destruct (is_str (py "male") gender || is_str (py "female") gender)
    eqn:Hmf; [|nothing_written].
  match goal with
  | |- context [update_user_profile E user_id ?u ?s] =>
      destruct (update_user_profile E user_id u s) as [[[]|e] st2] eqn:Hu
  end.
  - apply update_user_profile_result in Hu; [|discriminate].
    subst st2. proj. split; [reflexivity|]. split; [reflexivity|].
    split; [reflexivity|]. right.
    destruct gender as [| | | | |g| |]; try discriminate Hmf.
    exists it, g, (now E (S (S (tick st)))).
    split; [exact Hfind|]. split; [now exists p|]. split.
    + cbn [is_str] in Hmf. apply orb_true_iff in Hmf.
      destruct Hmf as [H|H]; apply str_eqb_eq in H; auto.
    + unfold profile_before, stored_user. proj.
      rewrite Hfind. reflexivity.
  - match type of Hu with
    | update_user_profile E user_id ?u ?s = _ =>
        pose proof (update_user_profile_raise E user_id u s e) as Hs
    end.
    rewrite Hu in Hs. destruct (Hs eq_refl) as (H1 & H2 & H3 & H4).
    cbn [snd] in H1, H2, H3, H4. proj.
    split; [exact H2|]. split; [exact H3|]. split; [exact H4|].
    left. exact H1.
Qed.

Lemma in_dict_set_other (k k' : pystr) (v v' : value) (d : item) :
  In (k, v) d -> k <> k' -> In (k, v) (dict_set k' v' d).
Proof.
  intros Hin Hne. induction d as [|[k2 v2] d IH]; [destruct Hin|].
  cbn [dict_set]. destruct (str_eqb k' k2) eqn:Hk.
  - apply str_eqb_eq in Hk. subst k2.
    destruct Hin as [H|H]; [injection H as -> _; contradiction | now right].
  - destruct Hin as [H|H]; [now left | right; now apply IH].
Qed.

(** X19. [update_user_profile] sends its values as they are: a float
    under any key other than [updated_at] makes boto3 refuse the call with
    [TypeError], after the clock is read and before any request, so nothing
    is written.  (The value under [updated_at] is replaced by the time.) *)
Theorem update_user_profile_refuses_a_float
    (E : env) (st : state) (user_id : pystr) (updates : item)
    (k : pystr) (v : value) :
  In (k, v) updates ->
  k <> py "updated_at" ->
  has_float v = true ->
  update_user_profile E user_id updates st = (Raise TypeError, bump st).
Proof.
  intros Hin Hk Hv. unfold update_user_profile.
  destruct updates as [|kv updates]; [destruct Hin|].
  assert (Hu : existsb action_has_float
                 (map (fun kv => SetTo (fst kv) (snd kv))
                    (dict_set (py "updated_at") (VStr (now E (tick st)))
                       (kv :: updates))) = true).
  { rewrite existsb_map_comp. apply existsb_exists.
    exists (k, v). split; [|exact Hv].
    now apply in_dict_set_other. }
  run_m. proj. rewrite Hu. reflexivity.
Qed.

Lemma update_user_profile_refuses_a_float_witness :
  let E := Fixtures.world [] None in
  let st := Fixtures.one_user in
  update_user_profile E Fixtures.mina
    [ (py "kpop_preferences", VDict [ (py "years", VFloat (Qmake 5 2)) ]) ] st
  = (Raise TypeError, bump st).
Proof.
  apply (update_user_profile_refuses_a_float (Fixtures.world [] None)
           Fixtures.one_user Fixtures.mina
           [ (py "kpop_preferences",
              VDict [ (py "years", VFloat (Qmake 5 2)) ]) ]
           (py "kpop_preferences")
           (VDict [ (py "years", VFloat (Qmake 5 2)) ])).
  - left. reflexivity.
  - discriminate.
  - reflexivity.
Defined.

(** ** Reading the reply of the model *)

Lemma lstrip_app_space (s : pystr) (c : N) :
  isspace c = true ->
  lstrip (s ++ [c]) = match lstrip s with [] => [] | _ => lstrip s ++ [c] end.
Proof.
  intros Hc. induction s as [|x s IH]; cbn [app lstrip].
  - now rewrite Hc.
  - destruct (isspace x); [exact IH | reflexivity].
Qed.

Lemma strip_app_space (s : pystr) (c : N) :
  isspace c = true -> strip (s ++ [c]) = strip s.
Proof.
  intros Hc. unfold strip. rewrite (lstrip_app_space s c Hc).
  destruct (lstrip s) as [|x r]; [reflexivity|].
  unfold rstrip. rewrite rev_app_distr. cbn [rev app lstrip].
  now rewrite Hc.
Qed.

Lemma after_first_newline_app (a b : pystr) :
  ~ In 10%N a -> after_first_newline (a ++ NL ++ b) = Ok b.
Proof.
  induction a as [|x a IH]; intros H; cbn [app after_first_newline NL].
  - reflexivity.
  - destruct (x =? 10)%N eqn:Hx.
    + apply N.eqb_eq in Hx. subst x. exfalso. apply H. now left.
    + apply IH. intros Hin. apply H. now right.
Qed.

Lemma after_first_newline_none (a : pystr) :
  ~ In 10%N a -> after_first_newline a = Raise IndexError.
Proof.
  induction a as [|x a IH]; intros H; cbn [after_first_newline].
  - reflexivity.
  - destruct (x =? 10)%N eqn:Hx.
    + apply N.eqb_eq in Hx. subst x. exfalso. apply H. now left.
    + apply IH. intros Hin. apply H. now right.
Qed.

Lemma strip_between (a b : N) (l : pystr) :
  isspace a = false -> isspace b = false ->
  strip (a :: l ++ [b]) = a :: l ++ [b].
Proof.
  intros Ha Hb. unfold strip, rstrip. cbn [lstrip]. rewrite Ha.
  change (a :: l ++ [b]) with ((a :: l) ++ [b]).
  rewrite rev_app_distr. cbn [rev app lstrip]. rewrite Hb.
  change (b :: rev l ++ [a]) with ([b] ++ rev (a :: l)).
  rewrite rev_app_distr, rev_involutive. reflexivity.
Qed.

Lemma strip_fenced (x : pystr) :
  strip (FENCE ++ x ++ FENCE) = FENCE ++ x ++ FENCE.
Proof.
  assert (H : FENCE ++ x ++ FENCE
              = 96%N :: (96%N :: 96%N :: x ++ [96%N; 96%N]) ++ [96%N]).
  { cbn. rewrite <- app_assoc. reflexivity. }
  rewrite H. apply strip_between; reflexivity.
Qed.

(** X20. A reply wrapped in a code fence, with any language tag on the
    opening line and the closing fence on a line of its own, parses to what
    the text inside parses to. *)
Theorem a_code_fence_does_not_change_what_is_parsed
    (E : env) (lang body : pystr) :
  ~ In 10%N lang ->
  startswith FENCE (strip body) = false ->
  parse_reply E (FENCE ++ lang ++ NL ++ body ++ NL ++ FENCE)
  = parse_reply E body.
Proof.
  intros Hlang Hbody. unfold parse_reply.
  replace (FENCE ++ lang ++ NL ++ body ++ NL ++ FENCE)
    with (FENCE ++ (lang ++ NL ++ body ++ NL) ++ FENCE)
    by (now rewrite <- !app_assoc).
  rewrite strip_fenced.
  unfold strip_code_fence at 2. rewrite Hbody.
  unfold strip_code_fence.
  change (startswith FENCE (FENCE ++ (lang ++ NL ++ body ++ NL) ++ FENCE))
    with true. cbv iota.
  replace (FENCE ++ (lang ++ NL ++ body ++ NL) ++ FENCE)
    with ((FENCE ++ lang) ++ NL ++ (body ++ NL) ++ FENCE)
    by (now rewrite <- !app_assoc).
  rewrite after_first_newline_app.
  2:{ intros Hin. apply in_app_or in Hin as [Hin|Hin]; [|now apply Hlang].
      cbn in Hin. repeat (destruct Hin as [Hin|Hin]; [discriminate Hin|]).
      exact Hin. }
  cbn [rbind].
  assert (He : endswith FENCE ((body ++ NL) ++ FENCE) = true).
  { unfold endswith. rewrite rev_app_distr. reflexivity. }
  rewrite He. unfold slice_to. cbn [Z.leb Z.compare Z.opp Z.to_nat].
  rewrite length_app. change (length FENCE) with 3%nat.
  change (Pos.to_nat 3) with 3%nat.
  replace (length (body ++ NL) + 3 - 3)%nat with (length (body ++ NL))
    by lia.
  rewrite firstn_app, firstn_all, Nat.sub_diag. cbn [firstn].
  rewrite app_nil_r. unfold NL.
  rewrite strip_app_space by reflexivity. reflexivity.
Qed.

Lemma a_code_fence_does_not_change_what_is_parsed_witness :
  let E := Fixtures.world Fixtures.known_judgments None in
  parse_reply E (FENCE ++ py "json" ++ NL ++ Fixtures.judgment_with_name
                 ++ NL ++ FENCE)
  = parse_reply E Fixtures.judgment_with_name.
Proof.
  apply (a_code_fence_does_not_change_what_is_parsed
           (Fixtures.world Fixtures.known_judgments None) (py "json")
           Fixtures.judgment_with_name).
  - vm_compute. intros H.
    repeat (destruct H as [H|H]; [discriminate H|]). exact H.
  - reflexivity.
Defined.

(** X21. A reply that opens with a code fence and has no line break (the
    fence and the JSON on one line) is not parsed: taking what follows the
    first line raises [IndexError], which the callers treat as a failed
    extraction. *)
Theorem a_fence_on_one_line_is_not_parsed (E : env) (text : pystr) :
  ~ In 10%N text ->
  parse_reply E (FENCE ++ text ++ FENCE) = Raise IndexError.
Proof.
  intros H. unfold parse_reply. rewrite strip_fenced.
  unfold strip_code_fence.
  change (startswith FENCE (FENCE ++ text ++ FENCE)) with true. cbv iota.
  rewrite after_first_newline_none; [reflexivity|].
  intros Hin. apply in_app_or in Hin as [Hin|Hin];
    [|apply in_app_or in Hin as [Hin|Hin]; [now apply H|]];
    cbn in Hin; repeat (destruct Hin as [Hin|Hin]; [discriminate Hin|]);
    exact Hin.
Qed.

Lemma a_fence_on_one_line_is_not_parsed_witness :
  parse_reply (Fixtures.world Fixtures.known_judgments None)
    (FENCE ++ Fixtures.judgment_with_name ++ FENCE)
  = Raise IndexError.
Proof.
  apply (a_fence_on_one_line_is_not_parsed
           (Fixtures.world Fixtures.known_judgments None)
           Fixtures.judgment_with_name).
  vm_compute. intros H.
  repeat (destruct H as [H|H]; [discriminate H|]). exact H.
Defined.

Lemma last_n_app {A} (older recent : list A) :
  last_n (length recent) (older ++ recent) = recent.
Proof.
  unfold last_n. rewrite length_app.
  destruct (length recent <=? length older + length recent)%nat eqn:Hl.
  - replace (length older + length recent - length recent)%nat
      with (length older) by lia.
    rewrite skipn_app, skipn_all, Nat.sub_diag. reflexivity.
  - apply Nat.leb_gt in Hl. lia.
Qed.

(** X22. The onboarding judgment and the profile completion look at the
    last four messages only: with four messages or more, what came before
    the last four changes nothing of what the two calls return or
    store. *)
Theorem only_the_last_four_turns_are_judged
    (E : env) (st : state) (user_id : pystr) (older recent : list item)
    (step : Z) :
  length recent = 4%nat ->
  process_onboarding_response E user_id (older ++ recent) step st
  = process_onboarding_response E user_id recent step st
  /\ process_profile_completion E user_id (older ++ recent) st
     = process_profile_completion E user_id recent st.
Proof.
  intros H4.
  assert (H1 : last_n 4 (older ++ recent) = recent)
    by (rewrite <- H4; apply last_n_app).
  assert (H2 : last_n 4 recent = recent)
    by (rewrite <- H4; apply (last_n_app [] recent)).
  unfold process_onboarding_response, process_profile_completion.
  rewrite H1, H2. split; reflexivity.
Qed.

Lemma only_the_last_four_turns_are_judged_witness :
  let E := Fixtures.world Fixtures.known_judgments
             (Some Fixtures.judgment_with_name) in
  let st := Fixtures.one_user in
  process_onboarding_response E Fixtures.mina
    (Fixtures.two_turns ++ Fixtures.four_turns) 0 st
  = process_onboarding_response E Fixtures.mina Fixtures.four_turns 0 st
  /\ process_profile_completion E Fixtures.mina
       (Fixtures.two_turns ++ Fixtures.four_turns) st
     = process_profile_completion E Fixtures.mina Fixtures.four_turns st.
Proof.
  apply (only_the_last_four_turns_are_judged
           (Fixtures.world Fixtures.known_judgments
              (Some Fixtures.judgment_with_name))
           Fixtures.one_user Fixtures.mina Fixtures.two_turns
           Fixtures.four_turns 0).
  reflexivity.
Defined.

(** ** The keys of a session *)

Lemma app_sep_inj (c : N) (a a' b b' : pystr) :
  ~ In c a -> ~ In c a' ->
  a ++ c :: b = a' ++ c :: b' -> a = a' /\ b = b'.
Proof.
  revert a'. induction a as [|x a IH]; intros [|x' a'] Ha Ha' H;
    cbn [app] in H.
  - injection H as <-. auto.
  - injection H as <- _. exfalso. apply Ha'. now left.
  - injection H as -> _. exfalso. apply Ha. now left.
  - injection H as <- H.
    destruct (IH a') as [-> ->]; auto.
    + intros Hin. apply Ha. now right.
    + intros Hin. apply Ha'. now right.
Qed.

(** X23. For user ids with no slash and character names with no hash
    sign, the conversation id gives the character and the session start,
    and the path of the transcript gives the user as well: two sessions
    have the same conversation id exactly when they have the same
    character and the same start, and the same transcript path exactly
    when they have the same user too; so two sessions that differ in one
    of them have records and transcripts of their own. *)
Theorem sessions_do_not_share_a_key
    (user_id user_id' character character' start start' : pystr) :
  ~ In 47%N user_id -> ~ In 47%N user_id' ->
  ~ In 35%N character -> ~ In 35%N character' ->
  (conversation_id_of character start = conversation_id_of character' start'
   <-> character = character' /\ start = start')
  /\ (s3_log_path_of user_id (conversation_id_of character start)
      = s3_log_path_of user_id' (conversation_id_of character' start')
      <-> user_id = user_id' /\ character = character' /\ start = start').
Proof.
  intros Hu Hu' Hc Hc'.
  assert (Hid : conversation_id_of character start
                = conversation_id_of character' start'
                -> character = character' /\ start = start').
  { unfold conversation_id_of. intros H.
    exact (app_sep_inj 35%N _ _ _ _ Hc Hc' H). }
  split; split.
  - exact Hid.
  - now intros [-> ->].
  - unfold s3_log_path_of. intros H.
    apply app_inv_head in H.
    apply (app_sep_inj 47%N) in H as [-> H]; [|exact Hu|exact Hu'].
    apply app_inv_tail in H. destruct (Hid H) as [-> ->]. auto.
  - now intros (-> & -> & ->).
Qed.

Lemma sessions_do_not_share_a_key_witness :
  conversation_id_of (py "Rumi") (Fixtures.clock 0)
  <> conversation_id_of (py "Mira") (Fixtures.clock 0)
  /\ conversation_id_of (py "Rumi") (Fixtures.clock 0)
     <> conversation_id_of (py "Rumi") (Fixtures.clock 1)
  /\ s3_log_path_of Fixtures.mina
       (conversation_id_of (py "Rumi") (Fixtures.clock 0))
     <> s3_log_path_of Fixtures.jin
          (conversation_id_of (py "Rumi") (Fixtures.clock 0)).
Proof.
  assert (Hno : forall c s, existsb (N.eqb c) s = false -> ~ In c s).
  { intros c s H Hin.
    assert (Ht : existsb (N.eqb c) s = true)
      by (apply existsb_exists; exists c; split;
          [exact Hin | apply N.eqb_refl]).
    rewrite H in Ht. discriminate Ht. }
  split; [|split].
  - intros H.
    destruct (sessions_do_not_share_a_key Fixtures.mina Fixtures.mina
                (py "Rumi") (py "Mira") (Fixtures.clock 0) (Fixtures.clock 0))
      as [[Hid _] _]; try (apply Hno; reflexivity).
    destruct (Hid H) as [Hc _]. discriminate Hc.
  - intros H.
    destruct (sessions_do_not_share_a_key Fixtures.mina Fixtures.mina
                (py "Rumi") (py "Rumi") (Fixtures.clock 0) (Fixtures.clock 1))
      as [[Hid _] _]; try (apply Hno; reflexivity).
    destruct (Hid H) as [_ Hs]. vm_compute in Hs. discriminate Hs.
  - intros H.
    destruct (sessions_do_not_share_a_key Fixtures.mina Fixtures.jin
                (py "Rumi") (py "Rumi") (Fixtures.clock 0) (Fixtures.clock 0))
      as [_ [Hpath _]]; try (apply Hno; reflexivity).
    destruct (Hpath H) as [Hu _]. discriminate Hu.
Defined.

(** With a hash sign in a character name two sessions can share a
    conversation id. *)
Example a_hash_sign_in_a_name_mixes_sessions :
  conversation_id_of (py "Ru#mi") (py "2026") =
  conversation_id_of (py "Ru") (py "mi#2026").
Proof. reflexivity. Qed.

(** * The callers *)

(** ** The writes of [update_user_profile] *)

Lemma dict_get_write_all_other (k : pystr) (updates it : item) :
  dict_get k updates = None ->
  dict_get k (write_all updates it) = dict_get k it.
Proof.
  revert it. induction updates as [|[k' v] l IH]; intros it H; [reflexivity|].
  cbn [dict_get] in H. destruct (str_eqb k k') eqn:Hk; [discriminate|].
  cbn [write_all fold_left fst snd].
  match goal with |- context [fold_left ?f l ?x] =>
    change (fold_left f l x) with (write_all l x) end.
  rewrite IH by exact H. now apply dict_get_set_other.
Qed.

Lemma dict_get_write_all_same (k : pystr) (v : value) (updates it : item) :
  NoDup (map fst updates) ->
  dict_get k updates = Some v ->
  dict_get k (write_all updates it) = Some (to_ddb v).
Proof.
  revert it. induction updates as [|[k' v'] l IH]; intros it Hnd H;
    [discriminate|].
  cbn [map fst] in Hnd. apply NoDup_cons_iff in Hnd as [Hnotin Hnd].
  cbn [dict_get] in H. cbn [write_all fold_left fst snd].
  match goal with |- context [fold_left ?f l ?x] =>
    change (fold_left f l x) with (write_all l x) end.
  destruct (str_eqb k k') eqn:Hk.
  - injection H as ->. apply str_eqb_eq in Hk. subst k'.
    rewrite dict_get_write_all_other; [apply dict_get_set_same|].
    destruct (dict_get k l) as [x|] eqn:Hx; [|reflexivity].
    exfalso. apply Hnotin. clear - Hx.
    induction l as [|[k2 v2] l IHl]; [discriminate|].
    cbn [dict_get] in Hx. destruct (str_eqb k k2) eqn:H2.
    + apply str_eqb_eq in H2. subst k2. now left.
    + right. now apply IHl.
  - now apply IH.
Qed.

Lemma map_fst_dict_set (k : pystr) (v : value) (d : item) :
  map fst (dict_set k v d)
  = if dict_mem k d then map fst d else map fst d ++ [k].
Proof.
  unfold dict_mem. induction d as [|[k' v'] d IH]; [reflexivity|].
  cbn [dict_set dict_get]. destruct (str_eqb k k') eqn:Hk; [reflexivity|].
  cbn [map fst]. rewrite IH. now destruct (dict_get k d).
Qed.

Lemma dict_get_none_not_in (k : pystr) (d : item) :
  dict_get k d = None -> ~ In k (map fst d).
Proof.
  induction d as [|[k' v'] d IH]; intros H Hin; [destruct Hin|].
  cbn [dict_get] in H. destruct (str_eqb k k') eqn:Hk; [discriminate|].
  destruct Hin as [Heq|Hin]; [|now apply IH].
  cbn [fst] in Heq. subst k'. now rewrite str_eqb_refl in Hk.
Qed.

Lemma NoDup_dict_set (k : pystr) (v : value) (d : item) :
  NoDup (map fst d) -> NoDup (map fst (dict_set k v d)).
Proof.
  intros H. rewrite map_fst_dict_set. unfold dict_mem.
  destruct (dict_get k d) eqn:Hk; [exact H|].
  apply NoDup_app; [exact H | repeat constructor; intros [] |].
  intros x Hx [Heq|[]]. subst x. now apply (dict_get_none_not_in k d).
Qed.

Lemma NoDup_onboarding_updates (field : pystr) (d : item) :
  NoDup (map fst (onboarding_updates field d)).
Proof.
  unfold onboarding_updates.
  repeat match goal with
         | |- context [if ?c then _ else _] => destruct c
         end;
    repeat constructor; intros [].
Qed.

Lemma dict_get_onboarding_updates (k field : pystr) (d : item) :
  existsb (str_eqb k)
    [py "nickname"; py "birthday"; py "interests"; py "kpop_preferences";
     py "preferred_topics"] = false ->
  dict_get k (onboarding_updates field d) = None.
Proof.
  intros Hk. cbn [existsb] in Hk.
  repeat (apply orb_false_iff in Hk as [? Hk]).
  unfold onboarding_updates.
  repeat match goal with
         | |- context [if ?c then _ else _] => destruct c
         end;
    cbn [dict_get];
    repeat match goal with
           | H : str_eqb k _ = false |- _ => rewrite H; clear H
           end;
    reflexivity.
Qed.

(** What a completed step stores of the step and of the flag. *)
Lemma step_updates_stored (step : Z) (field : pystr) (d : item) (t : pystr)
    (it : item) :
  let it' := write_all (dict_set (py "updated_at") (VStr t)
                          (step_updates step field d)) it in
  dict_get (py "onboarding_step") it' = Some (VDecimal (Qint (step + 1)))
  /\ dict_get (py "onboarding_complete") it'
     = if 4 <? step + 1 then Some (VBool true)
       else dict_get (py "onboarding_complete") it.
Proof.
  intros it'. subst it'.
  assert (Hnd : NoDup (map fst (dict_set (py "updated_at") (VStr t)
                                  (step_updates step field d)))).
  { apply NoDup_dict_set. unfold step_updates.
    destruct (4 <? step + 1); repeat apply NoDup_dict_set;
      apply NoDup_onboarding_updates. }
  split.
  - change (VDecimal (Qint (step + 1))) with (to_ddb (VInt (step + 1))).
    apply dict_get_write_all_same; [exact Hnd|].
    rewrite dict_get_set_other by reflexivity. unfold step_updates.
    destruct (4 <? step + 1);
      [rewrite dict_get_set_other by reflexivity|];
      apply dict_get_set_same.
  - unfold step_updates in *. destruct (4 <? step + 1).
    + change (VBool true) with (to_ddb (VBool true)).
      apply dict_get_write_all_same; [exact Hnd|].
      rewrite dict_get_set_other by reflexivity. apply dict_get_set_same.
    + apply dict_get_write_all_other.
      rewrite !dict_get_set_other by reflexivity.
      now apply dict_get_onboarding_updates.
Qed.

(** Either nothing is written to the user table and the step does not come
    back one higher, or the step comes back one higher after the update of
    the profile returned. *)
Lemma process_onboarding_response_effect (E : env) (user_id : pystr)
    (messages : list item) (step : Z) (st : state) :
  let r := process_onboarding_response E user_id messages step st in
  (table_users (snd r) = table_users st /\ fst r <> Ok (step + 1))
  \/ (fst r = Ok (step + 1)
      /\ 0 <= step <= 4
      /\ exists field d st1,
           table_users st1 = table_users st
           /\ update_user_profile E user_id (step_updates step field d) st1
              = (Ok tt, snd r)).
Proof.
  intros r. subst r.
  assert (Hne : Ok step <> Ok (step + 1))
    by (intros H; injection H as H; lia).
  unfold process_onboarding_response.
  destruct (ONBOARDING_STEPS step) as [[field instruction]|] eqn:Hs.
  2:{ left. split; [reflexivity | exact Hne]. }
  apply ONBOARDING_STEPS_range in Hs.
  cbv [bind try_except ret raise lift ask_json invoke_model interact]. proj.
  destruct (llm_reply E (tick st) _) as [raw|]; proj.
  2:{ left. split; [reflexivity | exact Hne]. }
  destruct (parse_reply E raw) as [x|e]; proj.
  2:{ left. split; [reflexivity | exact Hne]. }
  destruct x as [| | | | | | |d]; cbn [py_get]; proj;
    try (left; split; [reflexivity | discriminate]).
  destruct (truthy (get_default (py "step_complete") (VBool false) d));
    cbn [negb]; proj.
  2:{ left. split; [reflexivity | exact Hne]. }
  fold (step_updates step field d).
  destruct (update_user_profile E user_id (step_updates step field d)
              (bump st)) as [[[]|e] st2] eqn:Hu; proj.
  - right. split; [reflexivity|]. split; [exact Hs|].
    exists field, d, (bump st).
    split; [reflexivity | exact Hu].
  - left. split; [|discriminate].
    pose proof (update_user_profile_raise E user_id
                  (step_updates step field d) (bump st) e) as Hr.
    rewrite Hu in Hr. destruct (Hr eq_refl) as [H1 _]. exact H1.
Qed.

(** ** Onboarding never goes back, in the store *)

Lemma step_updates_within (step : Z) (field : pystr) (d : item) (t : pystr) :
  updates_within
    [py "nickname"; py "birthday"; py "interests"; py "kpop_preferences";
     py "preferred_topics"; py "onboarding_step"; py "onboarding_complete";
     py "updated_at"]
    (dict_set (py "updated_at") (VStr t) (step_updates step field d)).
Proof.
  unfold step_updates.
  destruct (4 <? step + 1);
    repeat (apply updates_within_dict_set;
            [ reflexivity | apply str_eqb_neq; reflexivity | ]);
    apply onboarding_updates_within.
Qed.

(** A step that comes back higher is the step that is stored. *)
Lemma advanced_step_is_stored (E : env) (user_id : pystr)
    (messages : list item) (step : Z) (st : state) (s' : Z) :
  fst (process_onboarding_response E user_id messages step st) = Ok s' ->
  s' <> step ->
  step_stored user_id s'
    (snd (process_onboarding_response E user_id messages step st)).
Proof.
  intros Hr Hne.
  pose proof (process_onboarding_response_range E user_id messages step st s'
                Hr) as Hrange.
  assert (s' = step + 1) by lia. subst s'.
  destruct (process_onboarding_response_effect E user_id messages step st)
    as [[_ Hno]|[_ (_ & field & d & st1 & _ & Hu)]]; [contradiction|].
  apply update_user_profile_result in Hu.
  2:{ unfold step_updates. destruct (4 <? step + 1); apply dict_set_not_nil. }
  set (it' := write_all _ (profile_before user_id st1)) in Hu.
  destruct (step_updates_stored step field d (now E (tick st1))
              (profile_before user_id st1)) as [Hs _]. fold it' in Hs.
  exists it'. split; [|exact Hs].
  rewrite Hu. unfold stored_user. proj.
  apply table_find_put_same.
  transitivity (key_of (key_schema Users) (profile_before user_id st1));
    [|apply key_of_profile_before].
  subst it'. apply key_of_write_all. intros [k v] Hkv.
  destruct (step_updates_within step field d (now E (tick st1)) k v Hkv)
    as [_ Hk].
  cbn [key_schema existsb fst]. rewrite orb_false_r.
  now apply str_eqb_neq.
Qed.

Lemma step_stored_same_users (user_id : pystr) (z : Z) (st st' : state) :
  table_users st' = table_users st ->
  step_stored user_id z st -> step_stored user_id z st'.
Proof.
  intros Hu (it & Hit & Hz). exists it. split; [|exact Hz].
  unfold stored_user in *. now rewrite Hu.
Qed.

(** A turn of the session leaves the step it holds stored. *)
Lemma turn_stores_the_step (E : env) (user_id : pystr) (messages : list item)
    (step : Z) (st : state) :
  step_stored user_id step st ->
  step_stored user_id (fst (onboarding_turn E user_id messages step st))
    (snd (onboarding_turn E user_id messages step st)).
Proof.
  intros Hst. unfold onboarding_turn.
  pose proof (advanced_step_is_stored E user_id messages step st) as Hadv.
  pose proof (process_onboarding_response_effect E user_id messages step st)
    as Heff. cbv zeta in Heff.
  destruct (process_onboarding_response E user_id messages step st)
    as [[s'|e] st'] eqn:Hr; cbn [fst snd] in *.
  - destruct (Z.eq_dec s' step) as [->|Hne]; [|now apply Hadv].
    destruct Heff as [[Hu _]|[Hs' _]];
      [now apply (step_stored_same_users user_id step st) |].
    injection Hs' as Hs'. lia.
  - destruct Heff as [[Hu _]|[Hs' _]]; [|discriminate Hs'].
    now apply (step_stored_same_users user_id step st).
Qed.

(** Any other operation leaves the stored step alone. *)
Lemma step_stored_kept_by_run_op (E : env) (user_id : pystr) (o : op)
    (z : Z) (st : state) :
  only_turns_judge user_id [Other o] = true ->
  step_stored user_id z st -> step_stored user_id z (run_op E o st).
Proof.
  intros Ho (it & Hit & Hz).
  destruct (str_eqb (op_user o) user_id) eqn:Hu.
  - apply str_eqb_eq in Hu. subst user_id.
    destruct (profile_kept_by_run_op E o st it Hit) as (it' & Hfind & Hsame).
    exists it'. split; [exact Hfind|]. rewrite Hsame; [exact Hz|].
    destruct o; try reflexivity.
    cbn [only_turns_judge forallb op_user] in Ho.
    rewrite str_eqb_refl in Ho. discriminate Ho.
  - apply str_eqb_neq in Hu. exists it. split; [|exact Hz].
    rewrite operations_keep_the_profiles_of_other_users; [exact Hit|].
    intros H. apply Hu. now symmetry.
Qed.

Lemma session_stores_the_step (E : env) (user_id : pystr)
    (events : list event) :
  only_turns_judge user_id events = true ->
  forall step st,
    step_stored user_id step st ->
    forall p, In p (session E user_id events step st) ->
              step_stored user_id (fst p) (snd p).
Proof.
  induction events as [|ev events IH]; intros Hev step st Hst p Hin;
    [destruct Hin|].
  assert (Hrest : only_turns_judge user_id events = true).
  { unfold only_turns_judge in *. cbn [forallb] in Hev.
    now apply andb_true_iff in Hev as [_ Hev]. }
  destruct ev as [messages|o]; cbn [session] in Hin.
  - pose proof (turn_stores_the_step E user_id messages step st Hst) as Ht.
    destruct Hin as [<-|Hin]; [exact Ht|].
    exact (IH Hrest _ _ Ht p Hin).
  - assert (Ho : step_stored user_id step (run_op E o st)).
    { apply step_stored_kept_by_run_op; [|exact Hst].
      unfold only_turns_judge in *. cbn [forallb] in Hev |- *.
      apply andb_true_iff in Hev as [Hev _]. now rewrite Hev. }
    destruct Hin as [<-|Hin]; [exact Ho|].
    exact (IH Hrest _ _ Ho p Hin).
Qed.

(** C6 (as amended). A call of [process_onboarding_response] returns the
    step it was given or that step plus one; a step that comes back higher
    is the step then stored (the step passed in plus one, whatever was
    stored); past the last step (in particular at 5) the call returns the
    step and touches nothing, not even the model.  So along any session,
    in which the step returned is the step passed next and any other
    operations of the manager come in between, the step held never
    decreases and stays where it is once above 4; the stored flag, once
    true, is true after every later event, and it is stored when the step
    passes 4; and when the session starts with the stored step and no
    other call of [process_onboarding_response] is made for the user, the
    stored step is the step held after every event, so that it never
    decreases either. *)
Theorem onboarding_never_goes_back (E : env) (user_id : pystr) :
  (forall messages step st s',
     fst (process_onboarding_response E user_id messages step st) = Ok s' ->
     step <= s' <= step + 1)
  /\ (forall messages step st s',
        fst (process_onboarding_response E user_id messages step st) = Ok s' ->
        s' <> step ->
        step_stored user_id s'
          (snd (process_onboarding_response E user_id messages step st)))
  /\ (forall messages step st,
        4 < step ->
        process_onboarding_response E user_id messages step st
        = (Ok step, st))
  /\ (forall messages st,
        process_onboarding_response E user_id messages 5 st = (Ok 5, st))
  /\ (forall events step st,
        StronglySorted Z.le
          (step :: map fst (session E user_id events step st))
        /\ (4 < step ->
            forall p, In p (session E user_id events step st) ->
                      fst p = step)
        /\ (onboarding_complete_stored user_id (table_users st) ->
            forall p, In p (session E user_id events step st) ->
                      onboarding_complete_stored user_id
                        (table_users (snd p)))
        /\ (step <= 4 ->
            forall p, In p (session E user_id events step st) ->
                      4 < fst p ->
                      onboarding_complete_stored user_id
                        (table_users (snd p)))
        /\ (only_turns_judge user_id events = true ->
            step_stored user_id step st ->
            forall p, In p (session E user_id events step st) ->
                      step_stored user_id (fst p) (snd p))).
Proof.
  split; [|split; [|split; [|split]]].
  - intros messages step st s'. apply process_onboarding_response_range.
  - intros messages step st s'. apply advanced_step_is_stored.
  - intros messages step st. apply process_onboarding_response_done.
  - intros messages st. apply process_onboarding_response_done. lia.
  - intros events step st. split; [|split; [|split; [|split]]].
    + apply Sorted_StronglySorted.
      * intros x y z. apply Z.le_trans.
      * apply session_steps_sorted.
    + apply session_done.
    + apply session_keeps_flag.
    + apply session_sets_flag.
    + intros Hev Hst. now apply session_stores_the_step.
Qed.

(** ** The step the page holds *)

Lemma convert_stored_step (E : env) (z : Z) :
  0 <= z <= 4 ->
  _convert_decimals E (VDecimal (Qint (z + 1))) = Ok (VInt (z + 1)).
Proof.
  intros Hz. apply convert_whole.
  apply Z.le_lt_trans with 5; [lia | reflexivity].
Qed.

Lemma in_line_kept (E : env) (user_id : pystr) (w : list pystr)
    (c : chat) (st st' : state) :
  existsb (str_eqb (py "onboarding_step")) w = false ->
  existsb (str_eqb (py "onboarding_complete")) w = false ->
  (forall it, stored_user user_id st = Some it ->
              profile_kept user_id w it (table_users st')) ->
  in_line E user_id c st -> in_line E user_id c st'.
Proof.
  intros Hw1 Hw2 Hkept
    (p & it & step & flag & Hp & Hit & Hstep & Hpy & Hflag & Htr).
  destruct (Hkept it Hit) as [it' [Hfind Hsame]].
  exists p, it', step, flag. split; [exact Hp|]. split; [exact Hfind|].
  unfold get_default in *.
  rewrite (Hsame _ Hw1), (Hsame _ Hw2). auto.
Qed.

Lemma in_line_same_users (E : env) (user_id : pystr) (c : chat)
    (st st' : state) :
  table_users st' = table_users st ->
  in_line E user_id c st -> in_line E user_id c st'.
Proof.
  intros Hu (p & it & step & flag & Hp & Hit & H). exists p, it, step, flag.
  split; [exact Hp|]. split; [|exact H].
  unfold stored_user in *. now rewrite Hu.
Qed.

(** ** The step the page holds, after a reply *)

Lemma in_line_set_last_full_save (E : env) (user_id : pystr) (n : Z)
    (c : chat) (st : state) :
  in_line E user_id c st -> in_line E user_id (set_last_full_save n c) st.
Proof.
  intros (p & it & step & flag & H). exists p, it, step, flag. exact H.
Qed.

Lemma onboarding_stage (E : env) (user_id : pystr) (c : chat) (st : state)
    (p : item) :
  chat_user_profile c = Some p ->
  in_line E user_id c st ->
  forall z, py_int E (get_default (py "onboarding_step") (VInt 0) p) = Ok z ->
  let r := process_onboarding_response E user_id (chat_messages c) z st in
  match fst r with
  | Ok new_step =>
      in_line E user_id
        (if negb (new_step =? z) then
           set_user_profile
             (let p' := dict_set (py "onboarding_step") (VInt new_step) p in
              if 4 <? new_step
              then dict_set (py "onboarding_complete") (VBool true) p'
              else p') c
         else c)
        (snd r)
  | Raise _ => in_line E user_id c (snd r)
  end.
Proof.
  intros Hp Hin z Hz r. subst r.
  destruct (process_onboarding_response_effect E user_id (chat_messages c) z
              st) as [[Hu Hne]|[Hr (Hrange & field & d & st1 & Hu1 & Hu)]].
  - destruct (fst (process_onboarding_response E user_id (chat_messages c) z
                     st)) as [s'|e] eqn:Hr.
    + pose proof (process_onboarding_response_range E user_id
                    (chat_messages c) z st s' Hr) as Hrange.
      assert (s' = z).
      { destruct (Z.eq_dec s' (z + 1)) as [->|]; [now elim Hne | lia]. }
      subst s'. rewrite Z.eqb_refl. cbn [negb].
      now apply (in_line_same_users E user_id c st).
    + now apply (in_line_same_users E user_id c st).
  - rewrite Hr.
    replace (z + 1 =? z) with false by (symmetry; apply Z.eqb_neq; lia).
    cbn [negb].
    apply update_user_profile_result in Hu.
    2:{ unfold step_updates. destruct (4 <? z + 1); apply dict_set_not_nil. }
    destruct Hin as (p0 & it & step & flag & Hp0 & Hit & Hstep & Hpy
                     & Hflag & Htr).
    rewrite Hp in Hp0. injection Hp0 as <-.
    assert (Hbefore : profile_before user_id st1 = it).
    { unfold profile_before, stored_user in *. rewrite Hu1, Hit.
      reflexivity. }
    rewrite Hbefore in Hu.
    set (it' := write_all _ it) in Hu.
    destruct (step_updates_stored z field d (now E (tick st1)) it)
      as [Hs Hc]. fold it' in Hs, Hc.
    exists (if 4 <? z + 1
            then dict_set (py "onboarding_complete") (VBool true)
                   (dict_set (py "onboarding_step") (VInt (z + 1)) p)
            else dict_set (py "onboarding_step") (VInt (z + 1)) p),
      it', (VInt (z + 1)),
      (if 4 <? z + 1 then VBool true else flag).
    split; [reflexivity|]. split.
    + rewrite Hu. unfold stored_user. proj.
      apply table_find_put_same.
      transitivity (key_of (key_schema Users) it).
      * subst it'. apply key_of_write_all. intros [k v] Hkv.
        destruct (step_updates_within z field d (now E (tick st1)) k v Hkv)
          as [_ Hk].
        cbn [key_schema existsb fst]. rewrite orb_false_r.
        now apply str_eqb_neq.
      * unfold stored_user in Hit. now apply table_find_some in Hit.
    + unfold get_truthy, get_default. rewrite Hs, Hc.
      split; [now apply convert_stored_step|].
      destruct (4 <? z + 1).
      * rewrite dict_get_set_other by reflexivity.
        rewrite !dict_get_set_same. repeat split; reflexivity.
      * rewrite dict_get_set_same.
        rewrite dict_get_set_other by reflexivity.
        split; [reflexivity|]. split; [exact Hflag | exact Htr].
Qed.

Lemma get_or_create_user_result (E : env) (user_id email display_name : pystr)
    (st : state) (p : item) :
  fst (get_or_create_user E user_id email display_name st) = Ok p ->
  (exists it, stored_user user_id st = Some it /\ convert_item E it = Ok p)
  \/ (p = new_user user_id email display_name (now E (tick st))
      /\ stored_user user_id
           (snd (get_or_create_user E user_id email display_name st))
         = Some (to_ddb_item p)).
Proof.
  unfold get_or_create_user, stored_user. run_m. proj.
  destruct (fault E (S (tick st))); proj; [discriminate|].
  destruct (table_find (key_schema Users) [user_id] (table_users st))
    as [it|] eqn:Hfind.
  - cbn [existsb action_has_float has_float orb]. proj.
    destruct (fault E (S (S (tick st)))); proj; [discriminate|].
    match goal with |- context [table_update ?ks ?k ?acts ?tb] =>
      destruct (table_update ks k acts tb) as [tb'|err] end;
      proj; [|discriminate].
    cbv [lift]. proj. intros H. left. eauto.
  - change (item_has_float (new_user user_id email display_name
                              (now E (tick st)))) with false.
    proj. destruct (fault E (S (S (tick st)))); proj; [discriminate|].
    change (key_of (key_schema Users)
              (new_user user_id email display_name (now E (tick st))))
      with (Some [user_id]).
    proj. intros H. injection H as <-. right. split; [reflexivity|].
    apply table_find_put_same. reflexivity.
Qed.

Lemma ui_preserves_ret {A} (I : chat -> state -> Prop) (a : A) :
  ui_preserves I (ui_ret a).
Proof. intros c st H. exact H. Qed.

Lemma ui_bind_keeps {A B} (I : chat -> state -> Prop) (m : UI A)
    (k : A -> UI B) (c : chat) (st : state) :
  I (snd (fst (m c st))) (snd (m c st)) ->
  (forall a, ui_preserves I (k a)) ->
  I (snd (fst (ui_bind m k c st))) (snd (ui_bind m k c st)).
Proof.
  intros Hm Hk. unfold ui_bind.
  destruct (m c st) as [[[a|e] c'] st']; cbn [fst snd] in *;
    [now apply Hk | exact Hm].
Qed.

Lemma ui_preserves_bind {A B} (I : chat -> state -> Prop) (m : UI A)
    (k : A -> UI B) :
  ui_preserves I m -> (forall a, ui_preserves I (k a)) ->
  ui_preserves I (ui_bind m k).
Proof. intros Hm Hk c st H. apply ui_bind_keeps; auto. Qed.

Lemma ui_preserves_call {A} (I : chat -> state -> Prop) (m : M A) :
  (forall c, preserves (I c) m) -> ui_preserves I (call m).
Proof.
  intros Hm c st H. unfold call. specialize (Hm c st H).
  destruct (m st) as [r st']. exact Hm.
Qed.

Lemma ui_preserves_set_session_state (I : chat -> state -> Prop)
    (f : chat -> chat) :
  (forall c st, I c st -> I (f c) st) ->
  ui_preserves I (set_session_state f).
Proof. intros Hf c st H. now apply Hf. Qed.

Lemma ui_preserves_session_state {B} (I : chat -> state -> Prop)
    (k : chat -> UI B) :
  (forall c st, I c st -> I (snd (fst (k c c st))) (snd (k c c st))) ->
  ui_preserves I (ui_bind session_state k).
Proof. intros Hk c st H. now apply Hk. Qed.

Section Page.

Variable E : env.
Variable user_id : pystr.

(** A call that keeps the step and the flag of the stored profile keeps
    the page in line. *)
Lemma in_line_kept_by_op (o : op) (c : chat) :
  op_user o = user_id ->
  existsb (str_eqb (py "onboarding_step")) (written_attributes o) = false ->
  existsb (str_eqb (py "onboarding_complete")) (written_attributes o)
  = false ->
  forall st, in_line E user_id c st -> in_line E user_id c (run_op E o st).
Proof.
  intros Hu H1 H2 st. apply (in_line_kept E user_id (written_attributes o)).
  - exact H1.
  - exact H2.
  - intros it Hit. rewrite <- Hu in *.
    now apply profile_kept_by_run_op.
Qed.

Lemma in_line_bump (c : chat) (st : state) :
  in_line E user_id c st -> in_line E user_id c (bump st).
Proof. now apply in_line_same_users. Qed.

Lemma after_reply_keeps_in_line (character : pystr) :
  ui_preserves (in_line E user_id) (after_reply E user_id character).
Proof.
  unfold after_reply.
  apply ui_preserves_bind.
  { apply ui_preserves_call. intros c st H.
    cbv [utc_now bind interact ret]. proj. now apply in_line_bump. }
  intros now_. apply ui_preserves_session_state. intros c st Hin.
  apply ui_bind_keeps.
  { unfold call.
    pose proof (in_line_kept_by_op
                  (SaveIncremental user_id character (chat_messages c)
                     match chat_session_start c with
                     | Some s => s
                     | None => now_
                     end) c eq_refl eq_refl eq_refl st Hin) as H.
    cbn [run_op] in H.
    destruct (save_messages_incremental _ _ _ _ _ _) as [r st']. exact H. }
  intros _. apply ui_preserves_bind.
  { destruct (6 <=? _); [|apply ui_preserves_ret].
    apply ui_preserves_bind.
    - apply ui_preserves_call. intros c0 st0 H.
      exact (in_line_kept_by_op
               (SaveConversation user_id character (chat_messages c)
                  match chat_session_start c with
                  | Some s => s
                  | None => now_
                  end) c0 eq_refl eq_refl eq_refl st0 H).
    - intros _. apply ui_preserves_set_session_state.
      intros c0 st0. apply in_line_set_last_full_save. }
  intros _. apply ui_preserves_session_state. clear c st Hin.
  intros c st Hin.
  apply ui_bind_keeps.
  2:{ intros _. apply ui_preserves_call. intros c0 st0 H.
      exact (in_line_kept_by_op
               (ProfileCompletion user_id (chat_messages c)) c0
               eq_refl eq_refl eq_refl st0 H). }
  destruct Hin as (p & it & step & flag & Hp & Hrest).
  assert (Hin : in_line E user_id c st) by (exists p, it, step, flag; auto).
  rewrite Hp.
  destruct (get_truthy (py "onboarding_complete") p); cbn [negb];
    [exact Hin|].
  cbv [ui_bind call lift].
  destruct (py_int E (get_default (py "onboarding_step") (VInt 0) p))
    as [z|e] eqn:Hz; cbn [fst snd]; [|exact Hin].
  pose proof (onboarding_stage E user_id c st p Hp Hin z Hz) as H.
  cbv zeta in H.
  destruct (process_onboarding_response E user_id (chat_messages c) z st)
    as [[s'|e] st']; cbn [fst snd] in *.
  - destruct (negb (s' =? z)); exact H.
  - exact H.
Qed.

End Page.

(** X24. The step and the flag the page holds stay the ones of the stored
    profile: the profile a login returns reads the same onboarding step
    and the same flag as the profile the login leaves stored, and the block
    that runs after each reply keeps it so, in every world and whether it
    ends or raises, so that the step passed to
    [process_onboarding_response] is the stored one. *)
Theorem the_page_keeps_its_step_in_line (E : env) (user_id : pystr) :
  (forall st email display_name p,
     fst (get_or_create_user E user_id email display_name st) = Ok p ->
     in_line E user_id (fresh_chat p)
       (snd (get_or_create_user E user_id email display_name st)))
  /\ (forall character c st,
        in_line E user_id c st ->
        in_line E user_id
          (snd (fst (after_reply E user_id character c st)))
          (snd (after_reply E user_id character c st))).
Proof.
  split.
  - intros st email display_name p Hr.
    destruct (get_or_create_user_result E user_id email display_name st p Hr)
      as [[it [Hit Hc]]|[-> Hst]].
    + pose proof (profile_kept_by_run_op E
                    (Login user_id email display_name) st it Hit)
        as [it' [Hfind Hsame]].
      cbn [run_op op_user written_attributes] in Hfind, Hsame.
      exists p, it', (get_default (py "onboarding_step") (VInt 0) p),
        (get_default (py "onboarding_complete") VNone p).
      split; [reflexivity|]. split; [exact Hfind|].
      assert (H1 : get_default (py "onboarding_step") (VInt 0) it'
                   = get_default (py "onboarding_step") (VInt 0) it)
        by (unfold get_default;
            now rewrite (Hsame (py "onboarding_step") eq_refl)).
      assert (H2 : get_default (py "onboarding_complete") VNone it'
                   = get_default (py "onboarding_complete") VNone it)
        by (unfold get_default;
            now rewrite (Hsame (py "onboarding_complete") eq_refl)).
      rewrite H1, H2.
      rewrite (convert_get_default E (py "onboarding_step") (VInt 0)
                 it p Hc eq_refl).
      rewrite (convert_get_default E (py "onboarding_complete") VNone
                 it p Hc eq_refl).
      repeat split; reflexivity.
    + eexists _, _, (VInt 0), (VBool false).
      split; [reflexivity|]. split; [exact Hst|].
      repeat split; reflexivity.
  - intros character c st. apply after_reply_keeps_in_line.
Qed.

(** ** The full save *)

Lemma preserves_and {A} (I I' : state -> Prop) (m : M A) :
  preserves I m -> preserves I' m ->
  preserves (fun st => I st /\ I' st) m.
Proof. intros H H' st [H1 H2]. split; [now apply H | now apply H']. Qed.




(** ** The logout *)





(** A login and three replies of two messages each: the full save runs
    after the third. *)
Example the_third_reply_is_saved_in_full :
  let E := Fixtures.world [] None in
  let p := new_user Fixtures.mina (py "mina@example.org") (py "Mina")
             (Fixtures.clock 0) in
  let c := mkChat (Fixtures.three_turns ++ Fixtures.three_turns)
                  (Some (Fixtures.clock 0)) None (Some p) in
  let r := after_reply E Fixtures.mina (py "Rumi") c Fixtures.one_user in
  convert_item E Fixtures.mina_item = Ok p
  /\ fst (fst r) = Ok tt
  /\ chat_last_full_save (snd (fst r)) = Some 6
  /\ length (table_conversations (snd r)) = 1%nat.
Proof. vm_compute. repeat split. Qed.

(** * From a save to the next retrieval *)

Lemma key_of_fact_of (E : env) (user_id conversation_id now_ : pystr)
    (n : nat) (mem : item) :
  key_of (key_schema Memories) (fact_of E user_id conversation_id now_ n mem)
  = Some [user_id;
          py_str E (get_default (py "character") (VStr (py "global")) mem)
          ++ py "#" ++ uuid_hex12 E n].
Proof.
  unfold fact_of. rewrite key_of_to_ddb_item, key_of_sanitize_item.
  reflexivity.
Qed.

Lemma save_memory_ok (E : env) (user_id conversation_id now_ : pystr)
    (mem : item) (st : state) :
  fault E (S (tick st)) = false ->
  save_memory E user_id conversation_id now_ (VDict mem) st
  = (Ok tt,
     set_table Memories
       (table_put (key_schema Memories)
          [user_id;
           py_str E (get_default (py "character") (VStr (py "global")) mem)
           ++ py "#" ++ uuid_hex12 E (tick st)]
          (fact_of E user_id conversation_id now_ (tick st) mem)
          (table_memories st))
       (bump (bump st))).
Proof.
  intros Hf. unfold save_memory. cbn [py_get].
  cbv [bind lift uuid4_hex12 interact ret try_except put_item adapter_call
       raise modify]. proj.
  rewrite sanitize_item_has_no_float. proj. rewrite Hf. proj.
  rewrite key_of_sanitize_item.
  reflexivity.
Qed.

Lemma in_table_put_self (ks : list pystr) (k : list pystr) (it : item)
    (t : list item) :
  In it (table_put ks k it t).
Proof.
  induction t as [|x t IH]; cbn [table_put]; [now left|].
  destruct (has_key ks k x); [now left | now right].
Qed.

Lemma in_table_put_other (ks : list pystr) (k : list pystr) (it x : item)
    (t : list item) :
  In x t -> has_key ks k x = false -> In x (table_put ks k it t).
Proof.
  intros Hin Hk. induction t as [|y t IH]; [destruct Hin|].
  cbn [table_put]. destruct (has_key ks k y) eqn:Hy.
  - destruct Hin as [->|Hin]; [congruence | now right].
  - destruct Hin as [->|Hin]; [now left | right; now apply IH].
Qed.

Lemma app_same_length_tail {A} (a b x y : list A) :
  a ++ x = b ++ y -> length x = length y -> x = y.
Proof.
  intros H Hl.
  assert (Hr : rev x ++ rev a = rev y ++ rev b)
    by (rewrite <- !rev_app_distr; now f_equal).
  assert (Hlr : length (rev x) = length (rev y))
    by (now rewrite !length_rev).
  apply (f_equal (firstn (length (rev x)))) in Hr.
  rewrite firstn_app, firstn_all, Nat.sub_diag in Hr. cbn [firstn] in Hr.
  rewrite app_nil_r in Hr. rewrite Hlr in Hr.
  rewrite firstn_app, firstn_all, Nat.sub_diag in Hr. cbn [firstn] in Hr.
  rewrite app_nil_r in Hr.
  apply (f_equal (@rev A)) in Hr. now rewrite !rev_involutive in Hr.
Qed.

(** The facts of one loop do not share a key. *)
Lemma later_fact_has_another_key (E : env) (user_id conversation_id now_ : pystr)
    (lo hi n m : nat) (mem mem' : item) :
  dependable E lo hi -> (lo <= n < hi)%nat -> (lo <= m < hi)%nat -> n <> m ->
  has_key (key_schema Memories)
    [user_id;
     py_str E (get_default (py "character") (VStr (py "global")) mem')
     ++ py "#" ++ uuid_hex12 E m]
    (fact_of E user_id conversation_id now_ n mem) = false.
Proof.
  intros (_ & Hlen & Hinj) Hn Hm Hne. unfold has_key. rewrite key_of_fact_of.
  apply key_eqb_neq. intros H. injection H as H.
  apply Hne. apply Hinj; [exact Hn | exact Hm |]. symmetry.
  apply (app_same_length_tail
           (py_str E (get_default (py "character") (VStr (py "global")) mem')
            ++ py "#")
           (py_str E (get_default (py "character") (VStr (py "global")) mem)
            ++ py "#"));
    [|now rewrite !Hlen by assumption].
  rewrite <- !app_assoc. exact H.
Qed.

Lemma loop_keeps_fact (E : env) (user_id conversation_id now_ : pystr)
    (lo hi : nat) (f : item) (n : nat) (mem0 : item) (mems : list value) :
  dependable E lo hi ->
  f = fact_of E user_id conversation_id now_ n mem0 ->
  (forall m, In m mems -> exists md, m = VDict md) ->
  forall st,
    (lo <= n < tick st)%nat ->
    (tick st + 2 * length mems <= hi)%nat ->
    In f (table_memories st) ->
    In f (table_memories
            (snd (for_each mems (save_memory E user_id conversation_id now_)
                    st))).
Proof.
  intros Hd -> Hdict. induction mems as [|m mems IH]; intros st Hn Hhi Hin;
    [exact Hin|].
  destruct (Hdict m (or_introl eq_refl)) as [md ->].
  cbn [length] in Hhi.
  cbn [for_each]. unfold bind.
  rewrite save_memory_ok by (apply Hd; lia).
  apply IH.
  - intros x Hx. apply Hdict. now right.
  - proj. lia.
  - proj. lia.
  - proj. apply in_table_put_other; [exact Hin|].
    apply (later_fact_has_another_key E user_id conversation_id now_ lo hi);
      [exact Hd | lia | lia | lia].
Qed.

Lemma loop_stores_fact (E : env) (user_id conversation_id now_ : pystr)
    (lo hi : nat) (mem : item) (mems : list value) :
  dependable E lo hi ->
  (forall m, In m mems -> exists md, m = VDict md) ->
  In (VDict mem) mems ->
  forall st,
    (lo <= tick st)%nat ->
    (tick st + 2 * length mems <= hi)%nat ->
    exists n,
      In (fact_of E user_id conversation_id now_ n mem)
        (table_memories
           (snd (for_each mems (save_memory E user_id conversation_id now_)
                   st))).
Proof.
  intros Hd Hdict Hin. induction mems as [|m mems IH]; intros st Hlo Hhi;
    [destruct Hin|].
  destruct (Hdict m (or_introl eq_refl)) as [md ->].
  cbn [length] in Hhi.
  cbn [for_each]. unfold bind.
  rewrite save_memory_ok by (apply Hd; lia).
  destruct Hin as [Heq|Hin].
  - injection Heq as ->. exists (tick st).
    apply (loop_keeps_fact E user_id conversation_id now_ lo hi _ (tick st)
             mem); auto.
    + intros x Hx. apply Hdict. now right.
    + proj. lia.
    + proj. lia.
    + proj. apply in_table_put_self.
  - apply IH; [| exact Hin | proj; lia | proj; lia].
    intros x Hx. apply Hdict. now right.
Qed.

Lemma visible_fact_of (E : env) (user_id conversation_id now_ : pystr)
    (n : nat) (mem : item) (scope : pystr) :
  get_default (py "character") (VStr (py "global")) mem = VStr scope ->
  fact_matches user_id scope (fact_of E user_id conversation_id now_ n mem)
  = true.
Proof.
  intros Hc.
  set (f := fact_of E user_id conversation_id now_ n mem).
  assert (H1 : dict_get (py "user_id") f = Some (VStr user_id)).
  { subst f. unfold fact_of.
    rewrite dict_get_to_ddb_item, dict_get_sanitize_item. reflexivity. }
  assert (H2 : dict_get (py "character") f = Some (VStr scope)).
  { subst f. unfold fact_of.
    rewrite dict_get_to_ddb_item, dict_get_sanitize_item.
    cbn [dict_get]. eval_str_eqb. cbn [option_map]. now rewrite Hc. }
  assert (H3 : dict_get (py "active") f = Some (VBool true)).
  { subst f. unfold fact_of.
    rewrite dict_get_to_ddb_item, dict_get_sanitize_item. reflexivity. }
  unfold fact_matches, get_default. rewrite H1, H2, H3. cbn [is_str].
  now rewrite !str_eqb_refl.
Qed.

Lemma bind_eq {A B} (m : M A) (k : A -> M B) (st st1 : state) (a : A) :
  m st = (Ok a, st1) -> bind m k st = k a st1.
Proof. intros H. unfold bind. now rewrite H. Qed.

Lemma bind_lift_ok {A B} (a : A) (k : A -> M B) (st : state) :
  bind (lift (Ok a)) k st = k a st.
Proof. reflexivity. Qed.

(** The two writes of the save whose failure is passed over: they return,
    leave the memory table alone and take one interaction at most. *)
Lemma passed_over_put_object (E : env) (key : pystr) (body : value)
    (st : state) :
  exists st1,
    try_except (put_object E key body) (ret tt) st = (Ok tt, st1)
    /\ table_memories st1 = table_memories st
    /\ (tick st <= tick st1 <= S (tick st))%nat.
Proof.
  run_m. proj. destruct (fault E (tick st)); eexists;
    (split; [reflexivity|]); proj; (split; [reflexivity | lia]).
Qed.

Lemma passed_over_put_item (E : env) (it : item) (st : state) :
  exists st1,
    try_except (put_item E Conversations it) (ret tt) st = (Ok tt, st1)
    /\ table_memories st1 = table_memories st
    /\ (tick st <= tick st1 <= S (tick st))%nat.
Proof.
  run_m. destruct (item_has_float it).
  { eexists. split; [reflexivity|]. split; [reflexivity | lia]. }
  proj. destruct (fault E (tick st)).
  { eexists. split; [reflexivity|]. proj. split; [reflexivity | lia]. }
  destruct (key_of (key_schema Conversations) it);
    eexists; (split; [reflexivity|]); proj; (split; [reflexivity | lia]).
Qed.

(** X27. As long as no adapter call fails and the uuid source does not
    repeat itself during the save, a memory the extraction gives for the
    character of the conversation or for every character (the default) is
    stored by [save_conversation], with the defaults where it names no
    category, content or importance, and is among the facts the two
    queries of [_get_top_memories] read for that user and character. *)
Theorem a_saved_fact_is_visible
    (E : env) (st : state) (user_id character session_start : pystr)
    (messages : list item) (d : item) (mems : list value) (mem : item) :
  dependable E (tick st) (tick st + 2 * length mems + 4) ->
  (2 <= length messages)%nat ->
  extracted E character messages (S (tick st)) = VDict d ->
  py_iter (get_default (py "memories") (VList []) d) = Ok mems ->
  (forall m, In m mems -> exists md, m = VDict md) ->
  In (VDict mem) mems ->
  get_default (py "character") (VStr (py "global")) mem = VStr character
  \/ get_default (py "character") (VStr (py "global")) mem
     = VStr (py "global") ->
  let st' :=
    snd (save_conversation E user_id character messages session_start st) in
  exists n,
    In (fact_of E user_id (conversation_id_of character session_start)
          (now E (tick st)) n mem)
       (visible_facts user_id character (table_memories st')).
Proof.
  intros Hd Hlen Hx Hiter Hdict Hin Hscope st'. subst st'.
  unfold save_conversation.
  destruct (length messages <? 2)%nat eqn:Hl;
    [apply Nat.ltb_lt in Hl; lia|].
  cbv [bind utc_now interact ret]. proj.
  rewrite _extract_all_from_conversation_eq. proj.
  change (tick (bump st)) with (S (tick st)). rewrite Hx.
  unfold save_extraction. cbn [py_get].
  set (cid := conversation_id_of character session_start).
  set (now_ := now E (tick st)).
  (* the transcript *)
  match goal with
  | |- context [try_except (put_object E ?k ?b) (ret tt)] =>
      destruct (passed_over_put_object E k b (bump (bump st)))
        as (st1 & H1 & Hm1 & Ht1)
  end.
  rewrite (bind_eq _ _ _ _ _ H1). rewrite !bind_lift_ok.
  (* the conversation record *)
  match goal with
  | |- context [try_except (put_item E Conversations ?i) (ret tt)] =>
      destruct (passed_over_put_item E i st1) as (st2 & H2 & Hm2 & Ht2)
  end.
  cbn [tick bump] in Ht1.
  rewrite (bind_eq _ _ _ _ _ H2). rewrite bind_lift_ok, Hiter, bind_lift_ok.
  (* the memories, and the profile *)
  destruct (loop_stores_fact E user_id cid now_ _ _ mem mems Hd Hdict Hin
              st2) as [n Hn]; [lia | lia |].
  exists n. unfold visible_facts. apply in_or_app.
  assert (Hstored :
            In (fact_of E user_id cid now_ n mem)
              (table_memories
                 (snd ((for_each mems (save_memory E user_id cid now_) ;;;
                        new_info <-
                          lift (Ok (get_default (py "new_user_info")
                                      (VDict []) d)) ;;
                        (if truthy new_info
                         then
                           profile_updates <-
                             lift (profile_updates_of new_info) ;;
                           match profile_updates with
                           | [] => ret tt
                           | _ :: _ =>
                               update_user_profile E user_id profile_updates
                           end
                         else ret tt)) st2)))).
  { unfold bind at 1.
    destruct (for_each mems (save_memory E user_id cid now_) st2)
      as [[[]|e] st3]; cbn [snd] in Hn |- *; [|exact Hn].
    match goal with |- In _ (table_memories (snd (?m st3))) =>
      assert (Hp : preserves
                     (on_table Memories (fun tb => tb = table_memories st3))
                     m)
    end.
    { preserve_using ltac:(apply memories_kept_by_update_user_profile). }
    specialize (Hp st3 eq_refl). unfold on_table in Hp.
    cbn [get_table] in Hp. rewrite Hp. exact Hn. }
  destruct Hscope as [Hs|Hs]; [right|left]; apply filter_In;
    (split; [exact Hstored | now apply visible_fact_of]).
Qed.

Lemma a_saved_fact_is_visible_witness :
  let E := Fixtures.world Fixtures.known_extractions
             (Some Fixtures.extraction_rated_four) in
  let st' := snd (save_conversation E Fixtures.mina (py "Rumi")
                    Fixtures.two_turns (Fixtures.clock 0) Fixtures.one_user) in
  exists n,
    In (fact_of E Fixtures.mina
          (conversation_id_of (py "Rumi") (Fixtures.clock 0))
          (now E (tick Fixtures.one_user)) n
          [ (py "content", VStr (py "the user is from Busan")) ])
       (visible_facts Fixtures.mina (py "Rumi") (table_memories st')).
Proof.
  apply (a_saved_fact_is_visible
           (Fixtures.world Fixtures.known_extractions
              (Some Fixtures.extraction_rated_four))
           Fixtures.one_user Fixtures.mina (py "Rumi") (Fixtures.clock 0)
           Fixtures.two_turns
           [ (py "memories",
              VList [ VDict [ (py "content",
                               VStr (py "the user leads a dance crew"));
                              (py "importance", VInt 4) ];
                      VDict [ (py "content",
                               VStr (py "the user is from Busan")) ] ]) ]
           [ VDict [ (py "content", VStr (py "the user leads a dance crew"));
                     (py "importance", VInt 4) ];
             VDict [ (py "content", VStr (py "the user is from Busan")) ] ]).
  - split; [intros n Hn; reflexivity | split].
    + intros n Hn. change (3 <= n < 11)%nat in Hn.
      do 11 (destruct n as [|n]; [reflexivity|]). lia.
    + intros n m Hn Hm H.
      change (3 <= n < 11)%nat in Hn. change (3 <= m < 11)%nat in Hm.
      do 11 (destruct n as [|n];
             [do 11 (destruct m as [|m];
                     [first [ reflexivity | lia
                            | vm_compute in H; discriminate H ]|]);
              lia|]).
      lia.
  - apply le_n.
  - vm_compute. reflexivity.
  - reflexivity.
  - intros m [Hm|[Hm|[]]]; subst m; eexists; reflexivity.
  - right. left. reflexivity.
  - right. reflexivity.
Defined.
